(** * SamFetch: firmware codec, catalogue and route handlers

    A shallow embedding of [samfetch/kies.py] and [web/routes.py].

    Python [str] values are Rocq strings, read as sequences of code points
    below 256.  Python exceptions are values of [exn]; a function that may
    raise returns a [result].  The handlers of [web/routes.py] are programs
    over the events they perform (requests sent with the HTTP client, the
    identity generator, closing the client, answering the caller). *)

From Stdlib Require Import ZArith Lia Ascii.
From stdpp Require Import base option list strings pretty gmap.

Local Open Scope Z_scope.

(** ** Exceptions and fallible results *)

(** The error names of [web.exceptions.SamfetchError] that the routes use. *)
Inductive SamfetchError :=
| DEVICE_NOT_FOUND
| FIRMWARE_LIST_EMPTY
| FIRMWARE_CANT_PARSE
| UNAUTHORIZED
| UNKNOWN_ERROR
| MAX_RETRY_EXCEEDED
| KIES_SERVER_ERROR
| KIES_SERVER_OUTER_ERROR
| RANGE_HEADER_INVALID.

Inductive exn :=
| ValueError (msg : string)
| IndexError
| KeyError (key : string)
| TypeError
| AttributeError
| NameError (name : string)
| ParseError
| NotFound (path : string)
| make_error (kind : SamfetchError) (code : Z).

Inductive result (A : Type) :=
| Ok (a : A)
| Raise (e : exn).
Arguments Ok {A} a.
Arguments Raise {A} e.

#[global] Instance result_ret : MRet result := @Ok.
#[global] Instance result_bind : MBind result := λ A B f m,
  match m with Ok a => f a | Raise e => Raise e end.
#[global] Instance result_fmap : FMap result := λ A B f m,
  match m with Ok a => Ok (f a) | Raise e => Raise e end.

Definition is_Ok {A} (r : result A) : bool :=
  match r with Ok _ => true | Raise _ => false end.

(** [o] when present, else the exception [e]. *)
Definition or_raise {A} (e : exn) (o : option A) : result A :=
  match o with Some a => Ok a | None => Raise e end.

(** ** The string methods the code calls *)

Module Py.

Definition ord (c : ascii) : Z := Z.of_nat (nat_of_ascii c).

(** [str.isspace] on one code point below 256. *)
Definition isspace (c : ascii) : bool :=
  bool_decide (ord c ∈ [9; 10; 11; 12; 13; 28; 29; 30; 31; 32; 133; 160]).

Definition digit (c : ascii) : option Z :=
  let n := ord c in
  if bool_decide (48 ≤ n ≤ 57) then Some (n - 48) else None.

(** [s.count(c)] for a one-character [c]. *)
Fixpoint count (c : ascii) (s : string) : nat :=
  match s with
  | EmptyString => 0%nat
  | String a s' => ((if decide (a = c) then 1 else 0) + count c s')%nat
  end.

(** [s.split(c)] for a one-character separator. *)
Fixpoint split (c : ascii) (s : string) : list string :=
  match s with
  | EmptyString => [EmptyString]
  | String a s' =>
      if decide (a = c) then EmptyString :: split c s'
      else match split c s' with
           | h :: t => String a h :: t
           | [] => [String a EmptyString]
           end
  end.

(** [s.split(c, maxsplit=1)]: cut at the first [c] only. *)
Fixpoint split1 (c : ascii) (s : string) : list string :=
  match s with
  | EmptyString => [EmptyString]
  | String a s' =>
      if decide (a = c) then [EmptyString; s']
      else match split1 c s' with
           | h :: t => String a h :: t
           | [] => [String a EmptyString]
           end
  end.

(** [sep.join(l)]. *)
Fixpoint join (sep : string) (l : list string) : string :=
  match l with
  | [] => EmptyString
  | [x] => x
  | x :: l' => x +:+ sep +:+ join sep l'
  end.

Fixpoint lstrip (s : string) : string :=
  match s with
  | String a s' => if isspace a then lstrip s' else s
  | EmptyString => EmptyString
  end.

Fixpoint rstrip (s : string) : string :=
  match s with
  | String a s' =>
      match rstrip s' with
      | EmptyString => if isspace a then EmptyString else String a EmptyString
      | r => String a r
      end
  | EmptyString => EmptyString
  end.

Definition strip (s : string) : string := rstrip (lstrip s).

Definition startswith (p s : string) : bool := String.prefix p s.

Definition removeprefix (p s : string) : string :=
  if startswith p s
  then String.substring (String.length p) (String.length s - String.length p) s
  else s.

Definition endswith (p s : string) : bool :=
  bool_decide (String.length p ≤ String.length s)%nat
  && bool_decide
       (String.substring (String.length s - String.length p) (String.length p) s = p).

Definition removesuffix (p s : string) : string :=
  if endswith p s && negb (bool_decide (p = EmptyString))
  then String.substring 0 (String.length s - String.length p) s
  else s.

(** [s[-n:]]: the last [n] characters, the whole of a shorter string. *)
Definition last_chars (n : nat) (s : string) : string :=
  String.substring (String.length s - n) n s.

(** [s[i]] for [i >= 0], and [s[-i]] for [i > 0]. *)
Definition item (s : string) (i : nat) : result ascii :=
  or_raise IndexError (String.get i s).
Definition item_back (s : string) (i : nat) : result ascii :=
  if bool_decide (i ≤ String.length s)%nat
  then or_raise IndexError (String.get (String.length s - i) s)
  else Raise IndexError.

(** [alphabet.index(c)] for a one-character [c]. *)
Fixpoint index (c : ascii) (alphabet : string) : result Z :=
  match alphabet with
  | EmptyString => Raise (ValueError "substring not found")
  | String a s' => if decide (a = c) then Ok 0 else Z.succ <$> index c s'
  end.

(** [s.replace(old, new)] for a non-empty [old]; [skip] characters of a
    match just replaced are still to be dropped. *)
Fixpoint replace_go (old new : string) (skip : nat) (s : string) : string :=
  match s with
  | EmptyString => EmptyString
  | String a s' =>
      match skip with
      | S k => replace_go old new k s'
      | O =>
          if String.prefix old s
          then new +:+ replace_go old new (String.length old - 1) s'
          else String a (replace_go old new 0 s')
      end
  end.
Definition replace (old new s : string) : string := replace_go old new 0 s.

(** The whitespace that [int] skips around a literal: the ASCII
    whitespace, and the whitespace above 127, which [int] turns into blanks
    before it reads the literal.  The separators 28 to 31 are whitespace
    for [str.strip] and [str.isspace], but not for [int]. *)
Definition int_space (c : ascii) : bool :=
  bool_decide (ord c ∈ [9; 10; 11; 12; 13; 32; 133; 160]).

Fixpoint int_lstrip (s : string) : string :=
  match s with
  | String a s' => if int_space a then int_lstrip s' else s
  | EmptyString => EmptyString
  end.

(** The run of digits of [int(s)] after the sign: decimal digits, single
    underscores allowed between two digits.  [seen] tells whether the
    previous character was a digit, [n] counts the digits read.  The
    result is the value, the number of digits, and what follows the run. *)
Fixpoint int_digits (acc : Z) (n : nat) (seen : bool) (s : string)
  : option (Z * nat * string) :=
  match s with
  | EmptyString => if seen then Some (acc, n, EmptyString) else None
  | String a s' =>
      match digit a with
      | Some d => int_digits (10 * acc + d) (S n) true s'
      | None =>
          if decide (a = "_"%char) then
            if seen then int_digits acc n false s' else None
          else if seen then Some (acc, n, s) else None
      end
  end.

(** The default of [sys.int_max_str_digits]. *)
Definition int_max_str_digits : nat := 4300.

(** [int(s)] in base 10: whitespace, an optional sign, the run of digits,
    whitespace.  A run of more digits than the interpreter's limit is
    refused before what follows it is looked at.  The message of an
    invalid literal ends with the printed form of [s], which is left out. *)
Definition int (s : string) : result Z :=
  let invalid := ValueError "invalid literal for int() with base 10" in
  let '(negative, r) :=
    match int_lstrip s with
    | String "-" r => (true, r)
    | String "+" r => (false, r)
    | r => (false, r)
    end in
  match int_digits 0 0 false r with
  | Some (v, n, rest) =>
      if bool_decide (int_max_str_digits < n)%nat then
        Raise (ValueError
                 ("Exceeds the limit (4300 digits) for integer string conversion: "
                  +:+ "value has " +:+ pretty n
                  +:+ " digits; use sys.set_int_max_str_digits() to increase the limit"))
      else if bool_decide (int_lstrip rest = EmptyString) then
        Ok (if (negative : bool) then - v else v)
      else Raise invalid
  | None => Raise invalid
  end.

(** The characters that a string literal cannot hold here. *)
Definition dquote : string := String (ascii_of_nat 34) EmptyString.
Definition backslash : string := String (ascii_of_nat 92) EmptyString.

Definition hexdigit (c : ascii) : option Z :=
  let n := ord c in
  if bool_decide (48 ≤ n ≤ 57) then Some (n - 48)
  else if bool_decide (65 ≤ n ≤ 70) then Some (n - 55)
  else if bool_decide (97 ≤ n ≤ 102) then Some (n - 87)
  else None.

(** [bytes.fromhex(s)]: two hexadecimal digits a byte, ASCII whitespace
    skipped between bytes. *)
Fixpoint fromhex (s : string) : result (list Z) :=
  match s with
  | EmptyString => Ok []
  | String a s' =>
      if bool_decide (ord a ∈ [9; 10; 11; 12; 13; 32]) then fromhex s'
      else match s' with
           | String b s'' =>
               match hexdigit a, hexdigit b with
               | Some x, Some y => (λ l, (16 * x + y) :: l) <$> fromhex s''
               | _, _ => Raise (ValueError "non-hexadecimal number found in fromhex()")
               end
           | EmptyString => Raise (ValueError "non-hexadecimal number found in fromhex()")
           end
  end.

End Py.

(** ** [samfetch/kies.py]: [KiesUtils] *)

Module KiesUtils.

(** [l[0]], [l[2]] and [l[2] = x] on a list; an index out of range raises. *)
Definition list_item {A} (l : list A) (i : nat) : result A :=
  or_raise IndexError (l !! i).

Definition parse_firmware (firmware : string) : result string :=
  if bool_decide (firmware ≠ EmptyString) then
    let l := Py.split "/" firmware in
    l ← (if bool_decide (length l = 3%nat)
         then (λ x, l ++ [x]) <$> list_item l 0 else Ok l);
    l2 ← list_item l 2;
    l ← (if bool_decide (l2 = EmptyString)
         then (λ x, <[2%nat := x]> l) <$> list_item l 0 else Ok l);
    Ok (Py.join "/" l)
  else Raise (ValueError "Invalid firmware format.").

Definition parse_range_header (header : string) : result (Z * Z) :=
  let ran := Py.split1 "-" (Py.removeprefix "bytes=" (Py.strip header)) in
  match ran with
  | [ran0; ran1] =>
      a ← (if bool_decide (ran0 = EmptyString) then Ok 0 else Py.int ran0);
      b ← (if bool_decide (ran1 = EmptyString) then Ok 0 else Py.int ran1);
      Ok (a, b)
  | _ => Ok (-1, -1)
  end.


(** [join_path] over its positional arguments; an empty one is skipped. *)
Definition join_path (args : list string) (prefix : string) : string :=
  let paths :=
    (λ p, Py.replace " " "/"
            (Py.strip (Py.replace Py.backslash " " (Py.replace "/" " " (Py.strip p)))))
      <$> filter (λ p, p ≠ EmptyString) args in
  prefix +:+ Py.join "/" paths.

(** [string.digits + string.ascii_uppercase]. *)
Definition alphabet : string := "0123456789ABCDEFGHIJKLMNOPQRSTUVWXYZ".

(** The five slots of [result] in [read_firmware]. *)
Definition build_info : Type := option string * option Z * Z * Z * Z.

(** The body of [read_firmware] once [pda] is known. *)
Definition read_pda (pda : string) : result build_info :=
  pda0 ← Py.item pda 0;
  if bool_decide (pda0 ∈ ["U"%char; "S"%char]) then
    let r0 := String.substring 0 2 pda in
    r1 ← (λ c, Py.ord c - Py.ord "A") <$> Py.item pda 2;
    r2 ← (λ c, (Py.ord c - Py.ord "R") + 2018) <$> Py.item pda 3;
    r3 ← (λ c, Py.ord c - Py.ord "A") <$> Py.item pda 4;
    r4 ← (c ← Py.item pda 5; Py.index c alphabet);
    Ok (Some r0, Some r1, r2, r3, r4)
  else
    r2 ← (λ c, (Py.ord c - Py.ord "R") + 2018) <$> Py.item_back pda 3;
    r3 ← (λ c, Py.ord c - Py.ord "A") <$> Py.item_back pda 2;
    r4 ← (c ← Py.item_back pda 1; Py.index c alphabet);
    Ok (None, None, r2, r3, r4).

Definition read_firmware (firmware : string) : result build_info :=
  if bool_decide (Py.count "/" firmware = 3%nat) then
    first ← list_item (Py.split "/" firmware) 0;
    read_pda (Py.last_chars 6 first)
  else Raise (ValueError "Invalid firmware format.").

(** The dictionary of [read_firmware_dict]. *)
Record pda_dict := { bl : option string; date : string; it : string }.

(** [f"{x}"] for an optional integer. *)
Definition fmt (x : option Z) : string :=
  match x with Some n => pretty n | None => "None" end.

Definition read_firmware_dict (firmware : string) : result pda_dict :=
  ff ← read_firmware firmware;
  let '(ff0, ff1, ff2, ff3, ff4) := ff in
  Ok {| bl := ff0;
        date := fmt (Some ff2) +:+ "." +:+ fmt (Some ff3);
        it := fmt ff1 +:+ "." +:+ fmt (Some ff4) |}.

End KiesUtils.

(** ** Parsed XML

    [xmltodict.parse(xml, dict_constructor=dict)] yields strings, [None],
    dictionaries and lists; a dictionary keeps its keys in document order. *)

#[warnings="-register-all"]
Inductive pyval :=
| PNone
| PStr (s : string)
| PList (l : list pyval)
| PDict (d : list (string * pyval)).

Module PyVal.

Fixpoint assoc (key : string) (d : list (string * pyval)) : option pyval :=
  match d with
  | [] => None
  | (k, v) :: d' => if decide (k = key) then Some v else assoc key d'
  end.

(** [v[key]] for a string [key]. *)
Definition getitem (v : pyval) (key : string) : result pyval :=
  match v with
  | PDict d => or_raise (KeyError key) (assoc key d)
  | _ => Raise TypeError
  end.

Definition is_str_eq (key : string) (v : pyval) : bool :=
  match v with PStr s => bool_decide (s = key) | _ => false end.

(** [key in v] for a string [key]: a key of a dictionary, a substring of a
    string, an element of a list. *)
Definition contains (key : string) (v : pyval) : result bool :=
  match v with
  | PDict d => Ok (bool_decide (is_Some (assoc key d)))
  | PStr s => Ok (bool_decide (is_Some (String.index 0 key s)))
  | PList l => Ok (existsb (is_str_eq key) l)
  | PNone => Raise TypeError
  end.

(** [v == None]. *)
Definition is_none (v : pyval) : bool :=
  match v with PNone => true | _ => false end.

(** Truth value of [v]. *)
Definition truthy (v : pyval) : bool :=
  match v with
  | PNone | PStr EmptyString | PList [] | PDict [] => false
  | _ => true
  end.

(** [v.count("/")]: on a string, and on a list. *)
Definition count_slash (v : pyval) : result nat :=
  match v with
  | PStr s => Ok (Py.count "/" s)
  | PList l => Ok (length (filter (λ x, is_str_eq "/" x = true) l))
  | _ => Raise AttributeError
  end.

(** The keys of a dictionary, a key once. *)
Fixpoint keys (d : list (string * pyval)) : list string :=
  match d with
  | [] => []
  | (k, _) :: d' => k :: filter (λ k', k' ≠ k) (keys d')
  end.

(** The characters of a string, each as a string. *)
Fixpoint chars (s : string) : list pyval :=
  match s with
  | EmptyString => []
  | String a s' => PStr (String a EmptyString) :: chars s'
  end.

(** What iterating over [v] yields: the characters of a string, the
    elements of a list, the keys of a dictionary. *)
Definition iter (v : pyval) : result (list pyval) :=
  match v with
  | PNone => Raise TypeError
  | PStr s => Ok (chars s)
  | PList l => Ok l
  | PDict d => Ok (PStr <$> keys d)
  end.

(** [key, value = v]. *)
Definition unpack2 (v : pyval) : result (pyval * pyval) :=
  l ← iter v;
  match l with
  | [key; value] => Ok (key, value)
  | [] => Raise (ValueError "not enough values to unpack (expected 2, got 0)")
  | [_] => Raise (ValueError "not enough values to unpack (expected 2, got 1)")
  | _ => Raise (ValueError "too many values to unpack (expected 2)")
  end.

(** [v] as the key of a dictionary: [None] or a string; a list and a
    dictionary cannot be hashed. *)
Definition hashable (v : pyval) : result (option string) :=
  match v with
  | PNone => Ok None
  | PStr s => Ok (Some s)
  | _ => Raise TypeError
  end.

End PyVal.

(** ** [samfetch/kies.py]: [KiesFirmwareList], [KiesDict], [KiesData] *)

Module KiesFirmwareList.

(** [KiesUtils.parse_firmware] applied to a value of the parsed manifest:
    a value that is not a string is rejected when it is false, and has no
    [split] otherwise. *)
Definition parse_firmware (v : pyval) : result string :=
  match v with
  | PStr s => KiesUtils.parse_firmware s
  | _ => if PyVal.truthy v then Raise AttributeError
         else Raise (ValueError "Invalid firmware format.")
  end.

(** [__init__]: the field [_versions] of the object built from [data]. *)
Definition _versions (data : pyval) : result pyval :=
  has ← PyVal.contains "versioninfo" data;
  if negb has then Ok PNone
  else
    v ← PyVal.getitem data "versioninfo";
    v ← PyVal.getitem v "firmware";
    PyVal.getitem v "version".

Definition latest (versions : pyval) : result (option string) :=
  has ← PyVal.contains "latest" versions;
  if negb has then Ok None
  else
    l ← PyVal.getitem versions "latest";
    match l with
    | PStr s => Some <$> KiesUtils.parse_firmware s
    | PDict _ => t ← PyVal.getitem l "#text"; Some <$> parse_firmware t
    | _ => Ok None
    end.

Definition exists_ (versions : pyval) : result bool :=
  match versions with
  | PNone => Ok false
  | _ => l ← latest versions;
         Ok (if l is None then false else true)
  end.

(** One step of the list comprehension of [alternate]. *)
Definition alternate_item (x : pyval) : result (list string) :=
  t ← PyVal.getitem x "#text";
  n ← PyVal.count_slash t;
  if bool_decide (1 < n)%nat then f ← parse_firmware t; Ok [f] else Ok [].

Fixpoint alternate_list (l : list pyval) : result (list string) :=
  match l with
  | [] => Ok []
  | x :: l' => fs ← alternate_item x; r ← alternate_list l'; Ok (fs ++ r)
  end.

Definition alternate (versions : pyval) : result (list string) :=
  u ← PyVal.getitem versions "upgrade";
  upgrade ← PyVal.getitem u "value";
  match upgrade with
  | PNone => Ok []
  | PList l => alternate_list l
  | PDict _ => alternate_item upgrade
  | PStr _ => Ok []
  end.

End KiesFirmwareList.

Module KiesDict.

(** The dictionary of a [KiesDict]: its keys are strings, or [None] when
    it was built from pairs. *)
Definition t := list (option string * pyval).

Fixpoint lookup (key : option string) (d : t) : option pyval :=
  match d with
  | [] => None
  | (k, v) :: d' => if decide (k = key) then Some v else lookup key d'
  end.

(** [self[key] = value]: a key that is there keeps its place. *)
Fixpoint setitem (d : t) (key : option string) (value : pyval) : t :=
  match d with
  | [] => [(key, value)]
  | (k, v) :: d' =>
      if decide (k = key) then (k, value) :: d' else (k, v) :: setitem d' key value
  end.

(** [UserDict(other)] for a dictionary [other]:
    [for key in other: self[key] = other[key]]. *)
Definition from_dict (other : list (string * pyval)) : t :=
  (λ key, (Some key, default PNone (PyVal.assoc key other))) <$> PyVal.keys other.

(** [UserDict(other)] for the elements [items] of another iterable, after
    the entries [d]: [for key, value in other: self[key] = value]. *)
Fixpoint update (d : t) (items : list pyval) : result t :=
  match items with
  | [] => Ok d
  | item :: items' =>
      kv ← PyVal.unpack2 item;
      key ← PyVal.hashable kv.1;
      update (setitem d key kv.2) items'
  end.

Definition getitem (d : t) (key : string) : result pyval :=
  v ← or_raise (KeyError key) (lookup (Some key) d);
  match v with
  | PDict inner => Ok (default v (PyVal.assoc "Data" inner))
  | _ => Ok v
  end.

(** [d.get(key, None)]: a missing key gives [None]. *)
Definition get (d : t) (key : string) : pyval :=
  match getitem d key with Ok v => v | Raise _ => PNone end.

Fixpoint get_first (d : t) (keys : list string) : pyval :=
  match keys with
  | [] => PNone
  | key :: keys' =>
      match get d key with PNone => get_first d keys' | v => v end
  end.

End KiesDict.

Module KiesData.

Definition fus_body (data : pyval) : result pyval :=
  m ← PyVal.getitem data "FUSMsg"; PyVal.getitem m "FUSBody".

(** [body]: the [KiesDict] of the [Put] section, of the empty dictionary
    when the section is absent.  The constructor takes nothing from
    [None], copies a dictionary, and reads any other value as a sequence
    of pairs: a list of [Put] sections each of which unpacks into two
    items makes a dictionary, and a non-empty string makes the unpacking
    fail. *)
Definition body (data : pyval) : result KiesDict.t :=
  b ← fus_body data;
  match b with
  | PDict d =>
      match PyVal.assoc "Put" d with
      | None | Some PNone => Ok []
      | Some (PDict put) => Ok (KiesDict.from_dict put)
      | Some v => items ← PyVal.iter v; KiesDict.update [] items
      end
  | _ => Raise AttributeError
  end.

Definition status_code (data : pyval) : result Z :=
  b ← fus_body data;
  r ← PyVal.getitem b "Results";
  s ← PyVal.getitem r "Status";
  match s with
  | PStr s => Py.int s
  | _ => Raise TypeError
  end.

End KiesData.

(** ** What the handlers exchange with their surroundings *)

(** An [httpx.Response], by what the handlers read of it: the HTTP status,
    the headers, and the two readings of its text,
    [xmltodict.parse(text, dict_constructor=dict)] and
    [ET.fromstring(text).find(".//Status").text]. *)
Module Response.
Record t := {
  status_code : Z;
  headers : gmap string string;
  xml : result pyval;
  status_text : result (option string)
}.
End Response.

(** The [sanic] request, by what the handlers read of it. *)
Module Request.
Record t := {
  scheme : string;
  server_name : string;
  server_port : Z;
  path : string;
  args : gmap string string;
  headers : gmap string string
}.
End Request.

(** One element of the JSON list of [get_firmware_list]; [is_latest] is a
    key of the first element only. *)
Module Listing.
Record t := {
  firmware : string;
  is_latest : option bool;
  pda : KiesUtils.pda_dict
}.
End Listing.

(** The JSON object of [get_binary_details]. *)
Module Details.
Record t := {
  display_name : pyval;
  size : Z;
  size_readable : string;
  filename : pyval;
  path : pyval;
  version : string;
  encrypt_version : Z;
  last_modified : Z;
  decrypt_key : string;
  firmware_changelog_url : pyval;
  platform : pyval;
  crc : pyval;
  download_path : string;
  download_path_decrypt : string;
  pda : KiesUtils.pda_dict;
  imei : option string;
  firmware : string
}.
End Details.

(** What [request.respond] is given in [download_binary]. *)
Module Head.
Record t := {
  headers : gmap string string;
  content_type : string;
  status : Z
}.
End Head.

(** What a handler hands back to the web framework. *)
Inductive Reply :=
| json_list (ff : list Listing.t)
| json_details (d : Details.t)
| redirect (to : string).

(** ** Programs over the outside world

    [samfetch/session.py], [samfetch/crypto.py], [samfetch/imei.py] and
    [web/exceptions.py] are not among the sources.  The session type and its
    operations are parameters of the section below; the identity generator
    and the decryptor are events answered by the world, like the HTTP
    client and the file system.  A request that the client fails to
    deliver is answered by the exception it raises. *)

Section Programs.

Variable Session : Type.

(** The requests built by [KiesRequest]. *)
Inductive KiesRequest :=
| get_nonce
| list_firmware (region model : string)
| get_binary (region model firmware : string) (imei : option string) (session : Session)
| get_download (path : string) (session : Session)
| start_download (path : string) (session : Session) (custom_range : option string).

Inductive Prog (A : Type) : Type :=
| Return (r : result A)
| Send (q : KiesRequest) (k : result Response.t → Prog A)
| ReadCsv (csv_path : string) (k : result (list (list string)) → Prog A)
| GenerateImei (tac : option string) (k : result string → Prog A)
| Aclose (k : Prog A)
| Respond (h : Head.t) (k : Prog A)
| StartDecryptor (key : option (list Z)) (k : result () → Prog A).
Arguments Return {A} r.
Arguments Send {A} q k.
Arguments ReadCsv {A} csv_path k.
Arguments GenerateImei {A} tac k.
Arguments Aclose {A} k.
Arguments Respond {A} h k.
Arguments StartDecryptor {A} key k.

(** Continue with [f] on the outcome of [p], raised or returned. *)
Fixpoint on_outcome {A B} (p : Prog A) (f : result A → Prog B) : Prog B :=
  match p with
  | Return r => f r
  | Send q k => Send q (λ x, on_outcome (k x) f)
  | ReadCsv c k => ReadCsv c (λ x, on_outcome (k x) f)
  | GenerateImei tac k => GenerateImei tac (λ x, on_outcome (k x) f)
  | Aclose k => Aclose (on_outcome k f)
  | Respond h k => Respond h (on_outcome k f)
  | StartDecryptor key k => StartDecryptor key (λ x, on_outcome (k x) f)
  end.

#[local] Instance Prog_ret : MRet Prog := λ A a, Return (Ok a).
#[local] Instance Prog_bind : MBind Prog := λ A B f p,
  on_outcome p (λ r, match r with Ok a => f a | Raise e => Return (Raise e) end).

Definition raise {A} (e : exn) : Prog A := Return (Raise e).
Definition send (q : KiesRequest) : Prog Response.t := Send q Return.
Definition aclose : Prog () := Aclose (mret ()).

(** [try: p finally: await client.aclose()]. *)
Definition try_finally_aclose {A} (p : Prog A) : Prog A :=
  on_outcome p (λ r, Aclose (Return r)).

(** *** The world and the run of a program in it *)

Inductive Event :=
| Sent (q : KiesRequest) (r : result Response.t)
| CsvRead (csv_path : string)
| ImeiGenerated (tac : option string) (r : result string)
| Closed
| Responded (h : Head.t)
| DecryptorStarted (key : option (list Z)).

(** The world answers from what has happened so far. *)
Record World := {
  http : list Event → KiesRequest → result Response.t;
  csv : list Event → string → result (list (list string));
  generate_random_imei : list Event → option string → result string;
  start_decryptor : list Event → option (list Z) → result ()
}.

(** The events of [p] after [past], in order, and its outcome. *)
Fixpoint run {A} (w : World) (p : Prog A) (past : list Event)
  : list Event * result A :=
  match p with
  | Return r => (past, r)
  | Send q k => let r := http w past q in run w (k r) (past ++ [Sent q r])
  | ReadCsv c k => run w (k (csv w past c)) (past ++ [CsvRead c])
  | GenerateImei tac k =>
      let r := generate_random_imei w past tac in
      run w (k r) (past ++ [ImeiGenerated tac r])
  | Aclose k => run w k (past ++ [Closed])
  | Respond h k => run w k (past ++ [Responded h])
  | StartDecryptor key k =>
      run w (k (start_decryptor w past key)) (past ++ [DecryptorStarted key])
  end.

(** The requests sent in a trace, in order. *)
Definition requests (tr : list Event) : list KiesRequest :=
  omap (λ e, match e with Sent q _ => Some q | _ => None end) tr.

Definition lift {A} (r : result A) : Prog A := Return r.

End Programs.

Arguments get_nonce {Session}.
Arguments list_firmware {Session} region model.
Arguments get_binary {Session} region model firmware imei session.
Arguments get_download {Session} path session.
Arguments start_download {Session} path session custom_range.
Arguments Return {Session A} r.
Arguments Send {Session A} q k.
Arguments ReadCsv {Session A} csv_path k.
Arguments GenerateImei {Session A} tac k.
Arguments Aclose {Session A} k.
Arguments Respond {Session A} h k.
Arguments StartDecryptor {Session A} key k.
Arguments on_outcome {Session A B} p f.
Arguments raise {Session A} e.
Arguments lift {Session A} r.
Arguments send {Session} q.
Arguments aclose {Session}.
Arguments try_finally_aclose {Session A} p.
Arguments Sent {Session} q r.
Arguments CsvRead {Session} csv_path.
Arguments ImeiGenerated {Session} tac r.
Arguments Closed {Session}.
Arguments Responded {Session} h.
Arguments DecryptorStarted {Session} key.
Arguments http {Session} w past q : rename.
Arguments csv {Session} w past csv_path : rename.
Arguments generate_random_imei {Session} w past tac : rename.
Arguments start_decryptor {Session} w past key : rename.
Arguments run {Session A} w p past.
Arguments requests {Session} tr.

#[global] Existing Instance Prog_ret.
#[global] Existing Instance Prog_bind.

(** ** [web/routes.py] *)

(** [samfetch/session.py]: the operations of a session that the handlers
    call.  The keys are taken in the hexadecimal form the handlers use. *)
Class SessionOps (Session : Type) := {
  from_response : Response.t → result Session;
  refresh_session : Session → Response.t → result Session;
  getv2key : Session → string → string → string → result string;
  getv4key : Session → pyval → pyval → result string
}.

(** [str(v)] needs the printed form of a list or dictionary, and the
    readable size needs floating-point formatting; both are taken as given:
    [repr v], and [size_gb v] for
    ["{:.2f} GB".format(float(v) / 1024 / 1024 / 1024)]. *)
Class Builtins := {
  repr : pyval → string;
  size_gb : pyval → result string
}.

Section Routes.

Context {Session : Type} {ops : SessionOps Session} {builtins : Builtins}.
Local Abbreviation Prog := (Prog Session).

Definition str (v : pyval) : string :=
  match v with PStr s => s | PNone => "None" | _ => repr v end.

(** [int(v)] for a value of a parsed document. *)
Definition int (v : pyval) : result Z :=
  match v with PStr s => Py.int s | _ => Raise TypeError end.

(** The JSON list of [get_firmware_list], from position [i] on. *)
Fixpoint firmware_entries (i : nat) (l : list (option string))
  : result (list Listing.t) :=
  match l with
  | [] => Ok []
  | f :: l' =>
      f ← or_raise AttributeError f;
      info ← KiesUtils.read_firmware_dict f;
      ff ← firmware_entries (S i) l';
      Ok ({| Listing.firmware := f;
             Listing.is_latest := if bool_decide (i = 0%nat) then Some true else None;
             Listing.pda := info |} :: ff)
  end.

Definition get_firmware_list (region model : string) : Prog Reply :=
  response ← send (list_firmware region model);
  _ ← aclose;
  if bool_decide (Response.status_code response ≠ 200) then
    raise (make_error DEVICE_NOT_FOUND (Response.status_code response))
  else
    data ← lift (Response.xml response);
    versions ← lift (KiesFirmwareList._versions data);
    ex ← lift (KiesFirmwareList.exists_ versions);
    if (ex : bool) then
      latest ← lift (KiesFirmwareList.latest versions);
      alternate ← lift (KiesFirmwareList.alternate versions);
      ff ← lift (firmware_entries 0 (latest :: (Some <$> alternate)));
      mret (json_list ff)
    else if PyVal.is_none versions then
      raise (make_error FIRMWARE_LIST_EMPTY 404)
    else raise (make_error FIRMWARE_CANT_PARSE 404).

Definition read_imei_data (csv_path target_model : string) : Prog (option string) :=
  ReadCsv csv_path (λ file,
    rows ← lift file;
    match list_find (λ row, target_model ∈ row) rows with
    | Some (_, row) => lift (Some <$> KiesUtils.list_item row 0)
    | None => mret None
    end).

(** [re.match] of the firmware pattern: four runs of capitals and digits
    between three slashes; [$] also matches before a final newline. *)
Definition capital_or_digit (c : ascii) : bool :=
  let n := Py.ord c in bool_decide (65 ≤ n ≤ 90) || bool_decide (48 ≤ n ≤ 57).
Fixpoint all_chars (P : ascii → bool) (s : string) : bool :=
  match s with
  | EmptyString => true
  | String a s' => P a && all_chars P s'
  end.
Definition newline : string := String (ascii_of_nat 10) EmptyString.
Definition match_firmware (firmware : string) : bool :=
  let body := if Py.endswith newline firmware
              then String.substring 0 (String.length firmware - 1) firmware
              else firmware in
  match Py.split "/" body with
  | [a; b; c; d] => forallb (all_chars capital_or_digit) [a; b; c; d]
  | _ => false
  end.

(** The variables of the retry loop that are read after it. *)
Record loop_vars := {
  attempt : nat;
  imei : option string;
  session : Session;
  binary_info : Response.t;
  status_code : option string
}.

Inductive flow := Break | Next.

Section Attempts.
Variables (region model firmware : string).
Variables (request_imei imei_data : option string).

(** The identity of one attempt: generated, or the one of the request. *)
Definition select_imei : Prog (option string) :=
  match request_imei with
  | None => GenerateImei imei_data (λ r, lift (Some <$> r))
  | Some _ => mret imei_data
  end.

(** The body of [for attempt in range(1, 6)]. *)
Definition attempt_body (attempt : nat) : Prog (flow * loop_vars) :=
  imei ← select_imei;
  nonce ← send get_nonce;
  session ← lift (from_response nonce);
  try_finally_aclose (
    binary_info ← send (get_binary region model firmware imei session);
    status_code ← lift (Response.status_text binary_info);
    let vars := {| attempt := attempt; imei := imei; session := session;
                   binary_info := binary_info; status_code := status_code |} in
    if bool_decide (status_code = Some "200") then mret (Break, vars)
    else if bool_decide (status_code = Some "408") then mret (Next, vars)
    else if bool_decide (status_code = Some "401") then
      code ← lift (int (from_option PStr PNone status_code));
      raise (make_error UNAUTHORIZED code)
    else
      code ← lift (int (from_option PStr PNone status_code));
      raise (make_error UNKNOWN_ERROR code)).

Fixpoint attempts (l : list nat) (last : option loop_vars)
  : Prog (option loop_vars) :=
  match l with
  | [] => mret last
  | attempt :: l' =>
      r ← attempt_body attempt;
      match r with
      | (Break, vars) => mret (Some vars)
      | (Next, vars) => attempts l' (Some vars)
      end
  end.
End Attempts.

(** The answer of [get_binary_details] once the loop has ended on 200. *)
Definition binary_details (request : Request.t) (region model firmware : string)
    (is_download : bool) (vars : loop_vars) : result Reply :=
  data ← Response.xml (binary_info vars);
  body ← KiesData.body data;
  name ← KiesDict.getitem body "BINARY_NAME";
  let ENCRYPT_VERSION := if Py.endswith "4" (str name) then 4 else 2 in
  decryption_key ←
    (if bool_decide (ENCRYPT_VERSION = 2)
     then getv2key (session vars) firmware model region
     else
       let fw := KiesDict.get_first body ["LATEST_FW_VERSION"; "ADD_LATEST_FW_VERSION"] in
       logic ← KiesDict.getitem body "LOGIC_VALUE_FACTORY";
       getv4key (session vars) fw logic);
  model_path ← KiesDict.getitem body "MODEL_PATH";
  let download_path := "/file" +:+ str model_path +:+ str name in
  if is_download then Ok (redirect (download_path +:+ "?decrypt=" +:+ decryption_key))
  else
    let server_path :=
      Request.scheme request +:+ "://" +:+ Request.server_name request
      +:+ (if bool_decide (Request.server_port request ∈ [80; 443]) then EmptyString
           else ":" +:+ pretty (Request.server_port request)) in
    display_name ← KiesDict.getitem body "DEVICE_MODEL_DISPLAYNAME";
    size ← (KiesDict.getitem body "BINARY_BYTE_SIZE" ≫= int);
    size_readable ← (KiesDict.getitem body "BINARY_BYTE_SIZE" ≫= size_gb);
    os ← KiesDict.getitem body "CURRENT_OS_VERSION";
    version ← (match os with
               | PStr s => Ok (Py.replace "(" " (" s)
               | _ => Raise AttributeError
               end);
    last_modified ← (KiesDict.getitem body "LAST_MODIFIED" ≫= int);
    let changelog := KiesDict.get_first body ["DESCRIPTION"; "ADD_DESCRIPTION"] in
    platform ← KiesDict.getitem body "DEVICE_PLATFORM";
    crc ← KiesDict.getitem body "BINARY_CRC";
    pda ← KiesUtils.read_firmware_dict firmware;
    Ok (json_details {|
      Details.display_name := display_name;
      Details.size := size;
      Details.size_readable := size_readable;
      Details.filename := name;
      Details.path := model_path;
      Details.version := version;
      Details.encrypt_version := ENCRYPT_VERSION;
      Details.last_modified := last_modified;
      Details.decrypt_key := decryption_key;
      Details.firmware_changelog_url := changelog;
      Details.platform := platform;
      Details.crc := crc;
      Details.download_path := server_path +:+ download_path;
      Details.download_path_decrypt :=
        server_path +:+ download_path +:+ "?decrypt=" +:+ decryption_key;
      Details.pda := pda;
      Details.imei := imei vars;
      Details.firmware := firmware |}).

(** The code after the loop; [last] holds the variables of the last
    attempt made. *)
Definition after_attempts (request : Request.t) (region model firmware : string)
    (is_download : bool) (last : option loop_vars) : Prog Reply :=
  match last with
  | Some vars =>
      if bool_decide (status_code vars = Some "200")
      then lift (binary_details request region model firmware is_download vars)
      else raise (make_error MAX_RETRY_EXCEEDED 500)
  | None => raise (make_error MAX_RETRY_EXCEEDED 500)
  end.

(** The loop over the attempts [l] and the code after it. *)
Definition retry (request : Request.t) (region model firmware : string)
    (is_download : bool) (request_imei imei_data : option string)
    (l : list nat) (last : option loop_vars) : Prog Reply :=
  last ← attempts region model firmware request_imei imei_data l last;
  after_attempts request region model firmware is_download last.

(** The seed of the identities: the identity of the request, or the entry
    of the model in the table. *)
Definition select_imei_data (request_imei : option string) (model : string)
  : Prog (option string) :=
  match request_imei with
  | Some _ => mret request_imei
  | None => read_imei_data "web/tacs.csv" model
  end.

(** [global_imei] is the module variable that [get_firmware_latest]
    assigns: [None] while the name is unbound. *)
Definition get_binary_details (global_imei : option (option string))
    (request : Request.t) (region model firmware_path : string) : Prog Reply :=
  request_imei ← lift (or_raise (NameError "global_imei") global_imei);
  let is_download := Py.endswith "/download" (Py.removesuffix "/" firmware_path) in
  let firmware := Py.removesuffix "/download" (Py.removesuffix "/" firmware_path) in
  if negb (match_firmware firmware) then
    raise (NotFound ("Requested URL " +:+ Request.path request +:+ " not found"))
  else
    imei_data ← select_imei_data request_imei model;
    retry request region model firmware is_download request_imei imei_data
      (seq 1 5) None.

(** The range test of [download_binary]. *)
Definition range_invalid (DECRYPT_ENABLED : bool) (START_RANGE END_RANGE : Z) : bool :=
  bool_decide (START_RANGE = -1) || bool_decide (END_RANGE = -1)
  || (DECRYPT_ENABLED && bool_decide (END_RANGE ≠ 0)).

(** The query parameters of [download_binary]. *)
Definition decrypt_key (request : Request.t) : option string :=
  Request.args request !! "decrypt".
Definition DECRYPT_ENABLED (request : Request.t) : bool :=
  bool_decide (decrypt_key request ≠ None).
Definition CUSTOM_FILENAME (request : Request.t) : option string :=
  (λ f, Py.removesuffix ".zip" f +:+ ".zip") <$> Request.args request !! "filename".

(** The headers of the answer, from the response [download_file]. *)
Definition download_headers (request : Request.t) (filename : string)
    (download_file : Response.t) : gmap string string :=
  let shown :=
    default (if negb (DECRYPT_ENABLED request) then filename
             else Py.replace ".enc2" EmptyString (Py.replace ".enc4" EmptyString filename))
            (CUSTOM_FILENAME request) in
  let headers : gmap string string :=
    {[ "Content-Disposition" :=
         "attachment; filename=" +:+ Py.dquote +:+ shown +:+ Py.dquote;
       "Content-Length" :=
         default EmptyString (Response.headers download_file !! "Content-Length");
       "Accept-Ranges" := "bytes";
       "Connection" := "keep-alive" ]} in
  let headers :=
    match Response.headers download_file !! "Content-Range" with
    | Some r => <["Content-Range" := r]> headers
    | None => headers
    end in
  if DECRYPT_ENABLED request then delete "Content-Length" headers else headers.

(** [download_binary] once the range is accepted: the ranged request and
    the stream to the caller. *)
Definition stream_binary (request : Request.t) (path filename : string)
    (session : Session) : Prog () :=
  download_file ← send (start_download (KiesUtils.join_path [path; filename] "/")
                          session (Request.headers request !! "Range"));
  if negb (bool_decide (Response.status_code download_file ∈ [200; 206])) then
    _ ← aclose;
    raise (make_error KIES_SERVER_ERROR (Response.status_code download_file))
  else
    _ ← Respond {| Head.headers := download_headers request filename download_file;
                   Head.content_type :=
                     if DECRYPT_ENABLED request then "application/zip"
                     else "application/octet-stream";
                   Head.status := Response.status_code download_file |}
                (mret ());
    key ← lift (match decrypt_key request with
                | Some k => Some <$> Py.fromhex k
                | None => Ok None
                end);
    StartDecryptor key lift.

Definition download_binary (request : Request.t) (region model firmware : string)
  : Prog () :=
  nonce ← send get_nonce;
  session ← lift (from_response nonce);
  let path := "/neofus/910/" in
  let filename := firmware in
  download_info ← send (get_download (KiesUtils.join_path [path; filename] "/") session);
  session ← lift (refresh_session session download_info);
  _ ← (if bool_decide (Response.status_code download_info = 200) then
         kies ← lift (Response.xml download_info);
         kies_status ← lift (KiesData.status_code kies);
         if bool_decide (kies_status ≠ 200) then
           _ ← aclose;
           raise (make_error KIES_SERVER_ERROR kies_status)
         else
           range ← lift (KiesUtils.parse_range_header
                           (default "bytes=0-" (Request.headers request !! "Range")));
           let '(START_RANGE, END_RANGE) := range in
           if range_invalid (DECRYPT_ENABLED request) START_RANGE END_RANGE then
             _ ← aclose;
             raise (make_error RANGE_HEADER_INVALID 416)
           else stream_binary request path filename session
       else mret ());
  raise (make_error KIES_SERVER_OUTER_ERROR (Response.status_code download_info)).

End Routes.

Arguments loop_vars : clear implicits.

(** ** Notions used in the statements *)

(** The header once stripped and without its unit. *)
Definition range_text (header : string) : string :=
  Py.removeprefix "bytes=" (Py.strip header).

(** The six characters of a build code. *)
Definition code (c1 c2 c3 c4 c5 c6 : ascii) : string :=
  String c1 (String c2 (String c3 (String c4 (String c5 (String c6 EmptyString))))).

Section Notions.
Context {Session : Type} {ops : SessionOps Session} {builtins : Builtins}.

(** One attempt made after [past]: it selects [imei], builds [session] from
    the answer to its nonce request, and its binary-info request is answered
    [info], whose status reads [st]; [past'] is the trace after it. *)
Definition attempt_answered (w : World Session) (region model firmware : string)
    (request_imei imei_data : option string) (past : list (Event Session))
    (imei : option string) (session : Session) (info : Response.t)
    (st : option string) (past' : list (Event Session)) : Prop :=
  ∃ past1 nonce,
    run w (select_imei request_imei imei_data) past = (past1, Ok imei)
    ∧ http w past1 get_nonce = Ok nonce
    ∧ from_response nonce = Ok session
    ∧ http w (past1 ++ [Sent get_nonce (Ok nonce)])
        (get_binary region model firmware imei session) = Ok info
    ∧ Response.status_text info = Ok st
    ∧ past' = past1 ++ [Sent get_nonce (Ok nonce);
                        Sent (get_binary region model firmware imei session) (Ok info);
                        Closed].

(** The variables of the loop after such an attempt. *)
Definition vars_of (attempt : nat) (imei : option string) (session : Session)
    (info : Response.t) (st : option string) : loop_vars Session :=
  {| attempt := attempt; imei := imei; session := session;
     binary_info := info; status_code := st |}.

(** What the inspection of the status makes of an attempt. *)
Definition inspected (st : option string) (vars : loop_vars Session)
  : result (flow * loop_vars Session) :=
  if bool_decide (st = Some "200") then Ok (Break, vars)
  else if bool_decide (st = Some "408") then Ok (Next, vars)
  else if bool_decide (st = Some "401") then
    code ← int (from_option PStr PNone st); Raise (make_error UNAUTHORIZED code)
  else
    code ← int (from_option PStr PNone st); Raise (make_error UNKNOWN_ERROR code).

(** The world gives every attempt an identity and a session. *)
Definition attempts_served (w : World Session) (request_imei imei_data : option string)
  : Prop :=
  (∀ past, ∃ past1 imei,
     run w (select_imei request_imei imei_data) past = (past1, Ok imei))
  ∧ (∀ past, ∃ nonce session,
       http w past get_nonce = Ok nonce ∧ from_response nonce = Ok session).

(** The world answers every binary-info request with the status [st]. *)
Definition always_status (w : World Session) (st : string) : Prop :=
  ∀ past region model firmware imei session,
    ∃ info, http w past (get_binary region model firmware imei session) = Ok info
            ∧ Response.status_text info = Ok (Some st).

(** The requests of [steps] attempts, each with its identity and session. *)
Definition attempt_requests (region model firmware : string)
    (steps : list (option string * Session)) : list (KiesRequest Session) :=
  steps ≫= (λ step, [get_nonce; get_binary region model firmware step.1 step.2]).

(** The firmware named by the path of the request, and whether the
    download is asked for. *)
Definition requested_firmware (firmware_path : string) : string :=
  Py.removesuffix "/download" (Py.removesuffix "/" firmware_path).
Definition download_requested (firmware_path : string) : bool :=
  Py.endswith "/download" (Py.removesuffix "/" firmware_path).

(** The nonce exchange and the registration of the file both succeed:
    the nonce response gives [session0], the registration is answered
    [download_info] with both statuses 200, and [session] is the session
    refreshed from it. *)
Definition registered (w : World Session) (firmware : string) (nonce : Response.t)
    (session0 : Session) (download_info : Response.t) (session : Session) : Prop :=
  http w [] get_nonce = Ok nonce
  ∧ from_response nonce = Ok session0
  ∧ http w [Sent get_nonce (Ok nonce)]
      (get_download (KiesUtils.join_path ["/neofus/910/"; firmware] "/") session0)
    = Ok download_info
  ∧ refresh_session session0 download_info = Ok session
  ∧ Response.status_code download_info = 200
  ∧ (Response.xml download_info ≫= KiesData.status_code) = Ok 200.

(** The trace of these two exchanges. *)
Definition registration (firmware : string) (nonce : Response.t) (session0 : Session)
    (download_info : Response.t) : list (Event Session) :=
  [Sent get_nonce (Ok nonce);
   Sent (get_download (KiesUtils.join_path ["/neofus/910/"; firmware] "/") session0)
     (Ok download_info)].

(** The [Range] header that [download_binary] parses. *)
Definition range_header (request : Request.t) : string :=
  default "bytes=0-" (Request.headers request !! "Range").

(** The [Put] section of the document of [info], as [kies.body] reads
    it. *)
Definition body_of (info : Response.t) (body : KiesDict.t) : Prop :=
  ∃ data, Response.xml info = Ok data ∧ KiesData.body data = Ok body.

(** [key] is the key of the file named [name]: for a name that ends in 4
    it is derived from the latest version and the logic value of the
    section [body], else from the firmware, model and region of the
    call. *)
Definition key_derived (session : Session) (body : KiesDict.t)
    (region model firmware : string) (name : pyval) (key : string) : Prop :=
  if Py.endswith "4" (str name) then
    ∃ logic,
      KiesDict.getitem body "LOGIC_VALUE_FACTORY" = Ok logic
      ∧ getv4key session
          (KiesDict.get_first body ["LATEST_FW_VERSION"; "ADD_LATEST_FW_VERSION"])
          logic = Ok key
  else getv2key session firmware model region = Ok key.

(** The address of the server that the request was sent to. *)
Definition server_path (request : Request.t) : string :=
  Request.scheme request +:+ "://" +:+ Request.server_name request
  +:+ (if bool_decide (Request.server_port request ∈ [80; 443]) then EmptyString
       else ":" +:+ pretty (Request.server_port request)).

End Notions.

(** The entries of the [upgrade] section as a sequence: the elements of a
    list, an entry that stands alone, or none. *)
Definition upgrade_entries (upgrade : pyval) : list pyval :=
  match upgrade with
  | PList l => l
  | PDict _ => [upgrade]
  | _ => []
  end.

(** The value of the [upgrade] section of the manifest. *)
Definition upgrade_value (versions : pyval) : result pyval :=
  u ← PyVal.getitem versions "upgrade"; PyVal.getitem u "value".

(** [ts] are the texts of the entries, in order. *)
Definition entry_texts (entries : list pyval) (ts : list string) : Prop :=
  Forall2 (λ x t, PyVal.getitem x "#text" = Ok (PStr t)) entries ts.

(** The texts with at least two separators. *)
Definition kept (ts : list string) : list string :=
  filter (λ t, (1 < Py.count "/" t)%nat) ts.

(** ** A session without content, and worlds with fixed answers *)

Module Example.

#[global] Instance ops : SessionOps () := {|
  from_response := λ _, Ok ();
  refresh_session := λ session _, Ok session;
  getv2key := λ _ _ _ _, Ok "6b32";
  getv4key := λ _ _ _, Ok "6b34"
|}.

#[global] Instance builtins : Builtins := {|
  repr := λ _, "{}";
  size_gb := λ _, Ok "1.00 GB"
|}.

Definition field (name value : string) : string * pyval :=
  (name, PDict [("Data", PStr value)]).

(** A binary-info document with the status [st]. *)
Definition binary_document (st : string) : pyval :=
  PDict [("FUSMsg", PDict [("FUSBody", PDict [
    ("Results", PDict [("Status", PStr st)]);
    ("Put", PDict [
      field "BINARY_NAME" "fw.zip.enc4";
      field "MODEL_PATH" "/neofus/9/";
      field "LOGIC_VALUE_FACTORY" "lvf";
      field "DEVICE_MODEL_DISPLAYNAME" "Galaxy S9";
      field "BINARY_BYTE_SIZE" "1073741824";
      field "CURRENT_OS_VERSION" "Pie(Android 9)";
      field "LAST_MODIFIED" "20190401";
      field "DEVICE_PLATFORM" "Android";
      field "BINARY_CRC" "123"])])])].

(** A manifest with a latest firmware and three alternates, one of them a
    placeholder. *)
Definition manifest : pyval :=
  PDict [("versioninfo", PDict [
    ("url", PStr "x");
    ("firmware", PDict [
      ("model", PStr "SM-G960F");
      ("version", PDict [
        ("latest", PDict [("@o", PStr "9");
                          ("#text", PStr "G960FXXU1ASCD/G960FOXM1ASC1/G960FXXU1ASCD")]);
        ("upgrade", PDict [("value", PList [
          PDict [("@rcount", PStr "1"); ("#text", PStr "G960FXXU1ARC5/G960FOXM1ARC5/")];
          PDict [("#text", PStr "G960F/")];
          PDict [("#text", PStr "G960FXXS1BRJ6/G960FOXM1BRJ6/G960FXXU1BRJ6")]])])])])])].

Definition response (code : Z) (st : string) (document : result pyval) : Response.t :=
  {| Response.status_code := code;
     Response.headers := ∅;
     Response.xml := document;
     Response.status_text := Ok (Some st) |}.

(** The world whose server answers every binary-info and registration
    request with the status [st], the catalogue request with [manifest],
    and the ranged download with 206. *)
Definition answering (st : string) : World () :=
  {| http := λ _ q,
       match q with
       | get_nonce => Ok (response 200 EmptyString (Raise ParseError))
       | list_firmware _ _ => Ok (response 200 EmptyString (Ok manifest))
       | start_download _ _ _ => Ok (response 206 EmptyString (Raise ParseError))
       | _ => Ok (response 200 st (Ok (binary_document st)))
       end;
     csv := λ _ _, Ok [["35439911"; "SM-G960F"]];
     generate_random_imei := λ _ tac, Ok (default EmptyString tac +:+ "0859137");
     start_decryptor := λ _ _, Ok () |}.

(** A request for a decrypted download with the header [Range: range]. *)
Definition request (range : string) : Request.t :=
  {| Request.scheme := "http";
     Request.server_name := "localhost";
     Request.server_port := 8000;
     Request.path := "/file/EUX/SM-G960F/fw.zip.enc4/";
     Request.args := {["decrypt" := "00ff"]};
     Request.headers := {["Range" := range]} |}.

Definition firmware : string :=
  "G960FXXU1ASCD/G960FOXM1ASC1/G960FXXU1ASCD/G960FXXU1ASCD".

End Example.

(** ** The rest of the handlers and of the query encoding *)

Module PyBytes.

(** One hexadecimal digit of [bytes.hex()], in lower case. *)
Definition hexchar (n : Z) : ascii :=
  ascii_of_nat (Z.to_nat (if bool_decide (n < 10) then 48 + n else 87 + n)).

(** [b.hex()]: two digits a byte. *)
Fixpoint hex (b : list Z) : string :=
  match b with
  | [] => EmptyString
  | x :: b' => String (hexchar (x / 16)) (String (hexchar (x mod 16)) (hex b'))
  end.

End PyBytes.

Section Latest.
Context {Session : Type} {ops : SessionOps Session} {builtins : Builtins}.

(** [needle in s] for two strings. *)
Definition substring_in (needle s : string) : bool :=
  bool_decide (is_Some (String.index 0 needle s)).

(** [get_firmware_latest]: the value it assigns to the module variable
    [global_imei] before anything else, and the program that follows. *)
Definition get_firmware_latest (request : Request.t) (region model mode : string)
  : option (option string) * Prog Session Reply :=
  (Some (Request.args request !! "imei"),
   response ← send (list_firmware region model);
   _ ← aclose;
   if bool_decide (Response.status_code response ≠ 200) then
     raise (make_error DEVICE_NOT_FOUND (Response.status_code response))
   else
     data ← lift (Response.xml response);
     versions ← lift (KiesFirmwareList._versions data);
     ex ← lift (KiesFirmwareList.exists_ versions);
     if (ex : bool) then
       latest ← lift (KiesFirmwareList.latest versions);
       mret (redirect ("/" +:+ region +:+ "/" +:+ model +:+ "/"
                       +:+ default "None" latest
                       +:+ (if substring_in "/download" mode then "/download"
                            else EmptyString)))
     else if PyVal.is_none versions then
       raise (make_error FIRMWARE_LIST_EMPTY 404)
     else raise (make_error FIRMWARE_CANT_PARSE 404)).

End Latest.

(** ** Notions used in the further statements *)

(** The events of a trace that are binary-info requests, nonce requests,
    closings of the client. *)
Definition is_nonce {Session : Type} (e : Event Session) : bool :=
  match e with Sent get_nonce _ => true | _ => false end.
Definition is_binary_info {Session : Type} (e : Event Session) : bool :=
  match e with Sent (get_binary _ _ _ _ _) _ => true | _ => false end.
Definition is_closed {Session : Type} (e : Event Session) : bool :=
  match e with Closed => true | _ => false end.

(** How many events of [tr] satisfy [f]. *)
Definition count_events {Session : Type} (f : Event Session → bool)
    (tr : list (Event Session)) : nat :=
  length (filter (λ e, f e = true) tr).

(** The identity carried by a binary-info request. *)
Definition request_identity {Session : Type} (q : KiesRequest Session)
  : option (option string) :=
  match q with get_binary _ _ _ imei _ => Some imei | _ => None end.

(** A string without whitespace, slash or backslash. *)
Definition clean_char (c : ascii) : bool :=
  negb (Py.isspace c) && negb (bool_decide (c = "/"%char))
  && negb (bool_decide (c = ascii_of_nat 92)).
Fixpoint clean (s : string) : bool :=
  match s with
  | EmptyString => true
  | String a s' => clean_char a && clean s'
  end.

(** The components of a normalized firmware string, from the components
    [l] of the string given. *)
Definition normal_components (l : list string) : list string :=
  match l with
  | a :: b :: c :: r =>
      a :: b :: (if decide (c = EmptyString) then a else c)
        :: (if r is [] then [a] else r)
  | _ => l
  end.

Section FurtherNotions.
Context {Session : Type} {ops : SessionOps Session} {builtins : Builtins}.

(** The range of the request parses and passes the range test. *)
Definition range_accepted (request : Request.t) : Prop :=
  ∃ START_RANGE END_RANGE,
    KiesUtils.parse_range_header (range_header request) = Ok (START_RANGE, END_RANGE)
    ∧ range_invalid (DECRYPT_ENABLED request) START_RANGE END_RANGE = false.

(** The ranged request of [download_binary]. *)
Definition ranged_request (request : Request.t) (firmware : string)
    (session : Session) : KiesRequest Session :=
  start_download (KiesUtils.join_path ["/neofus/910/"; firmware] "/") session
    (Request.headers request !! "Range").

(** The key handed to the decryptor. *)
Definition decryptor_key (request : Request.t) : result (option (list Z)) :=
  match decrypt_key request with
  | Some k => Some <$> Py.fromhex k
  | None => Ok None
  end.

(** What [request.respond] is given for the upstream response
    [download_file]. *)
Definition response_head (request : Request.t) (firmware : string)
    (download_file : Response.t) : Head.t :=
  {| Head.headers := download_headers request firmware download_file;
     Head.content_type := if DECRYPT_ENABLED request then "application/zip"
                          else "application/octet-stream";
     Head.status := Response.status_code download_file |}.

End FurtherNotions.

(** The events an attempt of the retry loop may add: a nonce request, a
    binary-info request for the firmware of the call, with the identity of
    the request when there is one, the closing of the client, and, when
    there is none, a generation from the seed. *)
Definition attempt_event {Session : Type} (region model firmware : string)
    (request_imei imei_data : option string) (e : Event Session) : Prop :=
  match e with
  | Sent get_nonce _ => True
  | Sent (get_binary r m f i _) _ =>
      r = region ∧ m = model ∧ f = firmware ∧ (request_imei ≠ None → i = imei_data)
  | Closed => True
  | ImeiGenerated tac _ => request_imei = None ∧ tac = imei_data
  | _ => False
  end.

(** The events of a lookup made with the identity [i] of the caller. *)
Definition supplied_identity_event {Session : Type} (region model firmware i : string)
    (e : Event Session) : Prop :=
  match e with
  | Sent get_nonce _ | Closed => True
  | Sent (get_binary r m f im _) _ => r = region ∧ m = model ∧ f = firmware ∧ im = Some i
  | _ => False
  end.

(** The events of a lookup made with generated identities, after the read
    of the table: the seed of every generation is [seed]. *)
Definition generated_identity_event {Session : Type} (seed : option string)
    (e : Event Session) : Prop :=
  match e with
  | Sent get_nonce _ | Sent (get_binary _ _ _ _ _) _ | Closed => True
  | ImeiGenerated tac _ => tac = seed
  | _ => False
  end.

(** What an attempt, or several, add to the trace: events of an attempt,
    at most [n] nonce requests, no binary-info request without a nonce
    request, and one closing of the client for each binary-info request. *)
Definition attempts_added {Session : Type} (region model firmware : string)
    (request_imei imei_data : option string) (n : nat)
    (ev : list (Event Session)) : Prop :=
  Forall (attempt_event region model firmware request_imei imei_data) ev
  ∧ (count_events is_nonce ev ≤ n)%nat
  ∧ (count_events is_binary_info ev ≤ count_events is_nonce ev)%nat
  ∧ count_events is_closed ev = count_events is_binary_info ev.


(** ** Further worlds and requests *)

Module Further.

(** The world of [Example.answering "200"], except that the catalogue
    request is answered with the HTTP status [list_code] and the document
    [catalogue], the registration with the HTTP status [reg_code], and the
    ranged download with [download_code]. *)
Definition world (list_code : Z) (catalogue : pyval) (reg_code download_code : Z)
  : World () :=
  {| http := λ _ q,
       match q with
       | get_nonce => Ok (Example.response 200 EmptyString (Raise ParseError))
       | list_firmware _ _ => Ok (Example.response list_code EmptyString (Ok catalogue))
       | start_download _ _ _ =>
           Ok (Example.response download_code EmptyString (Raise ParseError))
       | _ => Ok (Example.response reg_code "200" (Ok (Example.binary_document "200")))
       end;
     csv := λ _ _, Ok [["35439911"; "SM-G960F"]];
     generate_random_imei := λ _ tac, Ok (default EmptyString tac +:+ "0859137");
     start_decryptor := λ _ _, Ok () |}.

(** A download request with the query arguments [args] and the headers
    [headers]. *)
Definition request (args headers : gmap string string) : Request.t :=
  {| Request.scheme := "http";
     Request.server_name := "localhost";
     Request.server_port := 8000;
     Request.path := "/file/EUX/SM-G960F/fw.zip.enc4/";
     Request.args := args;
     Request.headers := headers |}.

(** A manifest without the [versioninfo] key, and one whose version
    section has no [latest] key. *)
Definition no_versions : pyval := PDict [("error", PStr "x")].
Definition no_latest : pyval :=
  PDict [("versioninfo", PDict [
    ("firmware", PDict [
      ("version", PDict [("upgrade", PDict [("value", PNone)])])])])].

End Further.
(** * Properties *)

(** ** Strings *)

Lemma append_nil_l (s : string) : EmptyString +:+ s = s.
Proof. reflexivity. Qed.

Lemma append_cons (a : ascii) (s t : string) : String a s +:+ t = String a (s +:+ t).
Proof. reflexivity. Qed.

Lemma append_nil_r (s : string) : s +:+ EmptyString = s.
Proof. induction s as [|a s IH]; [done|]. by rewrite append_cons, IH. Qed.

Lemma append_assoc (s t u : string) : (s +:+ t) +:+ u = s +:+ (t +:+ u).
Proof. induction s as [|a s IH]; [done|]. by rewrite !append_cons, IH. Qed.

Lemma length_append (s t : string) :
  String.length (s +:+ t) = (String.length s + String.length t)%nat.
Proof. induction s as [|a s IH]; [done|]. rewrite append_cons. simpl. by rewrite IH. Qed.

Lemma count_append (c : ascii) (s t : string) :
  Py.count c (s +:+ t) = (Py.count c s + Py.count c t)%nat.
Proof.
  induction s as [|a s IH]; [done|]. rewrite append_cons. simpl. rewrite IH. lia.
Qed.

(** *** [split] and [join] *)

Lemma split_not_nil (c : ascii) (s : string) : Py.split c s ≠ [].
Proof.
  induction s as [|a s IH]; simpl; [done|].
  destruct (decide (a = c)); [done|]. by destruct (Py.split c s).
Qed.

Lemma length_split (c : ascii) (s : string) :
  length (Py.split c s) = S (Py.count c s).
Proof.
  induction s as [|a s IH]; simpl; [done|].
  destruct (decide (a = c)); simpl; [by rewrite IH|].
  pose proof (split_not_nil c s). destruct (Py.split c s); [done|].
  simpl in *. lia.
Qed.

Lemma split_no_sep (c : ascii) (s : string) :
  Forall (λ x, Py.count c x = 0%nat) (Py.split c s).
Proof.
  induction s as [|a s IH]; simpl.
  - by constructor.
  - destruct (decide (a = c)) as [->|Hne].
    + by constructor.
    + pose proof (split_not_nil c s). destruct (Py.split c s) as [|h t]; [done|].
      inversion IH; subst. constructor; [|done].
      simpl. by destruct (decide (a = c)).
Qed.

Lemma join_cons2 (sep x y : string) (l : list string) :
  Py.join sep (x :: y :: l) = x +:+ sep +:+ Py.join sep (y :: l).
Proof. reflexivity. Qed.

Lemma join_split (c : ascii) (s : string) :
  Py.join (String c EmptyString) (Py.split c s) = s.
Proof.
  induction s as [|a s IH]; simpl; [done|].
  pose proof (split_not_nil c s) as Hn.
  destruct (decide (a = c)) as [->|Hne].
  - destruct (Py.split c s) as [|h t]; [done|].
    rewrite join_cons2, IH. reflexivity.
  - destruct (Py.split c s) as [|h t]; [done|].
    destruct t as [|h' t].
    + simpl in *. by rewrite IH.
    + rewrite join_cons2, append_cons. rewrite join_cons2 in IH. by rewrite IH.
Qed.

Lemma split_no_count (c : ascii) (s : string) :
  Py.count c s = 0%nat → Py.split c s = [s].
Proof.
  induction s as [|a s IH]; simpl; [done|].
  destruct (decide (a = c)); [done|]. intros H. by rewrite IH.
Qed.

Lemma split_append_sep (c : ascii) (x s : string) :
  Py.count c x = 0%nat →
  Py.split c (x +:+ String c s) = x :: Py.split c s.
Proof.
  induction x as [|a x IH]; simpl.
  - intros _. rewrite ?append_nil_l. simpl. by destruct (decide (c = c)).
  - destruct (decide (a = c)); [done|]. intros H.
    rewrite ?append_cons. simpl. destruct (decide (a = c)); [done|].
    by rewrite IH.
Qed.

Lemma split_join (c : ascii) (l : list string) :
  l ≠ [] → Forall (λ x, Py.count c x = 0%nat) l →
  Py.split c (Py.join (String c EmptyString) l) = l.
Proof.
  induction l as [|x l IH]; [done|]. intros _ Hall.
  inversion Hall as [|?? Hx Hl]; subst.
  destruct l as [|y l].
  - simpl. by apply split_no_count.
  - rewrite join_cons2, append_cons, append_nil_l.
    rewrite split_append_sep by done. f_equal. by apply IH.
Qed.

(** *** [split] with [maxsplit=1] *)

Lemma split1_no_count (c : ascii) (s : string) :
  Py.count c s = 0%nat → Py.split1 c s = [s].
Proof.
  induction s as [|a s IH]; simpl; [done|].
  destruct (decide (a = c)); [done|]. intros H. by rewrite IH.
Qed.

Lemma split1_count (c : ascii) (s : string) :
  Py.count c s ≠ 0%nat →
  ∃ x y, Py.split1 c s = [x; y] ∧ Py.count c x = 0%nat ∧ s = x +:+ String c y.
Proof.
  induction s as [|a s IH]; simpl; [done|].
  destruct (decide (a = c)) as [->|Hne].
  - intros _. by exists EmptyString, s.
  - intros H. destruct IH as (x & y & -> & Hx & ->); [lia|].
    exists (String a x), y. simpl. by destruct (decide (a = c)).
Qed.

Lemma split1_append_sep (c : ascii) (x y : string) :
  Py.count c x = 0%nat → Py.split1 c (x +:+ String c y) = [x; y].
Proof.
  induction x as [|a x IH]; simpl.
  - intros _. rewrite ?append_nil_l. simpl. by destruct (decide (c = c)).
  - destruct (decide (a = c)); [done|]. intros H.
    rewrite ?append_cons. simpl. destruct (decide (a = c)); [done|].
    by rewrite IH.
Qed.

(** *** [strip] and [removeprefix] keep the other characters *)

Lemma count_lstrip (c : ascii) (s : string) :
  Py.isspace c = false → Py.count c (Py.lstrip s) = Py.count c s.
Proof.
  intros Hc. induction s as [|a s IH]; simpl; [done|].
  destruct (Py.isspace a) eqn:Ha; [|done].
  rewrite IH. destruct (decide (a = c)); [congruence|done].
Qed.

Lemma count_rstrip (c : ascii) (s : string) :
  Py.isspace c = false → Py.count c (Py.rstrip s) = Py.count c s.
Proof.
  intros Hc. induction s as [|a s IH]; simpl; [done|].
  destruct (Py.rstrip s) as [|b r] eqn:Hr.
  - destruct (Py.isspace a) eqn:Ha; simpl in *.
    + destruct (decide (a = c)); [congruence|]. lia.
    + lia.
  - simpl in *. lia.
Qed.

Lemma count_strip (c : ascii) (s : string) :
  Py.isspace c = false → Py.count c (Py.strip s) = Py.count c s.
Proof.
  intros Hc. unfold Py.strip. by rewrite count_rstrip, count_lstrip.
Qed.

Lemma prefix_split (p s : string) :
  String.prefix p s = true →
  s = p +:+ String.substring (String.length p) (String.length s - String.length p) s.
Proof.
  revert s. induction p as [|a p IH]; intros s.
  - intros _. rewrite append_nil_l. simpl. rewrite Nat.sub_0_r.
    clear. induction s as [|b s IH]; [done|].
    simpl. destruct s; [done|]. by rewrite <- IH.
  - destruct s as [|b s]; simpl; [done|].
    destruct (ascii_dec a b) as [->|]; [|done].
    intros H. rewrite append_cons. f_equal. by apply IH.
Qed.

Lemma count_removeprefix (c : ascii) (p s : string) :
  Py.count c p = 0%nat → Py.count c (Py.removeprefix p s) = Py.count c s.
Proof.
  intros Hp. unfold Py.removeprefix, Py.startswith.
  destruct (String.prefix p s) eqn:H; [|done].
  apply prefix_split in H. rewrite H at 3. rewrite count_append. lia.
Qed.

(** ** [KiesUtils.parse_firmware] *)

Lemma split_three_not_empty (firmware : string) (l : list string) :
  Py.split "/" firmware = l → (1 < length l)%nat → firmware ≠ EmptyString.
Proof. intros <- Hl ->. simpl in Hl. lia. Qed.

Lemma parse_firmware_unfold (firmware : string) :
  firmware ≠ EmptyString →
  KiesUtils.parse_firmware firmware =
    (let l := Py.split "/" firmware in
     l ← (if bool_decide (length l = 3%nat)
          then (λ x, l ++ [x]) <$> KiesUtils.list_item l 0 else Ok l);
     l2 ← KiesUtils.list_item l 2;
     l ← (if bool_decide (l2 = EmptyString)
          then (λ x, <[2%nat := x]> l) <$> KiesUtils.list_item l 0 else Ok l);
     Ok (Py.join "/" l)).
Proof. intros H. unfold KiesUtils.parse_firmware. by rewrite bool_decide_true. Qed.

(** C3 (amended): a string of three components gets the first as its fourth,
    and an empty third component, of three or of four, is filled with the
    first; ["A/B/"] becomes ["A/B/A/A"]. *)
Theorem parse_firmware_normalizes :
  (∀ firmware a b c : string,
     Py.split "/" firmware = [a; b; c] →
     KiesUtils.parse_firmware firmware
       = Ok (Py.join "/" [a; b; if decide (c = EmptyString) then a else c; a])
     ∧ Py.split "/" (Py.join "/" [a; b; if decide (c = EmptyString) then a else c; a])
       = [a; b; if decide (c = EmptyString) then a else c; a])
  ∧ (∀ firmware a b c d : string,
       Py.split "/" firmware = [a; b; c; d] →
       KiesUtils.parse_firmware firmware
         = Ok (Py.join "/" [a; b; if decide (c = EmptyString) then a else c; d]))
  ∧ KiesUtils.parse_firmware "A/B/" = Ok "A/B/A/A".
Proof.
  split; [|split; [|reflexivity]].
  - intros firmware a b c Hs.
    pose proof (split_no_sep "/" firmware) as Hall. rewrite Hs in Hall.
    split.
    + rewrite parse_firmware_unfold by (eapply split_three_not_empty; [done|simpl; lia]).
      rewrite Hs. simpl. destruct (decide (c = EmptyString)) as [->|Hc].
      * reflexivity.
      * rewrite bool_decide_false by done. reflexivity.
    + apply split_join; [done|].
      inversion Hall as [|?? Ha Hall1]; subst.
      inversion Hall1 as [|?? Hb Hall2]; subst.
      inversion Hall2 as [|?? Hc _]; subst.
      repeat constructor; try done. by destruct (decide (c = EmptyString)).
  - intros firmware a b c d Hs.
    rewrite parse_firmware_unfold by (eapply split_three_not_empty; [done|simpl; lia]).
    rewrite Hs. simpl. destruct (decide (c = EmptyString)) as [->|Hc].
    + reflexivity.
    + rewrite bool_decide_false by done. reflexivity.
Qed.

Lemma parse_firmware_normalizes_witness :
  Py.split "/" "G960FXXU1ARC5/G960FOXM1ARC5/" = ["G960FXXU1ARC5"; "G960FOXM1ARC5"; EmptyString]
  ∧ KiesUtils.parse_firmware "G960FXXU1ARC5/G960FOXM1ARC5/"
    = Ok "G960FXXU1ARC5/G960FOXM1ARC5/G960FXXU1ARC5/G960FXXU1ARC5".
Proof.
  split; [reflexivity|].
  exact (proj1 (proj1 parse_firmware_normalizes
                  "G960FXXU1ARC5/G960FOXM1ARC5/" "G960FXXU1ARC5" "G960FOXM1ARC5" EmptyString
                  eq_refl)).
Defined.

(** C3, as stated, fails on ["A/B/ "]: its third component is one space,
    not the empty string, and is kept. *)
Lemma parse_firmware_space_kept :
  KiesUtils.parse_firmware "A/B/ " = Ok "A/B/ /A"
  ∧ KiesUtils.parse_firmware "A/B/ " ≠ Ok "A/B/A/A".
Proof. split; [reflexivity|discriminate]. Qed.

(** C4 (amended): the validation error is raised for the empty string only;
    a non-empty string of fewer than three components fails on the list
    access, and a string of more than four components is returned, with an
    empty third component filled. *)
Theorem parse_firmware_component_count :
  KiesUtils.parse_firmware EmptyString = Raise (ValueError "Invalid firmware format.")
  ∧ (∀ firmware : string,
       firmware ≠ EmptyString → (length (Py.split "/" firmware) < 3)%nat →
       KiesUtils.parse_firmware firmware = Raise IndexError)
  ∧ (∀ firmware : string,
       (4 < length (Py.split "/" firmware))%nat →
       ∃ first third,
         Py.split "/" firmware !! 0%nat = Some first
         ∧ Py.split "/" firmware !! 2%nat = Some third
         ∧ KiesUtils.parse_firmware firmware
           = Ok (Py.join "/" (<[2%nat := if decide (third = EmptyString) then first else third]>
                                (Py.split "/" firmware)))
         ∧ (third ≠ EmptyString → KiesUtils.parse_firmware firmware = Ok firmware)).
Proof.
  split; [reflexivity|split].
  - intros firmware Hne Hlen. rewrite parse_firmware_unfold by done.
    destruct (Py.split "/" firmware) as [|a [|b [|c l]]] eqn:Hs; simpl in *;
      try reflexivity; lia.
  - intros firmware Hlen.
    assert (firmware ≠ EmptyString) as Hne by (intros ->; simpl in Hlen; lia).
    rewrite parse_firmware_unfold by done.
    pose proof (join_split "/" firmware) as Hj.
    destruct (Py.split "/" firmware) as [|a [|b [|c [|d [|e l]]]]] eqn:Hs;
      simpl in Hlen; try lia.
    exists a, c. split; [done|]. split; [done|].
    cbn [length]. rewrite bool_decide_false by lia.
    simpl. destruct (decide (c = EmptyString)) as [->|Hc].
    + split; [reflexivity|done].
    + rewrite bool_decide_false by done. simpl. split; [done|].
      intros _. f_equal. exact Hj.
Qed.

Lemma parse_firmware_component_count_witness :
  KiesUtils.parse_firmware "A/B" = Raise IndexError
  ∧ KiesUtils.parse_firmware "A/B/C/D/E" = Ok "A/B/C/D/E".
Proof.
  split.
  - apply (proj1 (proj2 parse_firmware_component_count) "A/B"); [done|simpl; lia].
  - destruct (proj2 (proj2 parse_firmware_component_count) "A/B/C/D/E")
      as (first & third & H0 & H2 & _ & H); [simpl; lia|].
    apply H. simpl in H2. by injection H2 as <-.
Defined.

(** C4, as stated, fails on five components: the string is returned. *)
Lemma parse_firmware_five_components :
  length (Py.split "/" "A/B/C/D/E") = 5%nat
  ∧ KiesUtils.parse_firmware "A/B/C/D/E" = Ok "A/B/C/D/E".
Proof. split; reflexivity. Qed.

(** ** [KiesUtils.parse_range_header] *)


Lemma count_range_text (header : string) :
  Py.count "-" (range_text header) = Py.count "-" header.
Proof.
  unfold range_text. rewrite count_removeprefix by reflexivity.
  by apply count_strip.
Qed.

Lemma parse_range_header_no_dash (header : string) :
  Py.count "-" header = 0%nat →
  KiesUtils.parse_range_header header = Ok (-1, -1).
Proof.
  intros H. unfold KiesUtils.parse_range_header. fold (range_text header).
  rewrite split1_no_count; [done|]. by rewrite count_range_text.
Qed.

Lemma parse_range_header_dash (header x y : string) :
  range_text header = x +:+ String "-" y → Py.count "-" x = 0%nat →
  KiesUtils.parse_range_header header =
    (a ← (if bool_decide (x = EmptyString) then Ok 0 else Py.int x);
     b ← (if bool_decide (y = EmptyString) then Ok 0 else Py.int y);
     Ok (a, b)).
Proof.
  intros H Hx. unfold KiesUtils.parse_range_header. fold (range_text header).
  by rewrite H, split1_append_sep.
Qed.

Lemma digit_nonneg (a : ascii) (d : Z) : Py.digit a = Some d → 0 ≤ d.
Proof.
  unfold Py.digit. case_bool_decide; [|done]. intros [= <-]. lia.
Qed.

Lemma int_digits_nonneg (s : string) (acc : Z) (k : nat) (seen : bool)
    (n : Z) (m : nat) (rest : string) :
  0 ≤ acc → Py.int_digits acc k seen s = Some (n, m, rest) → 0 ≤ n.
Proof.
  revert acc k seen. induction s as [|a s IH]; intros acc k seen Hacc; simpl.
  - destruct seen; [|done]. by intros [= <- _ _].
  - destruct (Py.digit a) as [d|] eqn:Hd.
    + apply digit_nonneg in Hd. apply IH. lia.
    + destruct (decide (a = "_"%char)).
      * destruct seen; [|done]. by apply IH.
      * destruct seen; [|done]. by intros [= <- _ _].
Qed.

Lemma count_int_lstrip (c : ascii) (s : string) :
  (Py.count c (Py.int_lstrip s) ≤ Py.count c s)%nat.
Proof.
  induction s as [|a s IH]; simpl; [done|].
  destruct (Py.int_space a); simpl; lia.
Qed.

(** Without a minus sign, [int] gives no negative number. *)
Lemma int_nonneg (s : string) (n : Z) :
  Py.count "-" s = 0%nat → Py.int s = Ok n → 0 ≤ n.
Proof.
  intros Hc. unfold Py.int.
  pose proof (count_int_lstrip "-" s) as Hs. rewrite Hc in Hs.
  assert (∀ r, Py.int_lstrip s ≠ String "-" r) as Hminus.
  { intros r Hr. rewrite Hr in Hs. simpl in Hs.
    destruct (decide ("-"%char = "-"%char)); [lia|done]. }
  assert (∀ r,
            match Py.int_digits 0 0 false r with
            | Some (v, k, rest) =>
                if bool_decide (Py.int_max_str_digits < k)%nat then
                  Raise (ValueError
                           ("Exceeds the limit (4300 digits) for integer string conversion: "
                            +:+ "value has " +:+ pretty k
                            +:+ " digits; use sys.set_int_max_str_digits() to increase the limit"))
                else if bool_decide (Py.int_lstrip rest = EmptyString) then Ok v
                else Raise (ValueError "invalid literal for int() with base 10")
            | None => Raise (ValueError "invalid literal for int() with base 10")
            end = Ok n → 0 ≤ n) as Hpos.
  { intros r. destruct (Py.int_digits 0 0 false r) as [[[v k] rest]|] eqn:Hd; [|done].
    destruct (bool_decide _); [done|]. destruct (bool_decide _); [|done].
    intros [= <-]. by eapply (int_digits_nonneg r 0). }
  destruct (Py.int_lstrip s) as [|a r] eqn:Hr; [apply Hpos|].
  destruct (decide (a = "-"%char)) as [->|Ha]; [by destruct (Hminus r)|].
  destruct a as [[] [] [] [] [] [] [] []]; try done; apply Hpos.
Qed.

(** C8: ["bytes=0-100"] reads as [(0, 100)], ["bytes=50-"] as [(50, 0)],
    and a header without the separator as [(-1, -1)]. *)
Theorem parse_range_header_reads :
  KiesUtils.parse_range_header "bytes=0-100" = Ok (0, 100)
  ∧ KiesUtils.parse_range_header "bytes=50-" = Ok (50, 0)
  ∧ ∀ header : string,
      Py.count "-" header = 0%nat →
      KiesUtils.parse_range_header header = Ok (-1, -1).
Proof.
  split; [reflexivity|]. split; [reflexivity|].
  apply parse_range_header_no_dash.
Qed.

Lemma parse_range_header_reads_witness :
  Py.count "-" "bytes=100" = 0%nat
  ∧ KiesUtils.parse_range_header "bytes=100" = Ok (-1, -1).
Proof.
  split; [reflexivity|].
  exact (proj2 (proj2 parse_range_header_reads) "bytes=100" eq_refl).
Defined.

(** C9: [(-1, -1)] is returned only for a header without the separator; with
    the separator, a bound that is no integer makes the conversion raise, as
    on ["bytes=a-b"]. *)
Theorem parse_range_header_partial :
  (∀ header : string,
     KiesUtils.parse_range_header header = Ok (-1, -1) →
     Py.count "-" header = 0%nat)
  ∧ (∀ (header x y : string) (e : exn),
       range_text header = x +:+ String "-" y → Py.count "-" x = 0%nat →
       x ≠ EmptyString → Py.int x = Raise e →
       KiesUtils.parse_range_header header = Raise e)
  ∧ Py.count "-" "bytes=a-b" = 1%nat
  ∧ KiesUtils.parse_range_header "bytes=a-b"
    = Raise (ValueError "invalid literal for int() with base 10").
Proof.
  split; [|split; [|split; reflexivity]].
  - intros header H.
    destruct (decide (Py.count "-" header = 0%nat)) as [|Hne]; [done|exfalso].
    rewrite <- count_range_text in Hne.
    destruct (split1_count _ _ Hne) as (x & y & _ & Hx & Hxy).
    rewrite (parse_range_header_dash header x y Hxy Hx) in H.
    destruct (if bool_decide (y = EmptyString) then Ok 0 else Py.int y) as [b|];
      destruct (decide (x = EmptyString)) as [Hx0|Hx0].
    + rewrite bool_decide_true in H by done. simpl in H. congruence.
    + rewrite bool_decide_false in H by done.
      destruct (Py.int x) as [a|] eqn:Ha; simpl in H; [|done].
      apply int_nonneg in Ha; [|done]. injection H as -> _. lia.
    + rewrite bool_decide_true in H by done. simpl in H. congruence.
    + rewrite bool_decide_false in H by done.
      destruct (Py.int x); simpl in H; congruence.
  - intros header x y e Hxy Hx Hne He.
    rewrite (parse_range_header_dash header x y Hxy Hx).
    rewrite (bool_decide_false (x = EmptyString)) by done. by rewrite He.
Qed.

Lemma parse_range_header_partial_witness :
  KiesUtils.parse_range_header " bytes=x-5 "
  = Raise (ValueError "invalid literal for int() with base 10")
  ∧ (KiesUtils.parse_range_header "bytes=7" = Ok (-1, -1) →
     Py.count "-" "bytes=7" = 0%nat).
Proof.
  split.
  - apply (proj1 (proj2 parse_range_header_partial) " bytes=x-5 " "x" "5");
      [reflexivity|reflexivity|done|reflexivity].
  - apply (proj1 parse_range_header_partial "bytes=7").
Defined.

(** ** [KiesUtils.read_firmware] *)

Lemma substring_append_r (p s : string) :
  String.substring (String.length p) (String.length s) (p +:+ s) = s.
Proof.
  induction p as [|a p IH]; simpl.
  - rewrite ?append_nil_l. induction s as [|b s IH]; [done|].
    simpl. by rewrite IH.
  - by rewrite ?append_cons.
Qed.

Lemma last_chars_append (p s : string) :
  Py.last_chars (String.length s) (p +:+ s) = s.
Proof.
  unfold Py.last_chars. rewrite length_append.
  replace (String.length p + String.length s - String.length s)%nat
    with (String.length p) by lia.
  apply substring_append_r.
Qed.


Lemma read_firmware_first (first rest : string) :
  Py.count "/" first = 0%nat → Py.count "/" rest = 2%nat →
  KiesUtils.read_firmware (first +:+ "/" +:+ rest)
  = KiesUtils.read_pda (Py.last_chars 6 first).
Proof.
  intros Hf Hr. unfold KiesUtils.read_firmware.
  change (first +:+ "/" +:+ rest) with (first +:+ String "/" rest).
  rewrite count_append. cbn [Py.count]. rewrite Hf, Hr.
  rewrite bool_decide_true by (by destruct (decide ("/"%char = "/"%char))).
  by rewrite split_append_sep.
Qed.

Lemma index_alphabet (c : ascii) :
  KiesUtils.alphabet = "0123456789ABCDEFGHIJKLMNOPQRSTUVWXYZ"
  ∧ Py.index c KiesUtils.alphabet
    = if bool_decide (48 ≤ Py.ord c ≤ 57) then Ok (Py.ord c - 48)
      else if bool_decide (65 ≤ Py.ord c ≤ 90) then Ok (Py.ord c - 55)
      else Raise (ValueError "substring not found").
Proof.
  split; [reflexivity|].
  destruct c as [[] [] [] [] [] [] [] []]; vm_compute; reflexivity.
Qed.

(** C6: the build information is a function of the last six characters of
    the first component; a code that starts with [U] or [S] gives the class
    code, the index of the third character from [A], the year, the month and
    the revision; any other code gives the year, the month and the revision
    from its last three characters. *)
Theorem read_firmware_decodes :
  (∀ (fw1 fw2 first1 first2 : string) (l1 l2 : list string),
     Py.count "/" fw1 = 3%nat → Py.count "/" fw2 = 3%nat →
     Py.split "/" fw1 = first1 :: l1 → Py.split "/" fw2 = first2 :: l2 →
     Py.last_chars 6 first1 = Py.last_chars 6 first2 →
     KiesUtils.read_firmware fw1 = KiesUtils.read_firmware fw2)
  ∧ (∀ (pre rest : string) (c1 c2 c3 c4 c5 c6 : ascii),
       Py.count "/" (pre +:+ code c1 c2 c3 c4 c5 c6) = 0%nat →
       Py.count "/" rest = 2%nat →
       KiesUtils.read_firmware ((pre +:+ code c1 c2 c3 c4 c5 c6) +:+ "/" +:+ rest)
       = (revision ← Py.index c6 "0123456789ABCDEFGHIJKLMNOPQRSTUVWXYZ";
          if bool_decide (c1 = "U"%char ∨ c1 = "S"%char)
          then Ok (Some (String c1 (String c2 EmptyString)),
                   Some (Py.ord c3 - Py.ord "A"),
                   Py.ord c4 - Py.ord "R" + 2018,
                   Py.ord c5 - Py.ord "A",
                   revision)
          else Ok (None, None,
                   Py.ord c4 - Py.ord "R" + 2018,
                   Py.ord c5 - Py.ord "A",
                   revision)))
  ∧ (∀ c : ascii,
       Py.index c "0123456789ABCDEFGHIJKLMNOPQRSTUVWXYZ"
       = if bool_decide (48 ≤ Py.ord c ≤ 57) then Ok (Py.ord c - 48)
         else if bool_decide (65 ≤ Py.ord c ≤ 90) then Ok (Py.ord c - 55)
         else Raise (ValueError "substring not found")).
Proof.
  split; [|split].
  - intros fw1 fw2 first1 first2 l1 l2 H1 H2 Hs1 Hs2 Hpda.
    unfold KiesUtils.read_firmware.
    rewrite H1, H2, Hs1, Hs2. simpl. by rewrite Hpda.
  - intros pre rest c1 c2 c3 c4 c5 c6 Hf Hr.
    rewrite read_firmware_first by done.
    change 6%nat with (String.length (code c1 c2 c3 c4 c5 c6)).
    rewrite last_chars_append.
    unfold KiesUtils.read_pda, code. cbn [Py.item Py.item_back String.get or_raise mbind result_bind fmap result_fmap Nat.eqb String.length Nat.sub Nat.leb].
    change KiesUtils.alphabet with "0123456789ABCDEFGHIJKLMNOPQRSTUVWXYZ".
    destruct (decide (c1 = "U"%char ∨ c1 = "S"%char)) as [Hc|Hc].
    + rewrite bool_decide_true by (rewrite !elem_of_cons; tauto).
      rewrite (bool_decide_true (_ ∨ _)) by done.
      destruct (Py.index c6 _) as [r|]; reflexivity.
    + rewrite bool_decide_false by (rewrite !elem_of_cons, elem_of_nil; tauto).
      rewrite (bool_decide_false (_ ∨ _)) by done.
      fold (code c1 c2 c3 c4 c5 c6).
      rewrite (eq_refl : Py.item_back (code c1 c2 c3 c4 c5 c6) 3 = Ok c4).
      rewrite (eq_refl : Py.item_back (code c1 c2 c3 c4 c5 c6) 2 = Ok c5).
      rewrite (eq_refl : Py.item_back (code c1 c2 c3 c4 c5 c6) 1 = Ok c6).
      cbn [fmap result_fmap mbind result_bind].
      destruct (Py.index c6 _) as [r|]; reflexivity.
  - intros c. apply index_alphabet.
Qed.

Lemma read_firmware_decodes_witness :
  KiesUtils.read_firmware
    "G960FXXU1ASCD/G960FOXM1ASC1/G960FXXU1ASCD/G960FXXU1ASCD"
  = Ok (Some "U1", Some 0, 2019, 2, 13).
Proof.
  exact (proj1 (proj2 read_firmware_decodes) "G960FXX" "G960FOXM1ASC1/G960FXXU1ASCD/G960FXXU1ASCD"
           "U"%char "1"%char "A"%char "S"%char "C"%char "D"%char eq_refl eq_refl).
Defined.

(** ** Runs of programs *)

Section RunFacts.
Context {Session : Type}.
Implicit Types (w : World Session) (past tr : list (Event Session)).

Lemma run_on_outcome {A B} w (p : Prog Session A) (f : result A → Prog Session B) past :
  run w (on_outcome p f) past = run w (f (run w p past).2) (run w p past).1.
Proof.
  revert past. induction p as [r|q k IH|c k IH|tac k IH|k IH|h k IH|key k IH];
    intros past; simpl; auto.
Qed.

Lemma run_bind {A B} w (p : Prog Session A) (f : A → Prog Session B) past :
  run w (p ≫= f) past =
    match (run w p past).2 with
    | Ok a => run w (f a) (run w p past).1
    | Raise e => ((run w p past).1, Raise e)
    end.
Proof.
  unfold mbind, Prog_bind. rewrite run_on_outcome.
  by destruct (run w p past).2.
Qed.

Lemma run_bind_ok {A B} w (p : Prog Session A) (f : A → Prog Session B) past tr a :
  run w p past = (tr, Ok a) → run w (p ≫= f) past = run w (f a) tr.
Proof. intros H. by rewrite run_bind, H. Qed.

Lemma run_bind_raise {A B} w (p : Prog Session A) (f : A → Prog Session B) past tr e :
  run w p past = (tr, Raise e) → run w (p ≫= f) past = (tr, Raise e).
Proof. intros H. by rewrite run_bind, H. Qed.

Lemma run_lift {A} w (r : result A) past : run w (lift r) past = (past, r).
Proof. reflexivity. Qed.

Lemma run_send w q past :
  run w (send q) past = (past ++ [Sent q (http w past q)], http w past q).
Proof. reflexivity. Qed.

Lemma run_try_finally_aclose {A} w (p : Prog Session A) past :
  run w (try_finally_aclose p) past
  = ((run w p past).1 ++ [Closed], (run w p past).2).
Proof. unfold try_finally_aclose. by rewrite run_on_outcome. Qed.

(** A run only adds events. *)
Lemma run_extends {A} w (p : Prog Session A) past :
  ∃ events, (run w p past).1 = past ++ events.
Proof.
  revert past. induction p as [r|q k IH|c k IH|tac k IH|k IH|h k IH|key k IH];
    intros past; simpl.
  - exists []. by rewrite app_nil_r.
  - destruct (IH (http w past q) (past ++ [Sent q (http w past q)])) as [ev ->].
    eexists. by rewrite <- app_assoc.
  - destruct (IH (csv w past c) (past ++ [CsvRead c])) as [ev ->].
    eexists. by rewrite <- app_assoc.
  - destruct (IH (generate_random_imei w past tac)
                (past ++ [ImeiGenerated tac (generate_random_imei w past tac)]))
      as [ev ->].
    eexists. by rewrite <- app_assoc.
  - destruct (IH (past ++ [Closed])) as [ev ->]. eexists. by rewrite <- app_assoc.
  - destruct (IH (past ++ [Responded h])) as [ev ->]. eexists. by rewrite <- app_assoc.
  - destruct (IH (start_decryptor w past key) (past ++ [DecryptorStarted key]))
      as [ev ->].
    eexists. by rewrite <- app_assoc.
Qed.

Lemma requests_app tr1 tr2 : requests (tr1 ++ tr2) = requests tr1 ++ requests tr2.
Proof. unfold requests. apply omap_app. Qed.

(** A request that has been sent stays in the trace. *)
Lemma run_keeps_requests {A} w (p : Prog Session A) past q :
  q ∈ requests past → q ∈ requests (run w p past).1.
Proof.
  intros H. destruct (run_extends w p past) as [ev ->].
  rewrite requests_app, elem_of_app. by left.
Qed.

Lemma run_bind_keeps_requests {A B} w (p : Prog Session A) (f : A → Prog Session B)
    past q :
  q ∈ requests (run w p past).1 → q ∈ requests (run w (p ≫= f) past).1.
Proof.
  intros H. rewrite run_bind. destruct (run w p past) as [tr [a|e]]; cbn [fst snd] in *.
  - by apply run_keeps_requests.
  - done.
Qed.

(** A program that starts by sending [q] has [q] in its trace. *)
Lemma run_send_first {A} w q (f : Response.t → Prog Session A) past :
  q ∈ requests (run w (send q ≫= f) past).1.
Proof.
  apply run_bind_keeps_requests. rewrite run_send. cbn [fst].
  rewrite requests_app, elem_of_app. right. apply list_elem_of_here.
Qed.

End RunFacts.

(** ** The retry loop of [get_binary_details] *)

Section RetryFacts.
Context {Session : Type} {ops : SessionOps Session} {builtins : Builtins}.
Implicit Types (w : World Session) (past tr : list (Event Session)).

Lemma run_attempt_body w region model firmware request_imei imei_data a
    past imei session info st past' :
  attempt_answered w region model firmware request_imei imei_data
    past imei session info st past' →
  run w (attempt_body region model firmware request_imei imei_data a) past
  = (past', inspected st (vars_of a imei session info st)).
Proof.
  intros (past1 & nonce & Hsel & Hnonce & Hsess & Hinfo & Hst & ->).
  unfold attempt_body.
  rewrite (run_bind_ok _ _ _ _ _ _ Hsel).
  rewrite run_bind, run_send, Hnonce. cbn [fst snd].
  rewrite run_bind, run_lift, Hsess. cbn [fst snd].
  rewrite run_try_finally_aclose.
  rewrite run_bind, run_send, Hinfo. cbn [fst snd].
  rewrite run_bind, run_lift, Hst. cbn [fst snd].
  unfold inspected, vars_of.
  repeat case_bool_decide;
    rewrite ?run_bind, ?run_lift; cbn [run mret Prog_ret fst snd];
    try destruct (int (from_option PStr PNone st));
    cbn [run raise fst snd mbind result_bind];
    by rewrite <- ?app_assoc.
Qed.

Lemma run_attempts_cons w region model firmware request_imei imei_data a l last
    past imei session info st past' :
  attempt_answered w region model firmware request_imei imei_data
    past imei session info st past' →
  run w (attempts region model firmware request_imei imei_data (a :: l) last) past
  = match inspected st (vars_of a imei session info st) with
    | Ok (Break, vars) => (past', Ok (Some vars))
    | Ok (Next, vars) =>
        run w (attempts region model firmware request_imei imei_data l (Some vars)) past'
    | Raise e => (past', Raise e)
    end.
Proof.
  intros H. cbn [attempts]. rewrite run_bind, (run_attempt_body _ _ _ _ _ _ _ _ _ _ _ _ _ H).
  cbn [fst snd]. by destruct (inspected _ _) as [[[] ?]|].
Qed.

Lemma run_retry_cons w request region model firmware is_download request_imei
    imei_data a l last past imei session info st past' :
  attempt_answered w region model firmware request_imei imei_data
    past imei session info st past' →
  run w (retry request region model firmware is_download request_imei imei_data
           (a :: l) last) past
  = match inspected st (vars_of a imei session info st) with
    | Ok (Break, vars) =>
        run w (after_attempts request region model firmware is_download (Some vars)) past'
    | Ok (Next, vars) =>
        run w (retry request region model firmware is_download request_imei imei_data
                 l (Some vars)) past'
    | Raise e => (past', Raise e)
    end.
Proof.
  intros H. unfold retry. rewrite run_bind, (run_attempts_cons _ _ _ _ _ _ _ _ _ _ _ _ _ _ _ H).
  destruct (inspected _ _) as [[[] ?]|]; cbn [fst snd]; try reflexivity.
  by rewrite run_bind.
Qed.

End RetryFacts.

Section RetryClaims.
Context {Session : Type} {ops : SessionOps Session} {builtins : Builtins}.
Implicit Types (w : World Session) (past tr : list (Event Session)).

Lemma select_imei_requests w request_imei imei_data past :
  requests (run w (select_imei request_imei imei_data) past).1 = requests past.
Proof.
  unfold select_imei. destruct request_imei; cbn [run mret Prog_ret lift fst].
  - done.
  - rewrite requests_app. cbn. by rewrite app_nil_r.
Qed.

Lemma select_imei_data_requests w request_imei model past :
  requests (run w (select_imei_data request_imei model) past).1 = requests past.
Proof.
  unfold select_imei_data, read_imei_data. destruct request_imei; cbn [run mret Prog_ret fst].
  - done.
  - rewrite run_bind, run_lift. cbn [fst snd].
    destruct (csv w past "web/tacs.csv") as [rows|e]; cbn [fst].
    + destruct (list_find _ rows) as [[? row]|]; cbn [run lift mret Prog_ret fst];
        rewrite requests_app; cbn; by rewrite app_nil_r.
    + rewrite requests_app. cbn. by rewrite app_nil_r.
Qed.

Lemma attempt_answered_requests w region model firmware request_imei imei_data
    past imei session info st past' :
  attempt_answered w region model firmware request_imei imei_data
    past imei session info st past' →
  requests past'
  = requests past ++ [get_nonce; get_binary region model firmware imei session].
Proof.
  intros (past1 & nonce & Hsel & _ & _ & _ & _ & ->).
  rewrite requests_app. f_equal.
  pose proof (select_imei_requests w request_imei imei_data past) as Hr.
  by rewrite Hsel in Hr.
Qed.

Lemma binary_details_redirect request region model firmware
    (vars : loop_vars Session) body name path key :
  body_of (binary_info vars) body →
  KiesDict.getitem body "BINARY_NAME" = Ok name →
  key_derived (session vars) body region model firmware name key →
  KiesDict.getitem body "MODEL_PATH" = Ok path →
  binary_details request region model firmware true vars
  = Ok (redirect (("/file" +:+ str path +:+ str name) +:+ "?decrypt=" +:+ key)).
Proof.
  intros (data & Hx & Hb) Hname Hkey Hpath. unfold binary_details.
  rewrite Hx. cbn [mbind result_bind]. rewrite Hb. cbn [mbind result_bind].
  rewrite Hname. cbn [mbind result_bind]. unfold key_derived in Hkey.
  destruct (Py.endswith "4" (str name)).
  - destruct Hkey as (logic & Hl & Hk). rewrite bool_decide_false by done.
    rewrite Hl. cbn [mbind result_bind]. rewrite Hk. cbn [mbind result_bind].
    by rewrite Hpath.
  - rewrite bool_decide_true by done. rewrite Hkey. cbn [mbind result_bind].
    by rewrite Hpath.
Qed.

Lemma binary_details_metadata request region model firmware
    (vars : loop_vars Session) body name path key display size (n : Z) gb os
    modified (m : Z) platform crc pda :
  body_of (binary_info vars) body →
  KiesDict.getitem body "BINARY_NAME" = Ok name →
  key_derived (session vars) body region model firmware name key →
  KiesDict.getitem body "MODEL_PATH" = Ok path →
  KiesDict.getitem body "DEVICE_MODEL_DISPLAYNAME" = Ok display →
  KiesDict.getitem body "BINARY_BYTE_SIZE" = Ok size →
  int size = Ok n → size_gb size = Ok gb →
  KiesDict.getitem body "CURRENT_OS_VERSION" = Ok (PStr os) →
  KiesDict.getitem body "LAST_MODIFIED" = Ok modified → int modified = Ok m →
  KiesDict.getitem body "DEVICE_PLATFORM" = Ok platform →
  KiesDict.getitem body "BINARY_CRC" = Ok crc →
  KiesUtils.read_firmware_dict firmware = Ok pda →
  binary_details request region model firmware false vars
  = Ok (json_details {|
          Details.display_name := display;
          Details.size := n;
          Details.size_readable := gb;
          Details.filename := name;
          Details.path := path;
          Details.version := Py.replace "(" " (" os;
          Details.encrypt_version := if Py.endswith "4" (str name) then 4 else 2;
          Details.last_modified := m;
          Details.decrypt_key := key;
          Details.firmware_changelog_url :=
            KiesDict.get_first body ["DESCRIPTION"; "ADD_DESCRIPTION"];
          Details.platform := platform;
          Details.crc := crc;
          Details.download_path :=
            server_path request +:+ "/file" +:+ str path +:+ str name;
          Details.download_path_decrypt :=
            server_path request +:+ ("/file" +:+ str path +:+ str name)
            +:+ "?decrypt=" +:+ key;
          Details.pda := pda;
          Details.imei := imei vars;
          Details.firmware := firmware |}).
Proof.
  intros (data & Hx & Hb) Hname Hkey Hpath Hdisplay Hsize Hn Hgb Hos Hmod Hm
    Hplatform Hcrc Hpda.
  unfold binary_details, server_path.
  rewrite Hx. cbn [mbind result_bind]. rewrite Hb. cbn [mbind result_bind].
  rewrite Hname. cbn [mbind result_bind]. unfold key_derived in Hkey.
  rewrite Hpath, Hdisplay, Hsize, Hos, Hmod, Hplatform, Hcrc, Hpda.
  cbn [mbind result_bind]. rewrite Hn, Hgb, Hm. cbn [mbind result_bind].
  destruct (Py.endswith "4" (str name)).
  - destruct Hkey as (logic & Hl & Hk). rewrite (bool_decide_false (4 = 2)) by done.
    rewrite Hl. cbn [mbind result_bind]. rewrite Hk. by cbn [mbind result_bind].
  - rewrite (bool_decide_true (2 = 2)) by done. rewrite Hkey.
    by cbn [mbind result_bind].
Qed.

Lemma run_after_attempts_failed w request region model firmware is_download
    (last : option (loop_vars Session)) past :
  (∀ vars, last = Some vars → status_code vars ≠ Some "200") →
  run w (after_attempts request region model firmware is_download last) past
  = (past, Raise (make_error MAX_RETRY_EXCEEDED 500)).
Proof.
  intros H. unfold after_attempts. destruct last as [vars|]; [|done].
  by rewrite bool_decide_false by (by apply H).
Qed.

Lemma retry_rejected w request region model firmware is_download
    request_imei imei_data :
  attempts_served w request_imei imei_data → always_status w "408" →
  ∀ l (last : option (loop_vars Session)) past,
    (∀ vars, last = Some vars → status_code vars ≠ Some "200") →
    ∃ tr steps,
      run w (retry request region model firmware is_download request_imei imei_data
               l last) past
      = (tr, Raise (make_error MAX_RETRY_EXCEEDED 500))
      ∧ length steps = length l
      ∧ requests tr = requests past ++ attempt_requests region model firmware steps.
Proof.
  intros [Hid Hnonce] Hst l. induction l as [|a l IH]; intros last past Hlast.
  - exists past, []. split; [|split; [done|]].
    + unfold retry. cbn [attempts]. rewrite run_bind. cbn [run mret Prog_ret fst snd].
      by apply run_after_attempts_failed.
    + unfold attempt_requests. cbn. by rewrite app_nil_r.
  - destruct (Hid past) as (past1 & imei & Hsel).
    destruct (Hnonce past1) as (nonce & session & Hn & Hs).
    destruct (Hst (past1 ++ [Sent get_nonce (Ok nonce)]) region model firmware
                imei session) as (info & Hi & Ht).
    assert (attempt_answered w region model firmware request_imei imei_data
              past imei session info (Some "408")
              (past1 ++ [Sent get_nonce (Ok nonce);
                         Sent (get_binary region model firmware imei session) (Ok info);
                         Closed])) as Hans.
    { by exists past1, nonce. }
    rewrite (run_retry_cons _ _ _ _ _ _ _ _ _ _ _ _ _ _ _ _ _ Hans).
    unfold inspected.
    rewrite bool_decide_false by done. rewrite bool_decide_true by done.
    destruct (IH (Some (vars_of a imei session info (Some "408")))
                (past1 ++ [Sent get_nonce (Ok nonce);
                           Sent (get_binary region model firmware imei session) (Ok info);
                           Closed]))
      as (tr & steps & Hrun & Hlen & Hreq).
    { by intros vars [= <-]. }
    exists tr, ((imei, session) :: steps). split; [done|]. split; [cbn; by rewrite Hlen|].
    rewrite Hreq, (attempt_answered_requests _ _ _ _ _ _ _ _ _ _ _ _ Hans).
    by rewrite <- app_assoc.
Qed.

Lemma run_get_binary_details w global_imei request region model firmware_path
    request_imei imei_data past0 :
  global_imei = Some request_imei →
  match_firmware (requested_firmware firmware_path) = true →
  run w (select_imei_data request_imei model) [] = (past0, Ok imei_data) →
  run w (get_binary_details global_imei request region model firmware_path) []
  = run w (retry request region model (requested_firmware firmware_path)
             (download_requested firmware_path) request_imei imei_data
             (seq 1 5) None) past0.
Proof.
  intros -> Hm Hd. unfold get_binary_details.
  rewrite run_bind, run_lift. cbn [fst snd or_raise].
  fold (requested_firmware firmware_path). rewrite Hm. cbn [negb].
  by rewrite (run_bind_ok _ _ _ _ _ _ Hd).
Qed.

(** C2: when every binary-info request is answered 408, the handler makes
    five attempts, each with its own nonce request, and fails with
    [MAX_RETRY_EXCEEDED]; when the first one is answered 200, that attempt is
    the only one and the answer is built from its response: the fields of
    the answer are the values that the [Put] section of that response holds
    under their keys, with the key of the file and the identity of the
    attempt; for a path that asks for the download the same name, path and
    key are returned as the redirection to the download. *)
Theorem retry_attempts w global_imei request region model firmware_path
    request_imei imei_data past0 :
  global_imei = Some request_imei →
  match_firmware (requested_firmware firmware_path) = true →
  run w (select_imei_data request_imei model) [] = (past0, Ok imei_data) →
  (attempts_served w request_imei imei_data → always_status w "408" →
   ∃ tr steps,
     run w (get_binary_details global_imei request region model firmware_path) []
     = (tr, Raise (make_error MAX_RETRY_EXCEEDED 500))
     ∧ length steps = 5%nat
     ∧ requests tr
       = attempt_requests region model (requested_firmware firmware_path) steps)
  ∧ (∀ imei session info past',
       attempt_answered w region model (requested_firmware firmware_path)
         request_imei imei_data past0 imei session info (Some "200") past' →
       run w (get_binary_details global_imei request region model firmware_path) []
       = (past',
          binary_details request region model (requested_firmware firmware_path)
            (download_requested firmware_path)
            (vars_of 1 imei session info (Some "200")))
       ∧ requests past'
         = [get_nonce;
            get_binary region model (requested_firmware firmware_path) imei session]
       ∧ (∀ body name path key display size (n : Z) gb os modified (m : Z)
            platform crc pda,
            body_of info body →
            KiesDict.getitem body "BINARY_NAME" = Ok name →
            key_derived session body region model (requested_firmware firmware_path) name key →
            KiesDict.getitem body "MODEL_PATH" = Ok path →
            KiesDict.getitem body "DEVICE_MODEL_DISPLAYNAME" = Ok display →
            KiesDict.getitem body "BINARY_BYTE_SIZE" = Ok size →
            int size = Ok n → size_gb size = Ok gb →
            KiesDict.getitem body "CURRENT_OS_VERSION" = Ok (PStr os) →
            KiesDict.getitem body "LAST_MODIFIED" = Ok modified → int modified = Ok m →
            KiesDict.getitem body "DEVICE_PLATFORM" = Ok platform →
            KiesDict.getitem body "BINARY_CRC" = Ok crc →
            KiesUtils.read_firmware_dict (requested_firmware firmware_path) = Ok pda →
            download_requested firmware_path = false →
            run w (get_binary_details global_imei request region model firmware_path) []
            = (past',
               Ok (json_details {|
               Details.display_name := display;
               Details.size := n;
               Details.size_readable := gb;
               Details.filename := name;
               Details.path := path;
               Details.version := Py.replace "(" " (" os;
               Details.encrypt_version := if Py.endswith "4" (str name) then 4 else 2;
               Details.last_modified := m;
               Details.decrypt_key := key;
               Details.firmware_changelog_url :=
                 KiesDict.get_first body ["DESCRIPTION"; "ADD_DESCRIPTION"];
               Details.platform := platform;
               Details.crc := crc;
               Details.download_path :=
                 server_path request +:+ "/file" +:+ str path +:+ str name;
               Details.download_path_decrypt :=
                 server_path request +:+ ("/file" +:+ str path +:+ str name)
                 +:+ "?decrypt=" +:+ key;
               Details.pda := pda;
               Details.imei := imei;
               Details.firmware := requested_firmware firmware_path |})))
       ∧ (∀ body name path key,
            body_of info body →
            KiesDict.getitem body "BINARY_NAME" = Ok name →
            key_derived session body region model (requested_firmware firmware_path) name key →
            KiesDict.getitem body "MODEL_PATH" = Ok path →
            download_requested firmware_path = true →
            run w (get_binary_details global_imei request region model firmware_path) []
            = (past',
               Ok (redirect (("/file" +:+ str path +:+ str name)
                             +:+ "?decrypt=" +:+ key))))).
Proof.
  intros Hg Hm Hd.
  rewrite (run_get_binary_details _ _ _ _ _ _ _ _ _ Hg Hm Hd).
  pose proof (select_imei_data_requests w request_imei model []) as Hr0.
  rewrite Hd in Hr0. cbn [fst] in Hr0.
  split.
  - intros Hserved Hst.
    destruct (retry_rejected w request region model (requested_firmware firmware_path)
                (download_requested firmware_path) request_imei imei_data
                Hserved Hst (seq 1 5) None past0) as (tr & steps & Hrun & Hlen & Hreq);
      [done|].
    exists tr, steps. split; [done|]. split; [done|]. by rewrite Hreq, Hr0.
  - intros imei session info past' Hans.
    assert (run w (retry request region model (requested_firmware firmware_path)
                     (download_requested firmware_path) request_imei imei_data
                     (seq 1 5) None) past0
            = (past',
               binary_details request region model (requested_firmware firmware_path)
                 (download_requested firmware_path)
                 (vars_of 1 imei session info (Some "200")))) as Hrun.
    { change (seq 1 5) with (1%nat :: seq 2 4).
      rewrite (run_retry_cons _ _ _ _ _ _ _ _ _ _ _ _ _ _ _ _ _ Hans).
      unfold inspected. rewrite bool_decide_true by done.
      unfold after_attempts, vars_of. cbn [status_code].
      by rewrite bool_decide_true by done. }
    split; [done|]. split.
    { by rewrite (attempt_answered_requests _ _ _ _ _ _ _ _ _ _ _ _ Hans), Hr0. }
    rewrite Hrun. split.
    + intros body name path key display size n gb os modified m platform crc pda
        Hbody Hname Hkey Hpath Hdisplay Hsize Hn Hgb Hos Hmod Hmi Hplatform Hcrc Hpda ->.
      f_equal.
      exact (binary_details_metadata request region model _
               (vars_of 1 imei session info (Some "200")) _ _ _ _ _ _ _ _ _ _ _ _ _ _
               Hbody Hname Hkey Hpath Hdisplay Hsize Hn Hgb Hos Hmod Hmi Hplatform
               Hcrc Hpda).
    + intros body name path key Hbody Hname Hkey Hpath ->. f_equal.
      exact (binary_details_redirect request region model _
               (vars_of 1 imei session info (Some "200")) _ _ _ _
               Hbody Hname Hkey Hpath).
Qed.

(** C5: the status of an attempt decides what follows: 200 ends the loop and
    the answer is built from the response, its fields being the values
    that the [Put] section of the response holds under their keys (or, when
    the download is asked for, the redirection made of the same name, path
    and key); 408 leads to the next attempt, 401 fails with [UNAUTHORIZED],
    and any other status with [UNKNOWN_ERROR] and its code, the code being
    the status read as an integer; a status that is no integer fails with
    the error of that reading.  After a failure nothing more is sent. *)
Theorem status_inspection w request region model firmware is_download
    request_imei imei_data a l last past imei session info st past' :
  attempt_answered w region model firmware request_imei imei_data
    past imei session info (Some st) past' →
  (st = "200" →
   run w (retry request region model firmware is_download request_imei imei_data
            (a :: l) last) past
   = (past', binary_details request region model firmware is_download
               (vars_of a imei session info (Some st))))
  ∧ (st = "408" →
     run w (retry request region model firmware is_download request_imei imei_data
              (a :: l) last) past
     = run w (retry request region model firmware is_download request_imei imei_data
                l (Some (vars_of a imei session info (Some st)))) past')
  ∧ (st = "401" →
     run w (retry request region model firmware is_download request_imei imei_data
              (a :: l) last) past
     = (past', Raise (make_error UNAUTHORIZED 401)))
  ∧ (∀ code : Z,
       st ∉ ["200"; "408"; "401"] → Py.int st = Ok code →
       run w (retry request region model firmware is_download request_imei imei_data
                (a :: l) last) past
       = (past', Raise (make_error UNKNOWN_ERROR code)))
  ∧ (∀ body name path key display size (n : Z) gb os modified (m : Z)
       platform crc pda,
       st = "200" →
       body_of info body →
       KiesDict.getitem body "BINARY_NAME" = Ok name →
       key_derived session body region model firmware name key →
       KiesDict.getitem body "MODEL_PATH" = Ok path →
       KiesDict.getitem body "DEVICE_MODEL_DISPLAYNAME" = Ok display →
       KiesDict.getitem body "BINARY_BYTE_SIZE" = Ok size →
       int size = Ok n → size_gb size = Ok gb →
       KiesDict.getitem body "CURRENT_OS_VERSION" = Ok (PStr os) →
       KiesDict.getitem body "LAST_MODIFIED" = Ok modified → int modified = Ok m →
       KiesDict.getitem body "DEVICE_PLATFORM" = Ok platform →
       KiesDict.getitem body "BINARY_CRC" = Ok crc →
       KiesUtils.read_firmware_dict firmware = Ok pda →
       is_download = false →
       run w (retry request region model firmware is_download request_imei imei_data
                (a :: l) last) past
       = (past',
          Ok (json_details {|
          Details.display_name := display;
          Details.size := n;
          Details.size_readable := gb;
          Details.filename := name;
          Details.path := path;
          Details.version := Py.replace "(" " (" os;
          Details.encrypt_version := if Py.endswith "4" (str name) then 4 else 2;
          Details.last_modified := m;
          Details.decrypt_key := key;
          Details.firmware_changelog_url :=
            KiesDict.get_first body ["DESCRIPTION"; "ADD_DESCRIPTION"];
          Details.platform := platform;
          Details.crc := crc;
          Details.download_path :=
            server_path request +:+ "/file" +:+ str path +:+ str name;
          Details.download_path_decrypt :=
            server_path request +:+ ("/file" +:+ str path +:+ str name)
            +:+ "?decrypt=" +:+ key;
          Details.pda := pda;
          Details.imei := imei;
          Details.firmware := firmware |})))
  ∧ (∀ body name path key,
       st = "200" →
       body_of info body →
       KiesDict.getitem body "BINARY_NAME" = Ok name →
       key_derived session body region model firmware name key →
       KiesDict.getitem body "MODEL_PATH" = Ok path →
       is_download = true →
       run w (retry request region model firmware is_download request_imei imei_data
                (a :: l) last) past
       = (past',
          Ok (redirect (("/file" +:+ str path +:+ str name) +:+ "?decrypt=" +:+ key))))
  ∧ (∀ e : exn,
       st ∉ ["200"; "408"; "401"] → Py.int st = Raise e →
       run w (retry request region model firmware is_download request_imei imei_data
                (a :: l) last) past
       = (past', Raise e)).
Proof.
  intros Hans. rewrite (run_retry_cons _ _ _ _ _ _ _ _ _ _ _ _ _ _ _ _ _ Hans).
  unfold inspected.
  split; [|split; [|split; [|split; [|split; [|split]]]]].
  - intros ->. rewrite bool_decide_true by done.
    unfold after_attempts, vars_of. cbn [status_code].
    by rewrite bool_decide_true by done.
  - intros ->. rewrite bool_decide_false by done. by rewrite bool_decide_true by done.
  - intros ->. rewrite !bool_decide_false by done. by rewrite bool_decide_true by done.
  - intros code Hst Hcode. rewrite !elem_of_cons, elem_of_nil in Hst.
    rewrite !bool_decide_false by (intros [= ->]; tauto).
    cbn [from_option int]. by rewrite Hcode.
  - intros body name path key display size n gb os modified m platform crc pda ->
      Hbody Hname Hkey Hpath Hdisplay Hsize Hn Hgb Hos Hmod Hmi Hplatform Hcrc Hpda ->.
    rewrite bool_decide_true by done.
    unfold after_attempts. cbn [vars_of status_code].
    rewrite bool_decide_true by done. cbn [run lift]. f_equal.
    exact (binary_details_metadata request region model _
             (vars_of a imei session info (Some "200")) _ _ _ _ _ _ _ _ _ _ _ _ _ _
             Hbody Hname Hkey Hpath Hdisplay Hsize Hn Hgb Hos Hmod Hmi Hplatform
             Hcrc Hpda).
  - intros body name path key -> Hbody Hname Hkey Hpath ->.
    rewrite bool_decide_true by done.
    unfold after_attempts. cbn [vars_of status_code].
    rewrite bool_decide_true by done. cbn [run lift]. f_equal.
    exact (binary_details_redirect request region model _
             (vars_of a imei session info (Some "200")) _ _ _ _ Hbody Hname Hkey Hpath).
  - intros e Hst He. rewrite !elem_of_cons, elem_of_nil in Hst.
    rewrite !bool_decide_false by (intros [= ->]; tauto).
    cbn [from_option int]. by rewrite He.
Qed.

End RetryClaims.

(** ** [get_firmware_list] *)

Lemma alternate_list_kept (entries : list pyval) (ts alts : list string) :
  entry_texts entries ts →
  Forall2 (λ t f, KiesUtils.parse_firmware t = Ok f) (kept ts) alts →
  KiesFirmwareList.alternate_list entries = Ok alts.
Proof.
  intros Ht. revert alts. induction Ht as [|x t entries ts Hx Ht IH]; intros alts Hp.
  - unfold kept in Hp. rewrite filter_nil in Hp. by inversion Hp.
  - cbn [KiesFirmwareList.alternate_list]. unfold KiesFirmwareList.alternate_item.
    rewrite Hx. cbn [mbind result_bind PyVal.count_slash].
    unfold kept in Hp. destruct (decide (1 < Py.count "/" t)%nat) as [Hc|Hc].
    + rewrite filter_cons_True in Hp by done.
      inversion Hp as [|?? f alts' Hf Hp']; subst.
      rewrite bool_decide_true by done. cbn [KiesFirmwareList.parse_firmware].
      rewrite Hf. cbn [mbind result_bind]. by rewrite (IH alts' Hp').
    + rewrite filter_cons_False in Hp by done.
      rewrite bool_decide_false by done. cbn [mbind result_bind].
      by rewrite (IH alts Hp).
Qed.

Lemma alternate_kept (versions upgrade : pyval) (ts alts : list string) :
  upgrade_value versions = Ok upgrade →
  entry_texts (upgrade_entries upgrade) ts →
  Forall2 (λ t f, KiesUtils.parse_firmware t = Ok f) (kept ts) alts →
  KiesFirmwareList.alternate versions = Ok alts.
Proof.
  unfold upgrade_value, KiesFirmwareList.alternate. intros Hu Ht Hp.
  destruct (PyVal.getitem versions "upgrade") as [u|]; [|done]. cbn in Hu |- *.
  rewrite Hu. cbn [mbind result_bind].
  destruct upgrade as [|s|l|d]; cbn [upgrade_entries] in Ht.
  - inversion Ht; subst. unfold kept in Hp. rewrite filter_nil in Hp. by inversion Hp.
  - inversion Ht; subst. unfold kept in Hp. rewrite filter_nil in Hp. by inversion Hp.
  - by apply (alternate_list_kept l ts).
  - pose proof (alternate_list_kept [PDict d] ts alts Ht Hp) as H.
    cbn [KiesFirmwareList.alternate_list] in H.
    destruct (KiesFirmwareList.alternate_item (PDict d)) as [fs|]; [|done].
    cbn in H. injection H as <-. by rewrite app_nil_r.
Qed.

Lemma firmware_entries_order (fs : list string) (i : nat) :
  Forall (λ f, is_Ok (KiesUtils.read_firmware_dict f) = true) fs →
  ∃ ff, firmware_entries i (Some <$> fs) = Ok ff
        ∧ Listing.firmware <$> ff = fs
        ∧ Listing.is_latest <$> ff
          = match fs with
            | [] => []
            | _ :: fs' => (if bool_decide (i = 0%nat) then Some true else None)
                          :: replicate (length fs') None
            end.
Proof.
  intros Hall. revert i. induction Hall as [|f fs Hf Hall IH]; intros i.
  - by exists [].
  - destruct (IH (S i)) as (ff & Hff & Hfw & Hl).
    destruct (KiesUtils.read_firmware_dict f) as [info|] eqn:Hinfo; [|done].
    eexists. cbn [fmap list_fmap firmware_entries or_raise mbind result_bind].
    rewrite Hinfo. cbn [mbind result_bind]. rewrite Hff. cbn [mbind result_bind].
    split; [done|]. cbn [fmap list_fmap Listing.firmware Listing.is_latest].
    split; [by rewrite Hfw|]. f_equal.
    change (list_fmap _ _ Listing.is_latest ff) with (Listing.is_latest <$> ff).
    rewrite Hl. by destruct fs.
Qed.

Section HandlerClaims.
Context {Session : Type} {ops : SessionOps Session} {builtins : Builtins}.
Implicit Types (w : World Session) (past tr : list (Event Session)).

(** C7: for a manifest whose entries decode, the list answered has the
    latest firmware first, marked as latest and alone so, then the
    alternates with at least two separators, normalized, in the order of the
    manifest; the entries with fewer separators are left out. *)
Theorem firmware_list_order w region model response data versions upgrade
    (latest : string) (ts alts : list string) :
  http w [] (list_firmware region model) = Ok response →
  Response.status_code response = 200 →
  Response.xml response = Ok data →
  KiesFirmwareList._versions data = Ok versions →
  KiesFirmwareList.latest versions = Ok (Some latest) →
  upgrade_value versions = Ok upgrade →
  entry_texts (upgrade_entries upgrade) ts →
  Forall2 (λ t f, KiesUtils.parse_firmware t = Ok f) (kept ts) alts →
  Forall (λ f, is_Ok (KiesUtils.read_firmware_dict f) = true) (latest :: alts) →
  ∃ tr ff,
    run w (get_firmware_list region model) [] = (tr, Ok (json_list ff))
    ∧ Listing.firmware <$> ff = latest :: alts
    ∧ Listing.is_latest <$> ff = Some true :: replicate (length alts) None
    ∧ (∀ t, t ∈ ts → (Py.count "/" t < 2)%nat → t ∉ kept ts).
Proof.
  intros Hresp Hcode Hxml Hv Hl Hu Ht Hp Hd.
  destruct (firmware_entries_order (latest :: alts) 0 Hd) as (ff & Hff & Hfw & Hlat).
  exists ([Sent (list_firmware region model) (Ok response); Closed]), ff.
  split; [|split; [done|split; [done|]]].
  - unfold get_firmware_list.
    rewrite run_bind, run_send, Hresp. cbn [fst snd].
    rewrite run_bind. cbn [aclose run mret Prog_ret fst snd].
    rewrite bool_decide_false by (rewrite Hcode; tauto).
    rewrite run_bind, run_lift, Hxml. cbn [fst snd].
    rewrite run_bind, run_lift, Hv. cbn [fst snd].
    assert (KiesFirmwareList.exists_ versions = Ok true) as Hex.
    { unfold KiesFirmwareList.exists_. destruct versions; by rewrite ?Hl. }
    rewrite run_bind, run_lift, Hex. cbn [fst snd].
    rewrite run_bind, run_lift, Hl. cbn [fst snd].
    rewrite run_bind, run_lift, (alternate_kept _ _ _ _ Hu Ht Hp). cbn [fst snd].
    rewrite run_bind, run_lift. cbn [fst snd].
    change (Some latest :: (Some <$> alts)) with (Some <$> latest :: alts).
    by rewrite Hff.
  - intros t _ Hc. unfold kept. rewrite list_elem_of_filter. lia.
Qed.

Lemma run_download_binary w request region model firmware nonce session0
    download_info session :
  registered w firmware nonce session0 download_info session →
  run w (download_binary request region model firmware) []
  = match KiesUtils.parse_range_header (range_header request) with
    | Ok (START_RANGE, END_RANGE) =>
        if range_invalid (DECRYPT_ENABLED request) START_RANGE END_RANGE
        then (registration firmware nonce session0 download_info ++ [Closed],
              Raise (make_error RANGE_HEADER_INVALID 416))
        else run w (_ ← stream_binary request "/neofus/910/" firmware session;
                    raise (make_error KIES_SERVER_OUTER_ERROR 200))
               (registration firmware nonce session0 download_info)
    | Raise e => (registration firmware nonce session0 download_info, Raise e)
    end.
Proof.
  intros (Hnonce & Hs0 & Hinfo & Hs & Hcode & Hkies).
  unfold download_binary, registration.
  rewrite run_bind, run_send, Hnonce. cbn [fst snd].
  rewrite run_bind, run_lift, Hs0. cbn [fst snd app].
  rewrite run_bind, run_send, Hinfo. cbn [fst snd app].
  rewrite run_bind, run_lift, Hs. cbn [fst snd].
  rewrite Hcode. rewrite bool_decide_true by done.
  destruct (Response.xml download_info) as [kies|] eqn:Hxml; [|done].
  cbn [mbind result_bind] in Hkies.
  rewrite (run_bind _ (_ ≫= _)).
  rewrite (run_bind _ (lift (Ok kies))), run_lift. cbn [fst snd].
  rewrite (run_bind _ (lift _)), run_lift, Hkies. cbn [fst snd].
  rewrite bool_decide_false by tauto.
  rewrite (run_bind _ (lift _)), run_lift. cbn [fst snd]. fold (range_header request).
  destruct (KiesUtils.parse_range_header (range_header request))
    as [[START_RANGE END_RANGE]|e]; [|done].
  destruct (range_invalid _ _ _).
  - rewrite (run_bind _ aclose). cbn [aclose run mret Prog_ret raise fst snd]. done.
  - by rewrite run_bind.
Qed.

(** C1 (amended): with decryption asked for and a range whose end is not 0,
    the handler fails with [RANGE_HEADER_INVALID] once the nonce and the
    registration of the file have been exchanged with success; these two
    requests are sent before the range is looked at, and the ranged download
    is not sent. *)
Theorem decrypt_range_rejected w request region model firmware nonce session0
    download_info session (START_RANGE END_RANGE : Z) :
  registered w firmware nonce session0 download_info session →
  decrypt_key request ≠ None →
  KiesUtils.parse_range_header (range_header request) = Ok (START_RANGE, END_RANGE) →
  END_RANGE ≠ 0 →
  run w (download_binary request region model firmware) []
  = (registration firmware nonce session0 download_info ++ [Closed],
     Raise (make_error RANGE_HEADER_INVALID 416))
  ∧ requests (registration firmware nonce session0 download_info ++ [Closed])
    = [get_nonce;
       get_download (KiesUtils.join_path ["/neofus/910/"; firmware] "/") session0].
Proof.
  intros Hreg Hkey Hrange Hend. split; [|done].
  rewrite (run_download_binary _ _ _ _ _ _ _ _ _ Hreg), Hrange.
  unfold range_invalid, DECRYPT_ENABLED.
  rewrite (bool_decide_true (decrypt_key request ≠ None)) by done.
  rewrite (bool_decide_true (END_RANGE ≠ 0)) by done.
  by rewrite !orb_true_r.
Qed.

(** C10: an empty bound reads as 0 on either side, so that ["bytes=0-0"]
    reads as the open range ["bytes=0-"] does, and with decryption asked for
    it passes the range test of [download_binary]: the ranged download is
    sent. *)
Theorem empty_bound_is_zero :
  KiesUtils.parse_range_header "bytes=-100" = Ok (0, 100)
  ∧ KiesUtils.parse_range_header "bytes=-" = Ok (0, 0)
  ∧ (∀ header y : string,
       range_text header = "-" +:+ y →
       KiesUtils.parse_range_header header
       = (b ← (if bool_decide (y = EmptyString) then Ok 0 else Py.int y); Ok (0, b)))
  ∧ (∀ header x : string,
       range_text header = x +:+ "-" → Py.count "-" x = 0%nat →
       KiesUtils.parse_range_header header
       = (a ← (if bool_decide (x = EmptyString) then Ok 0 else Py.int x); Ok (a, 0)))
  ∧ KiesUtils.parse_range_header "bytes=0-0" = Ok (0, 0)
  ∧ KiesUtils.parse_range_header "bytes=0-" = Ok (0, 0)
  ∧ (∀ w request region model firmware nonce session0 download_info session,
       registered w firmware nonce session0 download_info session →
       decrypt_key request ≠ None →
       Request.headers request !! "Range" = Some "bytes=0-0" →
       range_invalid (DECRYPT_ENABLED request) 0 0 = false
       ∧ start_download (KiesUtils.join_path ["/neofus/910/"; firmware] "/") session
           (Some "bytes=0-0")
         ∈ requests (run w (download_binary request region model firmware) []).1).
Proof.
  split; [reflexivity|]. split; [reflexivity|]. split; [|split].
  - intros header y Hy.
    by rewrite (parse_range_header_dash header EmptyString y Hy eq_refl).
  - intros header x Hx Hc.
    rewrite (parse_range_header_dash header x EmptyString Hx Hc).
    by destruct (if bool_decide (x = EmptyString) then Ok 0 else Py.int x).
  - split; [reflexivity|]. split; [reflexivity|].
    intros w request region model firmware nonce session0 download_info session
      Hreg Hkey Hrange.
    assert (range_invalid (DECRYPT_ENABLED request) 0 0 = false) as Hvalid.
    { unfold range_invalid. by rewrite andb_false_r. }
    split; [done|].
    rewrite (run_download_binary _ _ _ _ _ _ _ _ _ Hreg).
    assert (range_header request = "bytes=0-0") as ->.
    { unfold range_header. by rewrite Hrange. }
    rewrite (eq_refl : KiesUtils.parse_range_header "bytes=0-0" = Ok (0, 0)).
    rewrite Hvalid. unfold stream_binary. rewrite Hrange.
    apply run_bind_keeps_requests, run_send_first.
Qed.

End HandlerClaims.

(** ** The claims on fixed worlds *)

Lemma retry_attempts_witness :
  (∃ tr steps,
     run (Example.answering "408")
       (get_binary_details (Some None) (Example.request "bytes=0-") "EUX" "SM-G960F"
          Example.firmware) []
     = (tr, Raise (make_error MAX_RETRY_EXCEEDED 500))
     ∧ length steps = 5%nat
     ∧ requests tr = attempt_requests "EUX" "SM-G960F" Example.firmware steps)
  ∧ (∃ past',
       run (Example.answering "200")
         (get_binary_details (Some None) (Example.request "bytes=0-") "EUX" "SM-G960F"
            Example.firmware) []
       = (past', Ok (json_details {|
                            Details.display_name := PStr "Galaxy S9";
                            Details.size := 1073741824;
                            Details.size_readable := "1.00 GB";
                            Details.filename := PStr "fw.zip.enc4";
                            Details.path := PStr "/neofus/9/";
                            Details.version := "Pie (Android 9)";
                            Details.encrypt_version := 4;
                            Details.last_modified := 20190401;
                            Details.decrypt_key := "6b34";
                            Details.firmware_changelog_url := PNone;
                            Details.platform := PStr "Android";
                            Details.crc := PStr "123";
                            Details.download_path := "http://localhost:8000/file/neofus/9/fw.zip.enc4";
                            Details.download_path_decrypt :=
                              "http://localhost:8000/file/neofus/9/fw.zip.enc4?decrypt=6b34";
                            Details.pda := {| KiesUtils.bl := Some "U1"; KiesUtils.date := "2019.2";
                                              KiesUtils.it := "0.13" |};
                            Details.imei := Some "354399110859137";
                            Details.firmware := Example.firmware |}))
       ∧ requests past'
         = [get_nonce;
            get_binary "EUX" "SM-G960F" Example.firmware (Some "354399110859137") ()])
  ∧ (∃ past',
       run (Example.answering "200")
         (get_binary_details (Some None) (Example.request "bytes=0-") "EUX" "SM-G960F"
            (Example.firmware +:+ "/download")) []
       = (past', Ok (redirect "/file/neofus/9/fw.zip.enc4?decrypt=6b34"))).
Proof.
  split; [|split].
  - refine (proj1 (retry_attempts (Example.answering "408") (Some None)
                     (Example.request "bytes=0-") "EUX" "SM-G960F" Example.firmware
                     None (Some "35439911") [CsvRead "web/tacs.csv"]
                     eq_refl eq_refl eq_refl) _ _).
    + split; intros past; eexists _, _; [reflexivity|split; reflexivity].
    + intros past region model firmware imei session. eexists. split; reflexivity.
  - destruct (proj2 (retry_attempts (Example.answering "200") (Some None)
                       (Example.request "bytes=0-") "EUX" "SM-G960F" Example.firmware
                       None (Some "35439911") [CsvRead "web/tacs.csv"]
                       eq_refl eq_refl eq_refl)
                (Some "354399110859137") ()
                (Example.response 200 "200" (Ok (Example.binary_document "200")))
                _ ltac:(eexists _, _; repeat (split; [reflexivity|]); reflexivity))
      as (_ & Hreq & Hmeta & _).
    eexists. split; [|exact Hreq].
    let b := eval vm_compute in (KiesData.body (Example.binary_document "200")) in
    match b with
    | Ok ?body =>
        refine (Hmeta body (PStr "fw.zip.enc4") (PStr "/neofus/9/") "6b34"
                  (PStr "Galaxy S9") (PStr "1073741824") 1073741824 "1.00 GB"
                  "Pie(Android 9)" (PStr "20190401") 20190401 (PStr "Android")
                  (PStr "123")
                  {| KiesUtils.bl := Some "U1"; KiesUtils.date := "2019.2";
                     KiesUtils.it := "0.13" |}
                  _ eq_refl _ eq_refl eq_refl eq_refl eq_refl eq_refl eq_refl eq_refl
                  eq_refl eq_refl eq_refl eq_refl eq_refl)
    end.
    + eexists. split; reflexivity.
    + exists (PStr "lvf"). split; reflexivity.
  - destruct (proj2 (retry_attempts (Example.answering "200") (Some None)
                       (Example.request "bytes=0-") "EUX" "SM-G960F"
                       (Example.firmware +:+ "/download")
                       None (Some "35439911") [CsvRead "web/tacs.csv"]
                       eq_refl eq_refl eq_refl)
                (Some "354399110859137") ()
                (Example.response 200 "200" (Ok (Example.binary_document "200")))
                _ ltac:(eexists _, _; repeat (split; [reflexivity|]); reflexivity))
      as (_ & _ & _ & Hredirect).
    eexists.
    let b := eval vm_compute in (KiesData.body (Example.binary_document "200")) in
    match b with
    | Ok ?body =>
        refine (Hredirect body (PStr "fw.zip.enc4") (PStr "/neofus/9/") "6b34"
                  _ eq_refl _ eq_refl eq_refl)
    end.
    + eexists. split; reflexivity.
    + exists (PStr "lvf"). split; reflexivity.
Defined.

Lemma status_inspection_witness :
  (∃ past',
     run (Example.answering "200")
       (retry (Example.request "bytes=0-") "EUX" "SM-G960F" Example.firmware false
          (Some "354399110859137") (Some "354399110859137") [1; 2; 3; 4; 5]%nat None) []
     = (past', Ok (json_details {|
                          Details.display_name := PStr "Galaxy S9";
                          Details.size := 1073741824;
                          Details.size_readable := "1.00 GB";
                          Details.filename := PStr "fw.zip.enc4";
                          Details.path := PStr "/neofus/9/";
                          Details.version := "Pie (Android 9)";
                          Details.encrypt_version := 4;
                          Details.last_modified := 20190401;
                          Details.decrypt_key := "6b34";
                          Details.firmware_changelog_url := PNone;
                          Details.platform := PStr "Android";
                          Details.crc := PStr "123";
                          Details.download_path := "http://localhost:8000/file/neofus/9/fw.zip.enc4";
                          Details.download_path_decrypt :=
                            "http://localhost:8000/file/neofus/9/fw.zip.enc4?decrypt=6b34";
                          Details.pda := {| KiesUtils.bl := Some "U1"; KiesUtils.date := "2019.2";
                                            KiesUtils.it := "0.13" |};
                          Details.imei := Some "354399110859137";
                          Details.firmware := Example.firmware |}))
     ∧ length (requests past') = 2%nat)
  ∧ (∃ past',
       run (Example.answering "408")
         (retry (Example.request "bytes=0-") "EUX" "SM-G960F" Example.firmware false
            (Some "354399110859137") (Some "354399110859137") [5]%nat None) []
       = (past', Raise (make_error MAX_RETRY_EXCEEDED 500))
       ∧ length (requests past') = 2%nat)
  ∧ (∃ past',
       run (Example.answering "401")
         (retry (Example.request "bytes=0-") "EUX" "SM-G960F" Example.firmware false
            (Some "354399110859137") (Some "354399110859137") [1; 2; 3; 4; 5]%nat None) []
       = (past', Raise (make_error UNAUTHORIZED 401))
       ∧ length (requests past') = 2%nat)
  ∧ (∃ past',
       run (Example.answering "503")
         (retry (Example.request "bytes=0-") "EUX" "SM-G960F" Example.firmware false
            (Some "354399110859137") (Some "354399110859137") [1; 2; 3; 4; 5]%nat None) []
       = (past', Raise (make_error UNKNOWN_ERROR 503))
       ∧ length (requests past') = 2%nat)
  ∧ (∃ past',
       run (Example.answering "busy")
         (retry (Example.request "bytes=0-") "EUX" "SM-G960F" Example.firmware false
            (Some "354399110859137") (Some "354399110859137") [1; 2; 3; 4; 5]%nat None) []
       = (past', Raise (ValueError "invalid literal for int() with base 10"))
       ∧ length (requests past') = 2%nat).
Proof.
  assert (∀ st : string,
            attempt_answered (Example.answering st) "EUX" "SM-G960F" Example.firmware
              (Some "354399110859137") (Some "354399110859137") []
              (Some "354399110859137") ()
              (Example.response 200 st (Ok (Example.binary_document st))) (Some st)
              [Sent get_nonce (Ok (Example.response 200 EmptyString (Raise ParseError)));
               Sent (get_binary "EUX" "SM-G960F" Example.firmware
                       (Some "354399110859137") ())
                 (Ok (Example.response 200 st (Ok (Example.binary_document st))));
               Closed]) as Hans.
  { intros st. eexists _, _. repeat (split; [reflexivity|]). reflexivity. }
  split; [|split; [|split; [|split]]].
  - eexists. split.
    {
    let b := eval vm_compute in (KiesData.body (Example.binary_document "200")) in
    match b with
    | Ok ?body =>
        refine (proj1 (proj2 (proj2 (proj2 (proj2
                  (status_inspection (Example.answering "200")
                     (Example.request "bytes=0-") "EUX" "SM-G960F" Example.firmware
                     false _ _ 1%nat [2; 3; 4; 5]%nat None [] _ _ _ "200" _
                     (Hans "200"))))))
                  body (PStr "fw.zip.enc4") (PStr "/neofus/9/") "6b34"
                  (PStr "Galaxy S9") (PStr "1073741824") 1073741824 "1.00 GB"
                  "Pie(Android 9)" (PStr "20190401") 20190401 (PStr "Android")
                  (PStr "123")
                  {| KiesUtils.bl := Some "U1"; KiesUtils.date := "2019.2";
                     KiesUtils.it := "0.13" |}
                  eq_refl _ eq_refl _ eq_refl eq_refl eq_refl eq_refl eq_refl eq_refl
                  eq_refl eq_refl eq_refl eq_refl eq_refl eq_refl)
    end.
    + eexists. split; reflexivity.
    + exists (PStr "lvf"). split; reflexivity.
    }
    reflexivity.
  - eexists. split.
    + rewrite (proj1 (proj2
                 (status_inspection (Example.answering "408") (Example.request "bytes=0-")
                    "EUX" "SM-G960F" Example.firmware false _ _ 5%nat []
                    None [] _ _ _ "408" _ (Hans "408"))) eq_refl).
      reflexivity.
    + reflexivity.
  - eexists. split.
    + exact (proj1 (proj2 (proj2
               (status_inspection (Example.answering "401") (Example.request "bytes=0-")
                  "EUX" "SM-G960F" Example.firmware false _ _ 1%nat [2; 3; 4; 5]%nat
                  None [] _ _ _ "401" _ (Hans "401")))) eq_refl).
    + reflexivity.
  - eexists. split.
    + refine (proj1 (proj2 (proj2 (proj2
                (status_inspection (Example.answering "503") (Example.request "bytes=0-")
                   "EUX" "SM-G960F" Example.firmware false _ _ 1%nat [2; 3; 4; 5]%nat
                   None [] _ _ _ "503" _ (Hans "503"))))) 503 _ eq_refl).
      rewrite !elem_of_cons, elem_of_nil. intros [|[|[|[]]]]; discriminate.
    + reflexivity.
  - eexists. split.
    + refine (proj2 (proj2 (proj2 (proj2 (proj2 (proj2
                (status_inspection (Example.answering "busy")
                   (Example.request "bytes=0-")
                   "EUX" "SM-G960F" Example.firmware false _ _ 1%nat [2; 3; 4; 5]%nat
                   None [] _ _ _ "busy" _ (Hans "busy")))))))
                (ValueError "invalid literal for int() with base 10") _ eq_refl).
      rewrite !elem_of_cons, elem_of_nil. intros [|[|[|[]]]]; discriminate.
    + reflexivity.
Defined.

Lemma firmware_list_order_witness :
  ∃ tr ff,
    run (Example.answering "200") (get_firmware_list "EUX" "SM-G960F") []
    = (tr, Ok (json_list ff))
    ∧ Listing.firmware <$> ff
      = ["G960FXXU1ASCD/G960FOXM1ASC1/G960FXXU1ASCD/G960FXXU1ASCD";
         "G960FXXU1ARC5/G960FOXM1ARC5/G960FXXU1ARC5/G960FXXU1ARC5";
         "G960FXXS1BRJ6/G960FOXM1BRJ6/G960FXXU1BRJ6/G960FXXS1BRJ6"]
    ∧ Listing.is_latest <$> ff = [Some true; None; None].
Proof.
  destruct (firmware_list_order (Example.answering "200") "EUX" "SM-G960F"
              (Example.response 200 EmptyString (Ok Example.manifest)) Example.manifest
              _ _ _
              ["G960FXXU1ARC5/G960FOXM1ARC5/"; "G960F/";
               "G960FXXS1BRJ6/G960FOXM1BRJ6/G960FXXU1BRJ6"]
              ["G960FXXU1ARC5/G960FOXM1ARC5/G960FXXU1ARC5/G960FXXU1ARC5";
               "G960FXXS1BRJ6/G960FOXM1BRJ6/G960FXXU1BRJ6/G960FXXS1BRJ6"]
              eq_refl eq_refl eq_refl eq_refl eq_refl eq_refl)
    as (tr & ff & Hrun & Hfw & Hlat & _).
  - repeat constructor.
  - repeat constructor.
  - repeat constructor.
  - by exists tr, ff.
Defined.

Lemma decrypt_range_rejected_witness :
  ∃ tr,
    run (Example.answering "200")
      (download_binary (Example.request "bytes=0-100") "EUX" "SM-G960F" "fw.zip.enc4") []
    = (tr, Raise (make_error RANGE_HEADER_INVALID 416))
    ∧ requests tr = [get_nonce; get_download "/neofus/910/fw.zip.enc4" ()].
Proof.
  eexists.
  refine (decrypt_range_rejected (Example.answering "200") (Example.request "bytes=0-100")
            "EUX" "SM-G960F" "fw.zip.enc4"
            (Example.response 200 EmptyString (Raise ParseError)) ()
            (Example.response 200 "200" (Ok (Example.binary_document "200"))) ()
            0 100 _ _ eq_refl _).
  - repeat (split; [reflexivity|]). reflexivity.
  - discriminate.
  - discriminate.
Defined.

(** C1, as stated, fails: the range is looked at only after the nonce and
    the registration request have been sent. *)
Lemma range_checked_after_requests :
  (run (Example.answering "200")
     (download_binary (Example.request "bytes=0-100") "EUX" "SM-G960F" "fw.zip.enc4")
     []).2
  = Raise (make_error RANGE_HEADER_INVALID 416)
  ∧ requests
      (run (Example.answering "200")
         (download_binary (Example.request "bytes=0-100") "EUX" "SM-G960F" "fw.zip.enc4")
         []).1
    = [get_nonce; get_download "/neofus/910/fw.zip.enc4" ()]
  ∧ requests
      (run (Example.answering "200")
         (download_binary (Example.request "bytes=0-100") "EUX" "SM-G960F" "fw.zip.enc4")
         []).1
    ≠ [].
Proof. split; [reflexivity|]. split; [reflexivity|discriminate]. Qed.

Lemma empty_bound_is_zero_witness :
  KiesUtils.parse_range_header " bytes=-7" = Ok (0, 7)
  ∧ KiesUtils.parse_range_header "bytes=7-" = Ok (7, 0)
  ∧ start_download "/neofus/910/fw.zip.enc4" () (Some "bytes=0-0")
    ∈ requests
        (run (Example.answering "200")
           (download_binary (Example.request "bytes=0-0") "EUX" "SM-G960F" "fw.zip.enc4")
           []).1.
Proof.
  split; [|split].
  - exact (proj1 (proj2 (proj2 empty_bound_is_zero)) " bytes=-7" "7" eq_refl).
  - exact (proj1 (proj2 (proj2 (proj2 empty_bound_is_zero))) "bytes=7-" "7" eq_refl eq_refl).
  - refine (proj2 (proj2 (proj2 (proj2 (proj2 (proj2 (proj2 empty_bound_is_zero)))))
                     (Example.answering "200") (Example.request "bytes=0-0")
                     "EUX" "SM-G960F" "fw.zip.enc4"
                     (Example.response 200 EmptyString (Raise ParseError)) ()
                     (Example.response 200 "200" (Ok (Example.binary_document "200"))) ()
                     _ _ eq_refl)).
    + repeat (split; [reflexivity|]). reflexivity.
    + discriminate.
Defined.

(** * Further properties *)

(** ** [KiesUtils.parse_firmware] and [KiesUtils.read_firmware] together *)

Lemma count_split (c : ascii) (s : string) :
  Py.count c s = pred (length (Py.split c s)).
Proof. by rewrite length_split. Qed.

Lemma parse_firmware_components (s : string) :
  (3 ≤ length (Py.split "/" s))%nat →
  KiesUtils.parse_firmware s
  = Ok (Py.join "/" (normal_components (Py.split "/" s))).
Proof.
  intros Hlen.
  assert (s ≠ EmptyString) as Hne by (intros ->; simpl in Hlen; lia).
  rewrite parse_firmware_unfold by done.
  destruct (Py.split "/" s) as [|a [|b [|c r]]]; simpl in Hlen; try lia.
  destruct r as [|d r].
  - simpl. destruct (decide (c = EmptyString)) as [->|Hc].
    + reflexivity.
    + rewrite bool_decide_false by done. reflexivity.
  - cbn [length]. rewrite bool_decide_false by lia.
    simpl. destruct (decide (c = EmptyString)) as [->|Hc].
    + reflexivity.
    + rewrite bool_decide_false by done. reflexivity.
Qed.

Lemma normal_components_no_sep (l : list string) :
  Forall (λ x, Py.count "/" x = 0%nat) l →
  Forall (λ x, Py.count "/" x = 0%nat) (normal_components l).
Proof.
  intros H. destruct l as [|a [|b [|c r]]]; try done. cbn.
  inversion H as [|?? Ha H1]; subst. inversion H1 as [|?? Hb H2]; subst.
  inversion H2 as [|?? Hc Hr]; subst.
  repeat constructor; try done.
  - by destruct (decide (c = EmptyString)).
  - destruct r; [by constructor|done].
Qed.

Lemma split_parse_firmware (s r : string) :
  KiesUtils.parse_firmware s = Ok r →
  (3 ≤ length (Py.split "/" s))%nat
  ∧ Py.split "/" r = normal_components (Py.split "/" s).
Proof.
  intros H.
  assert (3 ≤ length (Py.split "/" s))%nat as Hlen.
  { destruct (decide (s = EmptyString)) as [->|Hne]; [done|].
    rewrite parse_firmware_unfold in H by done.
    destruct (Py.split "/" s) as [|a [|b [|c l]]]; simpl in *; try done. lia. }
  split; [done|].
  rewrite parse_firmware_components in H by done. injection H as <-.
  apply split_join.
  - destruct (Py.split "/" s) as [|a [|b [|c r]]]; simpl in Hlen; try lia. done.
  - apply normal_components_no_sep, split_no_sep.
Qed.

Lemma parse_firmware_count (s r : string) :
  KiesUtils.parse_firmware s = Ok r →
  (2 ≤ Py.count "/" s)%nat ∧ Py.count "/" r = Nat.max 3 (Py.count "/" s).
Proof.
  intros H. apply split_parse_firmware in H as [Hlen Hs].
  rewrite !count_split, Hs.
  destruct (Py.split "/" s) as [|a [|b [|c [|d l]]]]; simpl in *; lia.
Qed.

(** X1: normalization succeeds exactly on the strings with at least two
    separators, and its result has three separators when the input has two
    and as many as the input otherwise. *)
Theorem parse_firmware_separators (s : string) :
  (is_Ok (KiesUtils.parse_firmware s) = true ↔ (2 ≤ Py.count "/" s)%nat)
  ∧ (∀ r, KiesUtils.parse_firmware s = Ok r →
          Py.count "/" r = Nat.max 3 (Py.count "/" s)).
Proof.
  split.
  - split.
    + destruct (KiesUtils.parse_firmware s) as [r|] eqn:H; [|done]. intros _.
      by apply parse_firmware_count in H as [? _].
    + intros Hc. rewrite parse_firmware_components; [done|].
      rewrite length_split. lia.
  - intros r H. by apply parse_firmware_count in H as [_ ?].
Qed.

Lemma parse_firmware_separators_witness :
  Py.count "/" "G960FXXU1ARC5/G960FOXM1ARC5/" = 2%nat
  ∧ Py.count "/" "G960FXXU1ARC5/G960FOXM1ARC5/G960FXXU1ARC5/G960FXXU1ARC5" = 3%nat.
Proof.
  split; [reflexivity|].
  exact (proj2 (parse_firmware_separators "G960FXXU1ARC5/G960FOXM1ARC5/")
           "G960FXXU1ARC5/G960FOXM1ARC5/G960FXXU1ARC5/G960FXXU1ARC5" eq_refl).
Defined.

(** X2: normalization is idempotent: a normalized string is returned as it
    is. *)
Theorem parse_firmware_idempotent (s r : string) :
  KiesUtils.parse_firmware s = Ok r → KiesUtils.parse_firmware r = Ok r.
Proof.
  intros H. pose proof (join_split "/" r) as Hj.
  apply split_parse_firmware in H as [Hlen Hs].
  rewrite parse_firmware_components by (rewrite Hs;
    destruct (Py.split "/" s) as [|a [|b [|c [|d l]]]]; simpl in *; lia).
  f_equal. rewrite <- Hj at 2. f_equal. rewrite Hs.
  destruct (Py.split "/" s) as [|a [|b [|c l]]]; simpl in Hlen; try lia.
  cbn. destruct (decide (c = EmptyString)) as [->|Hc].
  - destruct (decide (a = EmptyString)) as [->|Ha]; by destruct l.
  - rewrite decide_False by done. by destruct l.
Qed.

Lemma parse_firmware_idempotent_witness :
  KiesUtils.parse_firmware "A/B/A/A" = Ok "A/B/A/A".
Proof. exact (parse_firmware_idempotent "A/B/" "A/B/A/A" eq_refl). Defined.

Lemma item_error (s : string) (i : nat) (e : exn) :
  Py.item s i = Raise e → e = IndexError.
Proof. unfold Py.item. destruct (String.get i s); simpl; congruence. Qed.

Lemma item_back_error (s : string) (i : nat) (e : exn) :
  Py.item_back s i = Raise e → e = IndexError.
Proof.
  unfold Py.item_back. case_bool_decide; [|congruence].
  destruct (String.get _ s); simpl; congruence.
Qed.

Lemma index_alphabet_error (c : ascii) (e : exn) :
  Py.index c KiesUtils.alphabet = Raise e → e = ValueError "substring not found".
Proof.
  rewrite (proj2 (index_alphabet c)). repeat case_bool_decide; congruence.
Qed.

(** The errors of the decoding proper: an index out of the code, or a last
    character that is no capital and no digit. *)
Lemma read_pda_error (pda : string) (e : exn) :
  KiesUtils.read_pda pda = Raise e →
  e = IndexError ∨ e = ValueError "substring not found".
Proof.
  unfold KiesUtils.read_pda.
  destruct (Py.item pda 0) as [c0|e0] eqn:H0; cbn [mbind result_bind];
    [|intros [= <-]; left; by eapply item_error].
  destruct (bool_decide _).
  - destruct (Py.item pda 2) as [c2|?] eqn:H2; cbn [fmap result_fmap mbind result_bind];
      [|intros [= <-]; left; by eapply item_error].
    destruct (Py.item pda 3) as [c3|?] eqn:H3; cbn [fmap result_fmap mbind result_bind];
      [|intros [= <-]; left; by eapply item_error].
    destruct (Py.item pda 4) as [c4|?] eqn:H4; cbn [fmap result_fmap mbind result_bind];
      [|intros [= <-]; left; by eapply item_error].
    destruct (Py.item pda 5) as [c5|?] eqn:H5; cbn [fmap result_fmap mbind result_bind];
      [|intros [= <-]; left; by eapply item_error].
    destruct (Py.index c5 KiesUtils.alphabet) as [r|?] eqn:Hi; cbn [mbind result_bind];
      [done|intros [= <-]; right; by eapply index_alphabet_error].
  - destruct (Py.item_back pda 3) as [c3|?] eqn:H3; cbn [fmap result_fmap mbind result_bind];
      [|intros [= <-]; left; by eapply item_back_error].
    destruct (Py.item_back pda 2) as [c4|?] eqn:H4; cbn [fmap result_fmap mbind result_bind];
      [|intros [= <-]; left; by eapply item_back_error].
    destruct (Py.item_back pda 1) as [c5|?] eqn:H5; cbn [fmap result_fmap mbind result_bind];
      [|intros [= <-]; left; by eapply item_back_error].
    destruct (Py.index c5 KiesUtils.alphabet) as [r|?] eqn:Hi; cbn [mbind result_bind];
      [done|intros [= <-]; right; by eapply index_alphabet_error].
Qed.

Lemma read_firmware_format_error (fw : string) :
  KiesUtils.read_firmware fw = Raise (ValueError "Invalid firmware format.")
  ↔ Py.count "/" fw ≠ 3%nat.
Proof.
  unfold KiesUtils.read_firmware. case_bool_decide as Hc; [|done].
  split; [|done]. intros H. exfalso.
  pose proof (split_not_nil "/" fw). destruct (Py.split "/" fw) as [|first l]; [done|].
  cbn in H. apply read_pda_error in H as [H|H]; discriminate.
Qed.

(** X3: on a normalized string the decoder reports an invalid format
    exactly when the string given had more than four components; the
    normalized forms of strings of three or four components always pass its
    format test. *)
Theorem normalized_firmware_format (s r : string) :
  KiesUtils.parse_firmware s = Ok r →
  (KiesUtils.read_firmware r = Raise (ValueError "Invalid firmware format.")
   ↔ (4 ≤ Py.count "/" s)%nat).
Proof.
  intros H. rewrite read_firmware_format_error.
  apply parse_firmware_count in H as [? ?]. lia.
Qed.

Lemma normalized_firmware_format_witness :
  KiesUtils.read_firmware "A/B/C/D/E" = Raise (ValueError "Invalid firmware format.").
Proof.
  apply (proj2 (normalized_firmware_format "A/B/C/D/E" "A/B/C/D/E" eq_refl)).
  simpl. lia.
Defined.

(** ** What a successful decoding implies *)

Lemma ord_bound (c : ascii) : 0 ≤ Py.ord c ≤ 255.
Proof. unfold Py.ord. pose proof (nat_ascii_bounded c). lia. Qed.

Lemma length_substring (n m : nat) (s : string) :
  String.length (String.substring n m s) = Nat.min m (String.length s - n).
Proof.
  revert n m. induction s as [|a s IH]; intros n m.
  - destruct n, m; reflexivity.
  - destruct n as [|n].
    + destruct m as [|m]; [reflexivity|]. simpl. by rewrite IH, Nat.sub_0_r.
    + simpl. by rewrite IH.
Qed.

Lemma length_last_chars (n : nat) (s : string) :
  String.length (Py.last_chars n s) = Nat.min n (String.length s).
Proof. unfold Py.last_chars. rewrite length_substring. lia. Qed.

Lemma get_lt (i : nat) (s : string) (c : ascii) :
  String.get i s = Some c → (i < String.length s)%nat.
Proof.
  revert i. induction s as [|a s IH]; intros i; [done|].
  destruct i as [|i]; simpl; [lia|]. intros H. apply IH in H. lia.
Qed.

Lemma item_ok (s : string) (i : nat) (c : ascii) :
  Py.item s i = Ok c → (i < String.length s)%nat.
Proof.
  unfold Py.item. destruct (String.get i s) eqn:H; [|done].
  intros _. by eapply get_lt.
Qed.

Lemma item_back_ok (s : string) (i : nat) (c : ascii) :
  Py.item_back s i = Ok c → (i ≤ String.length s)%nat.
Proof. unfold Py.item_back. by case_bool_decide. Qed.

Lemma index_alphabet_ok (c : ascii) (r : Z) :
  Py.index c KiesUtils.alphabet = Ok r → 0 ≤ r ≤ 35.
Proof.
  rewrite (proj2 (index_alphabet c)).
  repeat case_bool_decide; intros [= <-]; lia.
Qed.

(** The two ways in which the decoding proper succeeds. *)
Lemma read_pda_ok (pda : string) (cls : option string) (idx : option Z)
    (year month rev : Z) :
  KiesUtils.read_pda pda = Ok (cls, idx, year, month, rev) →
  0 ≤ rev ≤ 35 ∧ 1936 ≤ year ≤ 2191 ∧ -65 ≤ month ≤ 190
  ∧ ((∃ c0 c1 i, cls = Some (String c0 (String c1 EmptyString))
                 ∧ (c0 = "U"%char ∨ c0 = "S"%char)
                 ∧ idx = Some i ∧ -65 ≤ i ≤ 190
                 ∧ (6 ≤ String.length pda)%nat)
     ∨ (cls = None ∧ idx = None ∧ (3 ≤ String.length pda)%nat)).
Proof.
  unfold KiesUtils.read_pda.
  destruct (Py.item pda 0) as [c0|] eqn:H0; cbn [mbind result_bind]; [|done].
  case_bool_decide as HUS.
  - destruct (Py.item pda 2) as [c2|] eqn:H2; cbn [fmap result_fmap mbind result_bind]; [|done].
    destruct (Py.item pda 3) as [c3|] eqn:H3; cbn [fmap result_fmap mbind result_bind]; [|done].
    destruct (Py.item pda 4) as [c4|] eqn:H4; cbn [fmap result_fmap mbind result_bind]; [|done].
    destruct (Py.item pda 5) as [c5|] eqn:H5; cbn [fmap result_fmap mbind result_bind]; [|done].
    destruct (Py.index c5 KiesUtils.alphabet) as [r|] eqn:Hi; cbn [mbind result_bind]; [|done].
    intros [= <- <- <- <- <-].
    pose proof (ord_bound c2). pose proof (ord_bound c3). pose proof (ord_bound c4).
    pose proof (index_alphabet_ok _ _ Hi). apply item_ok in H5.
    change (Py.ord "A") with 65. change (Py.ord "R") with 82.
    repeat (split; [lia|]). left.
    destruct pda as [|a0 [|a1 pda]]; simpl in H5; try lia.
    injection H0 as ->. exists c0, a1, (Py.ord c2 - 65).
    rewrite !elem_of_cons, elem_of_nil in HUS.
    repeat split; try done; try lia.
    + by destruct pda.
    + tauto.
  - destruct (Py.item_back pda 3) as [c3|] eqn:H3; cbn [fmap result_fmap mbind result_bind]; [|done].
    destruct (Py.item_back pda 2) as [c4|] eqn:H4; cbn [fmap result_fmap mbind result_bind]; [|done].
    destruct (Py.item_back pda 1) as [c5|] eqn:H5; cbn [fmap result_fmap mbind result_bind]; [|done].
    destruct (Py.index c5 KiesUtils.alphabet) as [r|] eqn:Hi; cbn [mbind result_bind]; [|done].
    intros [= <- <- <- <- <-].
    pose proof (ord_bound c3). pose proof (ord_bound c4).
    pose proof (index_alphabet_ok _ _ Hi). apply item_back_ok in H3.
    change (Py.ord "A") with 65. change (Py.ord "R") with 82.
    repeat (split; [lia|]). by right.
Qed.

Lemma read_firmware_pda (fw : string) (info : KiesUtils.build_info) :
  KiesUtils.read_firmware fw = Ok info →
  ∃ first, Py.split "/" fw !! 0%nat = Some first
           ∧ Py.count "/" fw = 3%nat
           ∧ KiesUtils.read_pda (Py.last_chars 6 first) = Ok info.
Proof.
  unfold KiesUtils.read_firmware. case_bool_decide as Hc; [|done].
  pose proof (split_not_nil "/" fw). destruct (Py.split "/" fw) as [|first l]; [done|].
  cbn. intros H'. by exists first.
Qed.

(** X4: a decoding that succeeds gives a revision from 0 to 35, and the
    class code and the index come together or not at all: a class code has
    two characters, of which the first is U or S. *)
Theorem read_firmware_ranges (fw : string) (cls : option string) (idx : option Z)
    (year month rev : Z) :
  KiesUtils.read_firmware fw = Ok (cls, idx, year, month, rev) →
  0 ≤ rev ≤ 35
  ∧ ((∃ c0 c1 i, cls = Some (String c0 (String c1 EmptyString))
                 ∧ (c0 = "U"%char ∨ c0 = "S"%char)
                 ∧ idx = Some i)
     ∨ (cls = None ∧ idx = None)).
Proof.
  intros H. apply read_firmware_pda in H as (first & _ & _ & H).
  apply read_pda_ok in H as (Hr & _ & _ & [(c0 & c1 & i & ? & ? & ? & _)|(? & ? & _)]).
  - split; [done|]. left. by exists c0, c1, i.
  - split; [done|]. by right.
Qed.

Lemma read_firmware_ranges_witness :
  0 ≤ 13 ≤ 35
  ∧ ((∃ c0 c1 i, Some "U1" = Some (String c0 (String c1 EmptyString))
                 ∧ (c0 = "U"%char ∨ c0 = "S"%char)
                 ∧ Some 0 = Some i)
     ∨ (Some "U1" = None ∧ Some 0 = None)).
Proof.
  exact (read_firmware_ranges
           "G960FXXU1ASCD/G960FOXM1ASC1/G960FXXU1ASCD/G960FXXU1ASCD"
           (Some "U1") (Some 0) 2019 2 13 eq_refl).
Defined.

(** X5: the decoding succeeds only if the first component has at least
    three characters, and at least six when a class code is decoded: a
    shorter one makes an index fail. *)
Theorem read_firmware_needs_length (fw : string) (cls : option string)
    (idx : option Z) (year month rev : Z) :
  KiesUtils.read_firmware fw = Ok (cls, idx, year, month, rev) →
  ∃ first, Py.split "/" fw !! 0%nat = Some first
           ∧ (3 ≤ String.length first)%nat
           ∧ (is_Some cls → (6 ≤ String.length first)%nat).
Proof.
  intros H. apply read_firmware_pda in H as (first & Hf & _ & H). exists first.
  split; [done|].
  apply read_pda_ok in H as (_ & _ & _ & [(c0 & c1 & i & -> & _ & _ & _ & Hl)|(-> & _ & Hl)]);
    rewrite length_last_chars in Hl.
  - split; [lia|]. intros _. lia.
  - split; [lia|]. by intros [? [=]].
Qed.

Lemma read_firmware_needs_length_witness :
  ∃ first, Py.split "/" "XAA/B/C/D" !! 0%nat = Some first
           ∧ (3 ≤ String.length first)%nat.
Proof.
  destruct (read_firmware_needs_length "XAA/B/C/D" None None 2024 0 10 eq_refl)
    as (first & Hf & Hl & _).
  by exists first.
Defined.

(** X6: every failure of the decoder is one of three: the format error
    when the string has not exactly three separators, an index error when
    the code is too short, and a search error when the last character is
    neither a digit nor a capital. *)
Theorem read_firmware_errors (fw : string) (e : exn) :
  KiesUtils.read_firmware fw = Raise e →
  (e = ValueError "Invalid firmware format." ∧ Py.count "/" fw ≠ 3%nat)
  ∨ (Py.count "/" fw = 3%nat
     ∧ (e = IndexError ∨ e = ValueError "substring not found")).
Proof.
  unfold KiesUtils.read_firmware. case_bool_decide as Hc.
  - pose proof (split_not_nil "/" fw). destruct (Py.split "/" fw) as [|first l]; [done|].
    cbn. intros H'. right. split; [done|]. by eapply read_pda_error.
  - intros [= <-]. by left.
Qed.

Lemma read_firmware_errors_witness :
  KiesUtils.read_firmware "U1/B/C/D" = Raise IndexError
  ∧ KiesUtils.read_firmware "XAa/B/C/D" = Raise (ValueError "substring not found").
Proof.
  split.
  - destruct (read_firmware_errors "U1/B/C/D" IndexError eq_refl) as [[? _]|_];
      [discriminate|reflexivity].
  - destruct (read_firmware_errors "XAa/B/C/D" (ValueError "substring not found") eq_refl)
      as [[? _]|_]; [discriminate|reflexivity].
Defined.

(** ** [KiesUtils.parse_range_header]: the start *)

(** X7: apart from the marker [(-1, -1)] of a header without separator, a
    range that parses never has a negative start. *)
Theorem parse_range_header_start (header : string) (a b : Z) :
  KiesUtils.parse_range_header header = Ok (a, b) →
  (Py.count "-" header = 0%nat ∧ a = -1 ∧ b = -1)
  ∨ (Py.count "-" header ≠ 0%nat ∧ 0 ≤ a).
Proof.
  intros H. destruct (decide (Py.count "-" header = 0%nat)) as [Hc|Hc].
  - left. rewrite (parse_range_header_no_dash header Hc) in H. by injection H as <- <-.
  - right. split; [done|].
    pose proof Hc as Hc'. rewrite <- count_range_text in Hc'.
    destruct (split1_count _ _ Hc') as (x & y & _ & Hx & Hxy).
    rewrite (parse_range_header_dash header x y Hxy Hx) in H.
    destruct (decide (x = EmptyString)) as [Hx0|Hx0].
    + rewrite (bool_decide_true (x = EmptyString)) in H by done. cbn in H.
      destruct (if bool_decide (y = EmptyString) then Ok 0 else Py.int y);
        cbn in H; [|done]. by injection H as <- _.
    + rewrite (bool_decide_false (x = EmptyString)) in H by done.
      destruct (Py.int x) as [n|] eqn:Hn; cbn in H; [|done].
      apply int_nonneg in Hn; [|done].
      destruct (if bool_decide (y = EmptyString) then Ok 0 else Py.int y);
        cbn in H; [|done]. by injection H as <- _.
Qed.

Lemma parse_range_header_start_witness :
  (Py.count "-" "bytes=5--7" = 0%nat ∧ 5 = -1 ∧ -7 = -1)
  ∨ (Py.count "-" "bytes=5--7" ≠ 0%nat ∧ 0 ≤ 5).
Proof. exact (parse_range_header_start "bytes=5--7" 5 (-7) eq_refl). Defined.

(** ** [download_binary], path by path *)

Section DownloadPaths.
Context {Session : Type} {ops : SessionOps Session} {builtins : Builtins}.
Implicit Types (w : World Session) (past tr : list (Event Session)).

Lemma run_bind_always_raises {A B} w (p : Prog Session A) (f : A → Prog Session B) past :
  (∀ a tr, ∃ e, (run w (f a) tr).2 = Raise e) →
  ∃ e, (run w (p ≫= f) past).2 = Raise e.
Proof.
  intros Hf. rewrite run_bind. destruct (run w p past) as [tr [a|e]]; cbn [fst snd].
  - apply Hf.
  - by exists e.
Qed.

(** X8: [download_binary] never returns: whatever the world answers, the
    handler ends by raising, also after the whole file has been streamed. *)
Theorem download_binary_always_raises w request region model firmware past :
  ∃ e, (run w (download_binary request region model firmware) past).2 = Raise e.
Proof.
  unfold download_binary.
  apply run_bind_always_raises. intros nonce tr1.
  apply run_bind_always_raises. intros session0 tr2.
  apply run_bind_always_raises. intros info tr3.
  apply run_bind_always_raises. intros session tr4.
  apply run_bind_always_raises. intros _ tr5.
  eexists. reflexivity.
Qed.

Lemma run_stream_binary w request firmware session past download_file :
  http w past (ranged_request request firmware session) = Ok download_file →
  run w (stream_binary request "/neofus/910/" firmware session) past
  = if bool_decide (Response.status_code download_file ∈ [200; 206]) then
      match decryptor_key request with
      | Ok key =>
          (past ++ [Sent (ranged_request request firmware session) (Ok download_file);
                    Responded (response_head request firmware download_file);
                    DecryptorStarted key],
           start_decryptor w
             (past ++ [Sent (ranged_request request firmware session) (Ok download_file);
                       Responded (response_head request firmware download_file)])
             key)
      | Raise e =>
          (past ++ [Sent (ranged_request request firmware session) (Ok download_file);
                    Responded (response_head request firmware download_file)],
           Raise e)
      end
    else
      (past ++ [Sent (ranged_request request firmware session) (Ok download_file);
                Closed],
       Raise (make_error KIES_SERVER_ERROR (Response.status_code download_file))).
Proof.
  intros Hq. unfold stream_binary. fold (ranged_request request firmware session).
  rewrite run_bind, run_send, Hq. cbn [fst snd].
  destruct (bool_decide (Response.status_code download_file ∈ [200; 206])); cbn [negb].
  - rewrite run_bind. cbn [run mret Prog_ret fst snd].
    fold (response_head request firmware download_file).
    rewrite run_bind, run_lift. cbn [fst snd]. fold (decryptor_key request).
    destruct (decryptor_key request) as [key|e]; cbn [run lift];
      by rewrite <- !app_assoc.
  - rewrite run_bind. cbn [aclose run mret Prog_ret raise fst snd].
    by rewrite <- !app_assoc.
Qed.

Lemma run_download_binary_accepted w request region model firmware nonce session0
    download_info session :
  registered w firmware nonce session0 download_info session →
  range_accepted request →
  run w (download_binary request region model firmware) []
  = run w (_ ← stream_binary request "/neofus/910/" firmware session;
           raise (make_error KIES_SERVER_OUTER_ERROR 200))
      (registration firmware nonce session0 download_info).
Proof.
  intros Hreg (a & b & Hp & Hv).
  by rewrite (run_download_binary _ _ _ _ _ _ _ _ _ Hreg), Hp, Hv.
Qed.

(** X9: when the whole file has been streamed, the handler still ends with
    [KIES_SERVER_OUTER_ERROR] and the code 200: after the ranged request
    the answer is started, the decryptor runs, and the final [raise] is
    reached. *)
Theorem download_binary_streamed w request region model firmware nonce session0
    download_info session download_file key :
  registered w firmware nonce session0 download_info session →
  range_accepted request →
  http w (registration firmware nonce session0 download_info)
    (ranged_request request firmware session) = Ok download_file →
  Response.status_code download_file ∈ [200; 206] →
  decryptor_key request = Ok key →
  start_decryptor w
    (registration firmware nonce session0 download_info
     ++ [Sent (ranged_request request firmware session) (Ok download_file);
         Responded (response_head request firmware download_file)]) key = Ok () →
  run w (download_binary request region model firmware) []
  = (registration firmware nonce session0 download_info
     ++ [Sent (ranged_request request firmware session) (Ok download_file);
         Responded (response_head request firmware download_file);
         DecryptorStarted key],
     Raise (make_error KIES_SERVER_OUTER_ERROR 200)).
Proof.
  intros Hreg Hacc Hq Hst Hkey Hdec.
  rewrite (run_download_binary_accepted _ _ _ _ _ _ _ _ _ Hreg Hacc).
  rewrite run_bind, (run_stream_binary _ _ _ _ _ _ Hq).
  rewrite bool_decide_true by done. rewrite Hkey. cbn [fst snd]. by rewrite Hdec.
Qed.

(** X10: a decryption key that is no hexadecimal string is found out only
    after the ranged request has been sent and the answer to the caller
    started; the error of the conversion is raised then, and the client is
    not closed. *)
Theorem download_binary_bad_key w request region model firmware nonce session0
    download_info session download_file e :
  registered w firmware nonce session0 download_info session →
  range_accepted request →
  http w (registration firmware nonce session0 download_info)
    (ranged_request request firmware session) = Ok download_file →
  Response.status_code download_file ∈ [200; 206] →
  decryptor_key request = Raise e →
  run w (download_binary request region model firmware) []
  = (registration firmware nonce session0 download_info
     ++ [Sent (ranged_request request firmware session) (Ok download_file);
         Responded (response_head request firmware download_file)],
     Raise e).
Proof.
  intros Hreg Hacc Hq Hst Hkey.
  rewrite (run_download_binary_accepted _ _ _ _ _ _ _ _ _ Hreg Hacc).
  rewrite run_bind, (run_stream_binary _ _ _ _ _ _ Hq).
  rewrite bool_decide_true by done. by rewrite Hkey.
Qed.

(** X11: an upstream status other than 200 and 206 gives
    [KIES_SERVER_ERROR] with that status; the client is closed and no
    answer to the caller is started. *)
Theorem download_binary_upstream_rejected w request region model firmware nonce
    session0 download_info session download_file :
  registered w firmware nonce session0 download_info session →
  range_accepted request →
  http w (registration firmware nonce session0 download_info)
    (ranged_request request firmware session) = Ok download_file →
  Response.status_code download_file ∉ [200; 206] →
  run w (download_binary request region model firmware) []
  = (registration firmware nonce session0 download_info
     ++ [Sent (ranged_request request firmware session) (Ok download_file); Closed],
     Raise (make_error KIES_SERVER_ERROR (Response.status_code download_file))).
Proof.
  intros Hreg Hacc Hq Hst.
  rewrite (run_download_binary_accepted _ _ _ _ _ _ _ _ _ Hreg Hacc).
  rewrite run_bind, (run_stream_binary _ _ _ _ _ _ Hq).
  by rewrite bool_decide_false by done.
Qed.

(** X12: when the registration is answered with an HTTP status other than
    200, the handler fails with [KIES_SERVER_OUTER_ERROR] and that status;
    the range is not looked at, and the client is left open. *)
Theorem download_binary_outer_error w request region model firmware nonce session0
    download_info session :
  http w [] get_nonce = Ok nonce →
  from_response nonce = Ok session0 →
  http w [Sent get_nonce (Ok nonce)]
    (get_download (KiesUtils.join_path ["/neofus/910/"; firmware] "/") session0)
  = Ok download_info →
  refresh_session session0 download_info = Ok session →
  Response.status_code download_info ≠ 200 →
  run w (download_binary request region model firmware) []
  = (registration firmware nonce session0 download_info,
     Raise (make_error KIES_SERVER_OUTER_ERROR (Response.status_code download_info))).
Proof.
  intros Hnonce Hs0 Hinfo Hs Hcode. unfold download_binary, registration.
  rewrite run_bind, run_send, Hnonce. cbn [fst snd].
  rewrite run_bind, run_lift, Hs0. cbn [fst snd app].
  rewrite run_bind, run_send, Hinfo. cbn [fst snd app].
  rewrite run_bind, run_lift, Hs. cbn [fst snd].
  rewrite bool_decide_false by done. by rewrite run_bind.
Qed.

(** X13: when the registration is answered 200 over HTTP with a protocol
    status other than 200, the handler fails with [KIES_SERVER_ERROR] and
    the protocol status, whatever the range header is; the client is
    closed. *)
Theorem download_binary_protocol_error w request region model firmware nonce
    session0 download_info session (status : Z) :
  http w [] get_nonce = Ok nonce →
  from_response nonce = Ok session0 →
  http w [Sent get_nonce (Ok nonce)]
    (get_download (KiesUtils.join_path ["/neofus/910/"; firmware] "/") session0)
  = Ok download_info →
  refresh_session session0 download_info = Ok session →
  Response.status_code download_info = 200 →
  (Response.xml download_info ≫= KiesData.status_code) = Ok status →
  status ≠ 200 →
  run w (download_binary request region model firmware) []
  = (registration firmware nonce session0 download_info ++ [Closed],
     Raise (make_error KIES_SERVER_ERROR status)).
Proof.
  intros Hnonce Hs0 Hinfo Hs Hcode Hkies Hstatus. unfold download_binary, registration.
  rewrite run_bind, run_send, Hnonce. cbn [fst snd].
  rewrite run_bind, run_lift, Hs0. cbn [fst snd app].
  rewrite run_bind, run_send, Hinfo. cbn [fst snd app].
  rewrite run_bind, run_lift, Hs. cbn [fst snd].
  rewrite Hcode. rewrite bool_decide_true by done.
  destruct (Response.xml download_info) as [kies|] eqn:Hxml; [|done].
  cbn [mbind result_bind] in Hkies.
  rewrite (run_bind _ (_ ≫= _)).
  rewrite (run_bind _ (lift (Ok kies))), run_lift. cbn [fst snd].
  rewrite (run_bind _ (lift _)), run_lift, Hkies. cbn [fst snd].
  rewrite bool_decide_true by done.
  rewrite (run_bind _ aclose). cbn [aclose run mret Prog_ret raise fst snd]. done.
Qed.

(** X14: without a decryption key the range test refuses the marker -1
    only: any other range that parses, also one whose end lies before its
    start or is negative, is passed on in the ranged request. *)
Theorem download_binary_plain_range w request region model firmware nonce session0
    download_info session (a b : Z) :
  registered w firmware nonce session0 download_info session →
  decrypt_key request = None →
  KiesUtils.parse_range_header (range_header request) = Ok (a, b) →
  a ≠ -1 → b ≠ -1 →
  ranged_request request firmware session
  ∈ requests (run w (download_binary request region model firmware) []).1.
Proof.
  intros Hreg Hkey Hp Ha Hb.
  assert (range_accepted request) as Hacc.
  { exists a, b. split; [done|]. unfold range_invalid, DECRYPT_ENABLED.
    rewrite Hkey. rewrite !bool_decide_false by done. done. }
  rewrite (run_download_binary_accepted _ _ _ _ _ _ _ _ _ Hreg Hacc).
  unfold stream_binary. apply run_bind_keeps_requests, run_send_first.
Qed.

End DownloadPaths.

(** ** The answer headers and the file name *)

Section Headers.
Context {Session : Type} {ops : SessionOps Session} {builtins : Builtins}.

(** X15: the headers of the answer: with decryption asked for,
    [Content-Length] is never among them; without, it is the upstream one,
    or the empty string when the upstream gives none.  [Content-Range] is
    there exactly when the upstream has it, and no header beyond these five
    is ever set. *)
Theorem download_headers_lookup (request : Request.t) (filename : string)
    (download_file : Response.t) :
  download_headers request filename download_file !! "Content-Length"
  = (if DECRYPT_ENABLED request then None
     else Some (default EmptyString (Response.headers download_file !! "Content-Length")))
  ∧ download_headers request filename download_file !! "Content-Range"
    = Response.headers download_file !! "Content-Range"
  ∧ download_headers request filename download_file !! "Accept-Ranges" = Some "bytes"
  ∧ download_headers request filename download_file !! "Connection" = Some "keep-alive"
  ∧ is_Some (download_headers request filename download_file !! "Content-Disposition")
  ∧ ∀ name, is_Some (download_headers request filename download_file !! name) →
            name ∈ ["Content-Disposition"; "Content-Length"; "Accept-Ranges";
                    "Connection"; "Content-Range"].
Proof.
  unfold download_headers.
  destruct (Response.headers download_file !! "Content-Range") as [r|] eqn:Hr;
    destruct (DECRYPT_ENABLED request);
    (split; [by simplify_map_eq|]); (split; [by simplify_map_eq|]);
    (split; [by simplify_map_eq|]); (split; [by simplify_map_eq|]);
    (split; [by simplify_map_eq|]);
    intros name [v Hv]; rewrite !elem_of_cons;
    repeat first
      [ apply lookup_delete_Some in Hv as [? Hv]
      | apply lookup_insert_Some in Hv as [[<- _]|[? Hv]]
      | apply lookup_singleton_Some in Hv as [<- _] ];
    tauto.
Qed.

Lemma substring_split (n : nat) (s : string) :
  (n ≤ String.length s)%nat →
  s = String.substring 0 n s +:+ String.substring n (String.length s - n) s.
Proof.
  revert n. induction s as [|a s IH]; intros n Hn.
  - destruct n; [done|simpl in Hn; lia].
  - destruct n as [|n].
    + rewrite ?append_nil_l. simpl. f_equal.
      specialize (IH 0%nat ltac:(lia)). rewrite Nat.sub_0_r in IH.
      rewrite IH at 1. clear. by destruct s.
    + simpl in Hn. simpl. rewrite ?append_cons. f_equal. apply IH. lia.
Qed.

Lemma endswith_append (p s : string) : Py.endswith p (s +:+ p) = true.
Proof.
  unfold Py.endswith. rewrite length_append.
  rewrite bool_decide_true by lia. rewrite bool_decide_true; [done|].
  replace (String.length s + String.length p - String.length p)%nat
    with (String.length s) by lia.
  apply substring_append_r.
Qed.

Lemma removesuffix_append (p s : string) :
  Py.endswith p s = true → Py.removesuffix p s +:+ p = s.
Proof.
  intros H. unfold Py.removesuffix. rewrite H. cbn [andb].
  destruct (decide (p = EmptyString)) as [->|Hp].
  - cbn. by rewrite append_nil_r.
  - rewrite bool_decide_false by done. cbn [negb].
    unfold Py.endswith in H. apply andb_true_iff in H as [Hl Hs].
    apply bool_decide_eq_true in Hl, Hs.
    pose proof (substring_split (String.length s - String.length p) s) as Hsplit.
    replace (String.length s - (String.length s - String.length p))%nat
      with (String.length p) in Hsplit by lia.
    rewrite Hs in Hsplit. symmetry. apply Hsplit. lia.
Qed.

Lemma removesuffix_not_endswith (p s : string) :
  Py.endswith p s = false → Py.removesuffix p s = s.
Proof. intros H. unfold Py.removesuffix. by rewrite H. Qed.

(** X16: a custom file name always ends in [.zip]: a name that has the
    suffix is kept as it is, and any other name gets it appended. *)
Theorem custom_filename_zip (request : Request.t) (f : string) :
  Request.args request !! "filename" = Some f →
  ∃ c, CUSTOM_FILENAME request = Some c
       ∧ Py.endswith ".zip" c = true
       ∧ c = if Py.endswith ".zip" f then f else f +:+ ".zip".
Proof.
  intros Hf. unfold CUSTOM_FILENAME. rewrite Hf. cbn [fmap option_fmap option_map].
  eexists. split; [done|]. split; [apply endswith_append|].
  destruct (Py.endswith ".zip" f) eqn:He.
  - by apply removesuffix_append.
  - by rewrite removesuffix_not_endswith.
Qed.

End Headers.

(** ** The key between the two handlers *)

Lemma hexchar_hexdigit (n : Z) :
  0 ≤ n < 16 →
  Py.hexdigit (PyBytes.hexchar n) = Some n
  ∧ bool_decide (Py.ord (PyBytes.hexchar n) ∈ [9; 10; 11; 12; 13; 32]) = false.
Proof.
  intros Hn.
  assert (n = 0 ∨ n = 1 ∨ n = 2 ∨ n = 3 ∨ n = 4 ∨ n = 5 ∨ n = 6 ∨ n = 7
          ∨ n = 8 ∨ n = 9 ∨ n = 10 ∨ n = 11 ∨ n = 12 ∨ n = 13 ∨ n = 14 ∨ n = 15)
    as H by lia.
  repeat (destruct H as [->|H]; [by vm_compute|]). subst. by vm_compute.
Qed.

Lemma fromhex_hex (b : list Z) :
  Forall (λ x, 0 ≤ x < 256) b → Py.fromhex (PyBytes.hex b) = Ok b.
Proof.
  induction 1 as [|x b Hx Hb IH]; [done|].
  assert (0 ≤ x / 16 < 16) as Hhi by (split; [apply Z.div_pos|apply Z.div_lt_upper_bound]; lia).
  assert (0 ≤ x mod 16 < 16) as Hlo by (apply Z.mod_pos_bound; lia).
  destruct (hexchar_hexdigit _ Hhi) as [Hd1 Hw1].
  destruct (hexchar_hexdigit _ Hlo) as [Hd2 _].
  cbn [PyBytes.hex Py.fromhex]. rewrite Hw1, Hd1, Hd2, IH.
  cbn [fmap result_fmap]. do 2 f_equal.
  rewrite (Z.div_mod x 16) at 3 by lia. lia.
Qed.

(** X17: a key that [get_binary_details] hands out as the hexadecimal form
    of its bytes is accepted by [download_binary] as the [decrypt]
    argument: the conversion does not fail, and the decryptor is given the
    same bytes. *)
Theorem handed_key_read_back (request : Request.t) (b : list Z) :
  Forall (λ x, 0 ≤ x < 256) b →
  Request.args request !! "decrypt" = Some (PyBytes.hex b) →
  decryptor_key request = Ok (Some b).
Proof.
  intros Hb Hkey. unfold decryptor_key, decrypt_key. rewrite Hkey.
  by rewrite (fromhex_hex b Hb).
Qed.

Lemma handed_key_read_back_witness :
  decryptor_key (Further.request {["decrypt" := "00ff6b"]} ∅) = Ok (Some [0; 255; 107]).
Proof.
  refine (handed_key_read_back (Further.request {["decrypt" := "00ff6b"]} ∅)
            [0; 255; 107] _ _).
  - repeat constructor; lia.
  - vm_compute. reflexivity.
Defined.

(** ** [KiesFirmwareList.alternate] and [get_firmware_list] *)

Lemma alternate_item_separators (x : pyval) (fs : list string) :
  KiesFirmwareList.alternate_item x = Ok fs →
  Forall (λ f, (3 ≤ Py.count "/" f)%nat) fs.
Proof.
  unfold KiesFirmwareList.alternate_item.
  destruct (PyVal.getitem x "#text") as [t|]; cbn [mbind result_bind]; [|done].
  destruct (PyVal.count_slash t) as [n|]; cbn [mbind result_bind]; [|done].
  case_bool_decide; [|intros [= <-]; constructor].
  destruct t as [|s|l|d]; cbn [KiesFirmwareList.parse_firmware];
    try (destruct (PyVal.truthy _); done).
  destruct (KiesUtils.parse_firmware s) as [f|] eqn:Hf; cbn [mbind result_bind]; [|done].
  intros [= <-]. apply parse_firmware_count in Hf as [_ Hf].
  repeat constructor. lia.
Qed.

Lemma alternate_list_separators (l : list pyval) (fs : list string) :
  KiesFirmwareList.alternate_list l = Ok fs →
  Forall (λ f, (3 ≤ Py.count "/" f)%nat) fs.
Proof.
  revert fs. induction l as [|x l IH]; intros fs; cbn [KiesFirmwareList.alternate_list].
  - intros [= <-]. constructor.
  - destruct (KiesFirmwareList.alternate_item x) as [f1|] eqn:H1;
      cbn [mbind result_bind]; [|done].
    destruct (KiesFirmwareList.alternate_list l) as [f2|]; cbn [mbind result_bind]; [|done].
    intros [= <-]. apply Forall_app. split; [by eapply alternate_item_separators|by apply IH].
Qed.

(** X18: whatever the manifest holds, every alternate that
    [KiesFirmwareList.alternate] returns has at least three separators:
    entries with fewer than two are left out, and those with two are
    completed to four components. *)
Theorem alternate_separators (versions : pyval) (alts : list string) :
  KiesFirmwareList.alternate versions = Ok alts →
  Forall (λ f, (3 ≤ Py.count "/" f)%nat) alts.
Proof.
  unfold KiesFirmwareList.alternate.
  destruct (PyVal.getitem versions "upgrade") as [u|]; cbn [mbind result_bind]; [|done].
  destruct (PyVal.getitem u "value") as [[|s|l|d]|]; cbn [mbind result_bind]; try done.
  - intros [= <-]. constructor.
  - intros [= <-]. constructor.
  - apply alternate_list_separators.
  - apply alternate_item_separators.
Qed.

Lemma alternate_separators_witness :
  Forall (λ f, (3 ≤ Py.count "/" f)%nat)
    ["G960FXXU1ARC5/G960FOXM1ARC5/G960FXXU1ARC5/G960FXXU1ARC5";
     "G960FXXS1BRJ6/G960FOXM1BRJ6/G960FXXU1BRJ6/G960FXXS1BRJ6"].
Proof.
  exact (alternate_separators
           (PDict [("upgrade", PDict [("value", PList [
              PDict [("#text", PStr "G960FXXU1ARC5/G960FOXM1ARC5/")];
              PDict [("#text", PStr "G960F/")];
              PDict [("#text", PStr "G960FXXS1BRJ6/G960FOXM1BRJ6/G960FXXU1BRJ6")]])])])
           _ eq_refl).
Defined.

Section ListClaims.
Context {Session : Type} {ops : SessionOps Session} {builtins : Builtins}.
Implicit Types (w : World Session) (past tr : list (Event Session)).

(** X19: [get_firmware_list] sends one request and nothing else; when the
    request is answered, the client is closed before the answer is looked
    at, whatever the outcome; when the request fails, its error is the
    outcome and the client stays open. *)
Theorem get_firmware_list_trace w region model :
  match http w [] (list_firmware region model) with
  | Ok response =>
      (run w (get_firmware_list region model) []).1
      = [Sent (list_firmware region model) (Ok response); Closed]
  | Raise e =>
      run w (get_firmware_list region model) []
      = ([Sent (list_firmware region model) (Raise e)], Raise e)
  end.
Proof.
  unfold get_firmware_list. rewrite run_bind, run_send.
  destruct (http w [] (list_firmware region model)) as [response|e]; cbn [fst snd]; [|done].
  rewrite run_bind. cbn [aclose run mret Prog_ret fst snd app].
  case_bool_decide; [done|].
  rewrite run_bind, run_lift. cbn [fst snd].
  destruct (Response.xml response) as [data|]; [|done].
  rewrite run_bind, run_lift. cbn [fst snd].
  destruct (KiesFirmwareList._versions data) as [versions|]; [|done].
  rewrite run_bind, run_lift. cbn [fst snd].
  destruct (KiesFirmwareList.exists_ versions) as [[]|]; [|by destruct (PyVal.is_none _)|done].
  rewrite run_bind, run_lift. cbn [fst snd].
  destruct (KiesFirmwareList.latest versions) as [latest|]; [|done].
  rewrite run_bind, run_lift. cbn [fst snd].
  destruct (KiesFirmwareList.alternate versions) as [alts|]; [|done].
  rewrite run_bind, run_lift. cbn [fst snd].
  by destruct (firmware_entries 0 (latest :: (Some <$> alts))).
Qed.

(** X20: the three refusals of [get_firmware_list]: an HTTP status other
    than 200 gives [DEVICE_NOT_FOUND] with that status; a manifest without
    the [versioninfo] key gives [FIRMWARE_LIST_EMPTY]; a version section
    that is a dictionary without the [latest] key gives
    [FIRMWARE_CANT_PARSE]; the last two with the code 404. *)
Theorem get_firmware_list_refusals w region model response :
  http w [] (list_firmware region model) = Ok response →
  (Response.status_code response ≠ 200 →
   (run w (get_firmware_list region model) []).2
   = Raise (make_error DEVICE_NOT_FOUND (Response.status_code response)))
  ∧ (∀ d, Response.status_code response = 200 →
          Response.xml response = Ok (PDict d) →
          PyVal.assoc "versioninfo" d = None →
          (run w (get_firmware_list region model) []).2
          = Raise (make_error FIRMWARE_LIST_EMPTY 404))
  ∧ (∀ data v, Response.status_code response = 200 →
               Response.xml response = Ok data →
               KiesFirmwareList._versions data = Ok (PDict v) →
               PyVal.assoc "latest" v = None →
               (run w (get_firmware_list region model) []).2
               = Raise (make_error FIRMWARE_CANT_PARSE 404)).
Proof.
  intros Hq. unfold get_firmware_list. rewrite run_bind, run_send, Hq. cbn [fst snd].
  rewrite run_bind. cbn [aclose run mret Prog_ret fst snd app].
  split; [|split].
  - intros Hc. by rewrite bool_decide_true by done.
  - intros d Hc Hx Hv. rewrite bool_decide_false by (rewrite Hc; tauto).
    rewrite run_bind, run_lift, Hx. cbn [fst snd].
    unfold KiesFirmwareList._versions. cbn [PyVal.contains mbind result_bind].
    rewrite Hv. rewrite bool_decide_false by (by intros [? [=]]). done.
  - intros data v Hc Hx Hv Hl. rewrite bool_decide_false by (rewrite Hc; tauto).
    rewrite run_bind, run_lift, Hx. cbn [fst snd].
    rewrite run_bind, run_lift, Hv. cbn [fst snd].
    unfold KiesFirmwareList.exists_, KiesFirmwareList.latest.
    cbn [PyVal.contains mbind result_bind]. rewrite Hl.
    rewrite bool_decide_false by (by intros [? [=]]). done.
Qed.

End ListClaims.

(** ** [get_binary_details] in any world *)

Section AnyWorld.
Context {Session : Type} {ops : SessionOps Session} {builtins : Builtins}.
Implicit Types (w : World Session) (past tr ev : list (Event Session)).

Lemma count_events_app (f : Event Session → bool) tr1 tr2 :
  count_events f (tr1 ++ tr2) = (count_events f tr1 + count_events f tr2)%nat.
Proof. unfold count_events. by rewrite filter_app, length_app. Qed.

Lemma attempts_added_app region model firmware request_imei imei_data n m ev1 ev2 :
  attempts_added region model firmware request_imei imei_data n ev1 →
  attempts_added region model firmware request_imei imei_data m ev2 →
  attempts_added region model firmware request_imei imei_data (n + m) (ev1 ++ ev2).
Proof.
  intros (F1 & N1 & B1 & C1) (F2 & N2 & B2 & C2). unfold attempts_added.
  rewrite Forall_app, !count_events_app. repeat split; try done; lia.
Qed.

Local Ltac added_events :=
  split; [by repeat constructor|vm_compute; repeat split; lia].

Lemma run_send_then_quiet {A} w q (k : Response.t → Prog Session A) tr :
  (∀ x tr0, (run w (k x) tr0).1 = tr0) →
  (run w (try_finally_aclose (send q ≫= k)) tr).1
  = tr ++ [Sent q (http w tr q); Closed].
Proof.
  intros Hk. rewrite run_try_finally_aclose, run_bind, run_send. cbn [fst snd].
  destruct (http w tr q) as [x|e]; cbn [fst].
  - rewrite Hk. by rewrite <- app_assoc.
  - by rewrite <- app_assoc.
Qed.

Lemma attempt_body_added w region model firmware request_imei imei_data a past :
  ∃ ev,
    (run w (attempt_body region model firmware request_imei imei_data a) past).1
    = past ++ ev
    ∧ attempts_added region model firmware request_imei imei_data 1 ev.
Proof.
  unfold attempt_body. rewrite run_bind.
  assert (∃ gen imei_result,
            run w (select_imei request_imei imei_data) past = (past ++ gen, imei_result)
            ∧ attempts_added region model firmware request_imei imei_data 0 gen
            ∧ (request_imei ≠ None → imei_result = Ok imei_data)) as
    (gen & imei_result & -> & Hgen & Hid).
  { unfold select_imei. destruct request_imei as [i|]; cbn [run mret Prog_ret lift].
    - exists [], (Ok imei_data). rewrite app_nil_r.
      split; [done|]. split; [added_events|done].
    - eexists [_], _. split; [done|]. split; [added_events|done]. }
  cbn [fst snd]. destruct imei_result as [imei|e]; cbn [fst snd].
  2:{ exists gen. split; [done|].
      by apply (attempts_added_app _ _ _ _ _ 0 1 gen [] ) in Hgen;
        [rewrite app_nil_r in Hgen|added_events]. }
  assert (request_imei ≠ None → imei = imei_data) as Hid'.
  { intros Hn. specialize (Hid Hn). by injection Hid. }
  rewrite run_bind, run_send. cbn [fst snd].
  destruct (http w (past ++ gen) get_nonce) as [nonce|e]; cbn [fst snd].
  2:{ eexists (gen ++ [_]). rewrite <- app_assoc. split; [done|].
      apply (attempts_added_app _ _ _ _ _ 0 1); [done|].
      added_events. }
  rewrite run_bind, run_lift. cbn [fst snd].
  destruct (from_response nonce) as [session|e]; cbn [fst snd].
  2:{ eexists (gen ++ [_]). rewrite <- app_assoc. split; [done|].
      apply (attempts_added_app _ _ _ _ _ 0 1); [done|].
      added_events. }
  rewrite run_send_then_quiet.
  - eexists (gen ++ [_; _; _]). rewrite <- !app_assoc. split; [done|].
    apply (attempts_added_app _ _ _ _ _ 0 1); [done|].
    added_events.
  - intros info tr0. rewrite run_bind, run_lift. cbn [fst snd].
    destruct (Response.status_text info) as [st|]; [|done].
    repeat case_bool_decide; try done;
      rewrite run_bind, run_lift; cbn [fst snd];
      by destruct (int (from_option PStr PNone st)).
Qed.

Lemma attempts_added_loop w region model firmware request_imei imei_data l last past :
  ∃ ev,
    (run w (attempts region model firmware request_imei imei_data l last) past).1
    = past ++ ev
    ∧ attempts_added region model firmware request_imei imei_data (length l) ev.
Proof.
  revert last past. induction l as [|a l IH]; intros last past.
  - exists []. rewrite app_nil_r. split; [done|]. added_events.
  - cbn [attempts]. rewrite run_bind.
    destruct (attempt_body_added w region model firmware request_imei imei_data a past)
      as (ev1 & Hrun & Hadd).
    destruct (run w (attempt_body region model firmware request_imei imei_data a) past)
      as [tr [[[] vars]|e]]; cbn [fst snd] in *; subst tr.
    + exists ev1. split; [done|].
      apply (attempts_added_app _ _ _ _ _ 1 (length l) ev1 []) in Hadd;
        [by rewrite app_nil_r in Hadd|added_events].
    + destruct (IH (Some vars) (past ++ ev1)) as (ev2 & -> & Hadd2).
      exists (ev1 ++ ev2). rewrite <- app_assoc. split; [done|].
      by apply (attempts_added_app _ _ _ _ _ 1 (length l)).
    + exists ev1. split; [done|].
      apply (attempts_added_app _ _ _ _ _ 1 (length l) ev1 []) in Hadd;
        [by rewrite app_nil_r in Hadd|added_events].
Qed.

Lemma after_attempts_quiet w request region model firmware is_download
    (last : option (loop_vars Session)) past :
  (run w (after_attempts request region model firmware is_download last) past).1 = past.
Proof. unfold after_attempts. destruct last; [by case_bool_decide|done]. Qed.

Lemma retry_added w request region model firmware is_download request_imei imei_data
    l last past :
  ∃ ev,
    (run w (retry request region model firmware is_download request_imei imei_data
              l last) past).1 = past ++ ev
    ∧ attempts_added region model firmware request_imei imei_data (length l) ev.
Proof.
  unfold retry. rewrite run_bind.
  destruct (attempts_added_loop w region model firmware request_imei imei_data l last past)
    as (ev & Hrun & Hadd).
  exists ev. split; [|done].
  destruct (run w (attempts _ _ _ _ _ _ _) past) as [tr [last'|e]]; cbn [fst snd] in *.
  - by rewrite after_attempts_quiet.
  - done.
Qed.

(** The handler, as the pre-checks, the choice of the seed and the loop. *)
Lemma get_binary_details_trace w global_imei request region model firmware_path :
  (run w (get_binary_details global_imei request region model firmware_path) []).1 = []
  ∨ ∃ request_imei,
      global_imei = Some request_imei
      ∧ match_firmware (requested_firmware firmware_path) = true
      ∧ match (run w (select_imei_data request_imei model) []).2 with
        | Ok imei_data =>
            ∃ ev,
              (run w (get_binary_details global_imei request region model firmware_path)
                 []).1
              = (run w (select_imei_data request_imei model) []).1 ++ ev
              ∧ attempts_added region model (requested_firmware firmware_path)
                  request_imei imei_data 5 ev
        | Raise e =>
            (run w (get_binary_details global_imei request region model firmware_path)
               []).1
            = (run w (select_imei_data request_imei model) []).1
        end.
Proof.
  unfold get_binary_details. rewrite run_bind, run_lift. cbn [fst snd].
  destruct global_imei as [request_imei|]; cbn [or_raise]; [|by left].
  fold (requested_firmware firmware_path). fold (download_requested firmware_path).
  destruct (match_firmware (requested_firmware firmware_path)) eqn:Hm; cbn [negb];
    [|by left].
  right. exists request_imei. split; [done|]. split; [done|].
  rewrite run_bind.
  destruct (run w (select_imei_data request_imei model) []) as [tr0 [imei_data|e]];
    cbn [fst snd]; [|done].
  apply (retry_added w request region model (requested_firmware firmware_path)
           (download_requested firmware_path) request_imei imei_data (seq 1 5) None tr0).
Qed.

Lemma select_imei_data_events w request_imei model :
  (run w (select_imei_data request_imei model) []).1
  = if request_imei is None then [CsvRead "web/tacs.csv"] else [].
Proof.
  unfold select_imei_data, read_imei_data. destruct request_imei; [done|].
  cbn [run]. rewrite run_bind, run_lift. cbn [fst snd].
  destruct (csv w [] "web/tacs.csv") as [rows|]; [|done].
  by destruct (list_find _ rows) as [[? ?]|].
Qed.

(** X21: whatever the server answers, a lookup sends at most five nonce
    requests and never more binary-info requests than nonce requests, and
    the client is closed once for every binary-info request. *)
Theorem get_binary_details_bounded w global_imei request region model firmware_path :
  (count_events is_nonce
     (run w (get_binary_details global_imei request region model firmware_path) []).1
   ≤ 5)%nat
  ∧ (count_events is_binary_info
       (run w (get_binary_details global_imei request region model firmware_path) []).1
     ≤ count_events is_nonce
         (run w (get_binary_details global_imei request region model firmware_path) []).1)%nat
  ∧ count_events is_closed
      (run w (get_binary_details global_imei request region model firmware_path) []).1
    = count_events is_binary_info
        (run w (get_binary_details global_imei request region model firmware_path) []).1.
Proof.
  destruct (get_binary_details_trace w global_imei request region model firmware_path)
    as [->|(request_imei & _ & _ & H)]; [by cbn; repeat split; lia|].
  rewrite select_imei_data_events in H.
  set (pre := if request_imei is None then [CsvRead "web/tacs.csv"] else []) in H.
  assert (count_events is_nonce pre = 0%nat ∧ count_events is_binary_info pre = 0%nat
          ∧ count_events is_closed pre = 0%nat) as (P1 & P2 & P3).
  { subst pre. by destruct request_imei; vm_compute. }
  destruct (run w (select_imei_data request_imei model) []).2 as [imei_data|e].
  - destruct H as (ev & -> & (_ & Hn & Hb & Hc)). rewrite !count_events_app.
    rewrite P1, P2, P3. repeat split; lia.
  - rewrite H, P1, P2, P3. repeat split; lia.
Qed.

End AnyWorld.

(** ** The identity of a lookup *)

Section Identity.
Context {Session : Type} {ops : SessionOps Session} {builtins : Builtins}.
Implicit Types (w : World Session) (past tr ev : list (Event Session)).

(** X22: the identity of a lookup is the one given to the last call of
    [get_firmware_latest], not one of the lookup's own request: when that
    call carried the identity [i], the lookup sends nonce and binary-info
    requests only, every binary-info request is for the region, model and
    firmware of the lookup and carries [i], and neither the table is read
    nor an identity generated. *)
Theorem caller_identity_reused w latest_request latest_region latest_model mode
    request region model firmware_path (i : string) :
  Request.args latest_request !! "imei" = Some i →
  Forall (supplied_identity_event region model (requested_firmware firmware_path) i)
    (run w (get_binary_details
              (get_firmware_latest (Session := Session) latest_request latest_region
                 latest_model mode).1
              request region model firmware_path) []).1.
Proof.
  intros Hi. cbn [get_firmware_latest fst]. rewrite Hi.
  destruct (get_binary_details_trace w (Some (Some i)) request region model firmware_path)
    as [->|(request_imei & [= <-] & _ & H)]; [constructor|].
  cbn [select_imei_data run mret Prog_ret fst snd] in H.
  destruct H as (ev & -> & (Hall & _)). cbn [app].
  eapply Forall_impl; [exact Hall|].
  intros [[| | r m f im s| |] ?| | | | |]; cbn; try done.
  - intros (-> & -> & -> & Him). repeat split; try done. by apply Him.
  - by intros [[=] _].
Qed.


(** X23: without an identity of the caller, the table of seeds is read
    once, before anything else, and every identity is generated from the
    seed found there, also when that is [None] because the model is not in
    the table. *)
Theorem generated_identity_seed w request region model firmware_path seed :
  match_firmware (requested_firmware firmware_path) = true →
  (run w (select_imei_data None model) []).2 = Ok seed →
  ∃ ev,
    (run w (get_binary_details (Some None) request region model firmware_path) []).1
    = CsvRead "web/tacs.csv" :: ev
    ∧ Forall (generated_identity_event seed) ev.
Proof.
  intros Hm Hseed.
  destruct (get_binary_details_trace w (Some None) request region model firmware_path)
    as [Hnil|(request_imei & [= <-] & _ & H)].
  - exfalso. revert Hnil. unfold get_binary_details.
    rewrite run_bind, run_lift. cbn [fst snd or_raise].
    fold (requested_firmware firmware_path). rewrite Hm. cbn [negb].
    rewrite run_bind.
    pose proof (select_imei_data_events w None model) as Hpre.
    destruct (run w (select_imei_data None model) []) as [tr0 [imei_data|e]];
      cbn [fst snd] in *; subst tr0; [|done].
    destruct (retry_added w request region model (requested_firmware firmware_path)
                (Py.endswith "/download" (Py.removesuffix "/" firmware_path))
                None imei_data (seq 1 5) None [CsvRead "web/tacs.csv"]) as (ev & -> & _).
    done.
  - rewrite Hseed, select_imei_data_events in H. destruct H as (ev & -> & (Hall & _)).
    exists ev. split; [done|]. eapply Forall_impl; [exact Hall|].
    intros [[| | r m f im s| |] ?| |tac r| | |]; cbn; try done. by intros [_ ->].
Qed.


(** X24: the two checks before the loop send nothing: while
    [global_imei] is unbound the lookup raises [NameError], and a path
    that does not match the firmware pattern gives [NotFound]. *)
Theorem get_binary_details_refusals w request region model firmware_path :
  run w (get_binary_details None request region model firmware_path) []
  = ([], Raise (NameError "global_imei"))
  ∧ (∀ request_imei,
       match_firmware (requested_firmware firmware_path) = false →
       run w (get_binary_details (Some request_imei) request region model firmware_path) []
       = ([], Raise (NotFound ("Requested URL " +:+ Request.path request
                               +:+ " not found")))).
Proof.
  split; [done|]. intros request_imei Hm. unfold get_binary_details.
  rewrite run_bind, run_lift. cbn [fst snd or_raise].
  fold (requested_firmware firmware_path). by rewrite Hm.
Qed.


(** X25: a table that can be read never makes [read_imei_data] fail: the
    answer is the first cell of the first row that has the model in any
    cell, and [None] when no row has it. *)
Theorem read_imei_data_found w csv_path target_model past rows :
  csv w past csv_path = Ok rows →
  ∃ found,
    run w (read_imei_data csv_path target_model) past
    = (past ++ [CsvRead csv_path], Ok found)
    ∧ match found with
      | None => ∀ row, row ∈ rows → target_model ∉ row
      | Some cell =>
          ∃ n row, rows !! n = Some row ∧ target_model ∈ row
                   ∧ row !! 0%nat = Some cell
                   ∧ ∀ m row', rows !! m = Some row' → (m < n)%nat → target_model ∉ row'
      end.
Proof.
  intros Hcsv. unfold read_imei_data. cbn [run]. rewrite Hcsv, run_bind, run_lift.
  cbn [fst snd].
  destruct (list_find (λ row, target_model ∈ row) rows) as [[n row]|] eqn:Hfind.
  - apply list_find_Some in Hfind as (Hn & Hin & Hbefore).
    destruct row as [|cell row]; [by apply elem_of_nil in Hin|].
    exists (Some cell). split; [done|]. exists n, (cell :: row). eauto.
  - exists None. split; [done|]. intros row Hrow.
    eapply list_find_None in Hfind. by eapply Forall_forall in Hfind.
Qed.


End Identity.

Lemma caller_identity_reused_witness :
  Forall (supplied_identity_event "EUX" "SM-G960F" Example.firmware "354399110859137")
    (run (Example.answering "408")
       (get_binary_details (Some (Some "354399110859137")) (Example.request "bytes=0-")
          "EUX" "SM-G960F" Example.firmware) []).1.
Proof.
  exact (caller_identity_reused (Example.answering "408")
           {| Request.scheme := "http"; Request.server_name := "localhost";
              Request.server_port := 8000; Request.path := "/EUX/SM-G960F/latest";
              Request.args := {["imei" := "354399110859137"]};
              Request.headers := ∅ |}
           "EUX" "SM-G960F" "latest" (Example.request "bytes=0-")
           "EUX" "SM-G960F" Example.firmware "354399110859137" eq_refl).
Defined.

Lemma generated_identity_seed_witness :
  ∃ ev,
    (run (Example.answering "408")
       (get_binary_details (Some None) (Example.request "bytes=0-") "EUX" "SM-G960F"
          Example.firmware) []).1
    = CsvRead "web/tacs.csv" :: ev
    ∧ Forall (generated_identity_event (Some "35439911")) ev.
Proof.
  exact (generated_identity_seed (Example.answering "408") (Example.request "bytes=0-")
           "EUX" "SM-G960F" Example.firmware (Some "35439911") eq_refl eq_refl).
Defined.

Lemma get_binary_details_refusals_witness :
  run (Example.answering "200")
    (get_binary_details (Some None) (Example.request "bytes=0-") "EUX" "SM-G960F"
       "g960f/B/C/D") []
  = ([], Raise (NotFound "Requested URL /file/EUX/SM-G960F/fw.zip.enc4/ not found")).
Proof.
  exact (proj2 (get_binary_details_refusals (Example.answering "200")
                  (Example.request "bytes=0-") "EUX" "SM-G960F" "g960f/B/C/D")
           None eq_refl).
Defined.

Lemma read_imei_data_found_witness :
  ∃ found,
    run (Example.answering "200") (read_imei_data "web/tacs.csv" "SM-G960F") []
    = ([CsvRead "web/tacs.csv"], Ok found).
Proof.
  destruct (read_imei_data_found (Example.answering "200") "web/tacs.csv" "SM-G960F" []
              [["35439911"; "SM-G960F"]] eq_refl) as (found & Hrun & _).
  exists found. exact Hrun.
Defined.

(** ** From [get_firmware_latest] to [get_binary_details] *)

Lemma substring_append_skip (s t : string) (n m : nat) :
  String.substring (String.length s + n) m (s +:+ t) = String.substring n m t.
Proof. induction s as [|a s IH]; [done|]. by rewrite append_cons. Qed.

Lemma substring_append_l (s t : string) :
  String.substring 0 (String.length s) (s +:+ t) = s.
Proof.
  induction s as [|a s IH].
  - rewrite append_nil_l. destruct t; reflexivity.
  - rewrite append_cons. simpl. by rewrite IH.
Qed.

Lemma endswith_append_long (p s t : string) :
  (String.length p ≤ String.length t)%nat →
  Py.endswith p (s +:+ t) = Py.endswith p t.
Proof.
  intros Hl. unfold Py.endswith. rewrite length_append.
  rewrite (bool_decide_true (String.length p ≤ String.length s + String.length t)%nat) by lia.
  rewrite (bool_decide_true (String.length p ≤ String.length t)%nat) by lia.
  cbn [andb].
  replace (String.length s + String.length t - String.length p)%nat
    with (String.length s + (String.length t - String.length p))%nat by lia.
  by rewrite substring_append_skip.
Qed.

Lemma removesuffix_appended (p s : string) :
  p ≠ EmptyString → Py.removesuffix p (s +:+ p) = s.
Proof.
  intros Hp. unfold Py.removesuffix. rewrite endswith_append.
  rewrite bool_decide_false by done. cbn [andb negb]. rewrite length_append.
  replace (String.length s + String.length p - String.length p)%nat
    with (String.length s) by lia.
  apply substring_append_l.
Qed.

Section LatestClaims.
Context {Session : Type} {ops : SessionOps Session} {builtins : Builtins}.
Implicit Types (w : World Session) (past tr ev : list (Event Session)).

(** X26: the redirection of [get_firmware_latest] leads back into
    [get_binary_details] with the same firmware: for the mode
    [latest/download] the path ends in the latest firmware followed by
    [/download], which the lookup reads as that firmware with the download
    asked for; for the mode [latest] the path ends in the firmware alone. *)
Theorem latest_redirect_read_back w request region model response data versions
    (latest : string) :
  http w [] (list_firmware region model) = Ok response →
  Response.status_code response = 200 →
  Response.xml response = Ok data →
  KiesFirmwareList._versions data = Ok versions →
  KiesFirmwareList.latest versions = Ok (Some latest) →
  (run w (get_firmware_latest request region model "latest/download").2 []).2
  = Ok (redirect ("/" +:+ region +:+ "/" +:+ model +:+ "/" +:+ (latest +:+ "/download")))
  ∧ requested_firmware (latest +:+ "/download") = latest
  ∧ download_requested (latest +:+ "/download") = true
  ∧ (run w (get_firmware_latest request region model "latest").2 []).2
    = Ok (redirect ("/" +:+ region +:+ "/" +:+ model +:+ "/" +:+ latest)).
Proof.
  intros Hq Hcode Hxml Hv Hl.
  assert (KiesFirmwareList.exists_ versions = Ok true) as Hex.
  { unfold KiesFirmwareList.exists_. destruct versions; by rewrite ?Hl. }
  assert (∀ mode,
            (run w (get_firmware_latest request region model mode).2 []).2
            = Ok (redirect ("/" +:+ region +:+ "/" +:+ model +:+ "/" +:+ latest
                            +:+ (if substring_in "/download" mode then "/download"
                                 else EmptyString)))) as Hrun.
  { intros mode. cbn [get_firmware_latest snd].
    rewrite run_bind, run_send, Hq. cbn [fst snd].
    rewrite run_bind. cbn [aclose run mret Prog_ret fst snd].
    rewrite bool_decide_false by (rewrite Hcode; tauto).
    rewrite run_bind, run_lift, Hxml. cbn [fst snd].
    rewrite run_bind, run_lift, Hv. cbn [fst snd].
    rewrite run_bind, run_lift, Hex. cbn [fst snd].
    by rewrite run_bind, run_lift, Hl. }
  assert (Py.removesuffix "/" (latest +:+ "/download") = latest +:+ "/download") as Hslash.
  { apply removesuffix_not_endswith. by rewrite endswith_append_long by (cbn; lia). }
  split; [by rewrite Hrun|]. split; [|split].
  - unfold requested_firmware. rewrite Hslash. by apply removesuffix_appended.
  - unfold download_requested. rewrite Hslash. apply endswith_append.
  - rewrite Hrun. cbn [substring_in]. by rewrite append_nil_r.
Qed.

End LatestClaims.

Lemma latest_redirect_read_back_witness :
  (run (Example.answering "200")
     (get_firmware_latest (Example.request "bytes=0-") "EUX" "SM-G960F"
        "latest/download").2 []).2
  = Ok (redirect
          "/EUX/SM-G960F/G960FXXU1ASCD/G960FOXM1ASC1/G960FXXU1ASCD/G960FXXU1ASCD/download")
  ∧ requested_firmware (Example.firmware +:+ "/download") = Example.firmware.
Proof.
  destruct (latest_redirect_read_back (Example.answering "200")
              (Example.request "bytes=0-") "EUX" "SM-G960F"
              (Example.response 200 EmptyString (Ok Example.manifest)) Example.manifest
              _ Example.firmware eq_refl eq_refl eq_refl eq_refl eq_refl)
    as (Hrun & Hfw & _).
  split; [exact Hrun|exact Hfw].
Defined.

(** ** [KiesUtils.join_path] *)

Lemma prefix_char (c a : ascii) (s : string) :
  String.prefix (String c EmptyString) (String a s) = bool_decide (c = a).
Proof.
  simpl. destruct (ascii_dec c a) as [->|Hne].
  - rewrite bool_decide_true by done. by destruct s.
  - by rewrite bool_decide_false.
Qed.

Lemma replace_absent (c : ascii) (new s : string) :
  Py.count c s = 0%nat → Py.replace (String c EmptyString) new s = s.
Proof.
  unfold Py.replace. induction s as [|a s IH]; [done|]. cbn [Py.count Py.replace_go].
  destruct (decide (a = c)) as [->|Hne]; [done|]. intros Hc.
  rewrite prefix_char. rewrite bool_decide_false by congruence. by rewrite IH.
Qed.

Lemma clean_count (s : string) :
  clean s = true →
  Py.count "/" s = 0%nat ∧ Py.count (ascii_of_nat 92) s = 0%nat
  ∧ Py.count " " s = 0%nat.
Proof.
  induction s as [|a s IH]; [done|]. cbn [clean Py.count]. unfold clean_char.
  rewrite !andb_true_iff, !negb_true_iff. intros [[[Hsp Hsl] Hbs] Hs].
  apply bool_decide_eq_false in Hsl, Hbs. destruct (IH Hs) as (-> & -> & ->).
  rewrite !decide_False; [done| |done|done].
  intros ->. by vm_compute in Hsp.
Qed.

Lemma clean_strip (s : string) : clean s = true → Py.strip s = s.
Proof.
  intros Hs. unfold Py.strip.
  assert (Py.lstrip s = s) as ->.
  { destruct s as [|a s]; [done|]. cbn in *. unfold clean_char in Hs.
    rewrite !andb_true_iff, !negb_true_iff in Hs. by destruct Hs as [[[-> _] _] _]. }
  induction s as [|a s IH]; [done|]. cbn in *. unfold clean_char in Hs.
  rewrite !andb_true_iff, !negb_true_iff in Hs. destruct Hs as [[[Ha _] _] Hs].
  rewrite IH by done. rewrite Ha. by destruct s.
Qed.

(** X27: for a file name without whitespace, slash and backslash,
    [join_path] under [/neofus/910/] is that directory followed by the
    name; an empty name is skipped, and the directory comes without its
    final slash. *)
Theorem join_path_clean (filename : string) :
  clean filename = true →
  KiesUtils.join_path ["/neofus/910/"; filename] "/"
  = if decide (filename = EmptyString) then "/neofus/910"
    else "/neofus/910/" +:+ filename.
Proof.
  intros Hc. unfold KiesUtils.join_path.
  rewrite filter_cons_True by done.
  destruct (decide (filename = EmptyString)) as [->|Hne].
  - reflexivity.
  - rewrite filter_cons_True by done. rewrite filter_nil.
    cbn [fmap list_fmap]. destruct (clean_count _ Hc) as (H1 & H2 & H3).
    rewrite (clean_strip filename Hc).
    rewrite (replace_absent "/" " " filename H1).
    unfold Py.backslash. rewrite (replace_absent _ " " filename H2).
    rewrite (clean_strip filename Hc).
    rewrite (replace_absent " " "/" filename H3).
    reflexivity.
Qed.

Lemma join_path_clean_witness :
  KiesUtils.join_path ["/neofus/910/"; "fw.zip.enc4"] "/" = "/neofus/910/fw.zip.enc4".
Proof. exact (join_path_clean "fw.zip.enc4" eq_refl). Defined.

(** ** A firmware accepted by the pattern of the route *)

Lemma all_chars_get (P : ascii → bool) (s : string) (i : nat) (c : ascii) :
  all_chars P s = true → String.get i s = Some c → P c = true.
Proof.
  revert i. induction s as [|a s IH]; intros i; [done|]. cbn [all_chars].
  rewrite andb_true_iff. intros [Ha Hs]. destruct i as [|i]; simpl.
  - by intros [= <-].
  - by apply IH.
Qed.

Lemma all_chars_substring (P : ascii → bool) (s : string) (n m : nat) :
  all_chars P s = true → all_chars P (String.substring n m s) = true.
Proof.
  revert n m. induction s as [|a s IH]; intros n m.
  - by destruct n, m.
  - cbn [all_chars]. rewrite andb_true_iff. intros [Ha Hs].
    destruct n as [|n]; [destruct m as [|m]; [done|]|]; simpl.
    + by rewrite Ha, IH.
    + by apply IH.
Qed.

Lemma index_capital_or_digit (c : ascii) :
  capital_or_digit c = true → is_Ok (Py.index c KiesUtils.alphabet) = true.
Proof.
  unfold capital_or_digit. rewrite (proj2 (index_alphabet c)).
  rewrite orb_true_iff. intros [H|H]; apply bool_decide_eq_true in H.
  - case_bool_decide; [done|]. by rewrite bool_decide_true.
  - by rewrite bool_decide_true.
Qed.

Lemma item_all_chars (P : ascii → bool) (s : string) (i : nat) (c : ascii) :
  all_chars P s = true → Py.item s i = Ok c → P c = true.
Proof.
  intros Hs. unfold Py.item. destruct (String.get i s) eqn:Hg; [|done].
  intros [= <-]. by eapply all_chars_get.
Qed.

Lemma item_back_all_chars (P : ascii → bool) (s : string) (i : nat) (c : ascii) :
  all_chars P s = true → Py.item_back s i = Ok c → P c = true.
Proof.
  intros Hs. unfold Py.item_back. case_bool_decide; [|done].
  destruct (String.get _ s) eqn:Hg; [|done]. intros [= <-]. by eapply all_chars_get.
Qed.

Lemma read_pda_capitals (pda : string) (e : exn) :
  all_chars capital_or_digit pda = true →
  KiesUtils.read_pda pda = Raise e → e = IndexError.
Proof.
  intros Hall H. destruct (read_pda_error pda e H) as [He|He]; [done|]. subst e. exfalso.
  revert H. unfold KiesUtils.read_pda.
  destruct (Py.item pda 0) as [c0|e0] eqn:H0; cbn [mbind result_bind];
    [|intros [= ->]; by apply item_error in H0].
  destruct (bool_decide _).
  - destruct (Py.item pda 2) as [c2|?] eqn:H2; cbn [fmap result_fmap mbind result_bind];
      [|intros [= ->]; by apply item_error in H2].
    destruct (Py.item pda 3) as [c3|?] eqn:H3; cbn [fmap result_fmap mbind result_bind];
      [|intros [= ->]; by apply item_error in H3].
    destruct (Py.item pda 4) as [c4|?] eqn:H4; cbn [fmap result_fmap mbind result_bind];
      [|intros [= ->]; by apply item_error in H4].
    destruct (Py.item pda 5) as [c5|?] eqn:H5; cbn [fmap result_fmap mbind result_bind];
      [|intros [= ->]; by apply item_error in H5].
    pose proof (index_capital_or_digit c5 (item_all_chars _ _ _ _ Hall H5)) as Hi.
    by destruct (Py.index c5 KiesUtils.alphabet).
  - destruct (Py.item_back pda 3) as [c3|?] eqn:H3; cbn [fmap result_fmap mbind result_bind];
      [|intros [= ->]; by apply item_back_error in H3].
    destruct (Py.item_back pda 2) as [c4|?] eqn:H4; cbn [fmap result_fmap mbind result_bind];
      [|intros [= ->]; by apply item_back_error in H4].
    destruct (Py.item_back pda 1) as [c5|?] eqn:H5; cbn [fmap result_fmap mbind result_bind];
      [|intros [= ->]; by apply item_back_error in H5].
    pose proof (index_capital_or_digit c5 (item_back_all_chars _ _ _ _ Hall H5)) as Hi.
    by destruct (Py.index c5 KiesUtils.alphabet).
Qed.

Lemma split_head_append (c : ascii) (s t : string) :
  (1 ≤ Py.count c s)%nat →
  Py.split c (s +:+ t) !! 0%nat = Py.split c s !! 0%nat.
Proof.
  induction s as [|a s IH]; [simpl; lia|]. rewrite append_cons. cbn [Py.split Py.count].
  destruct (decide (a = c)); [done|]. intros Hc.
  pose proof (split_not_nil c (s +:+ t)). pose proof (split_not_nil c s).
  specialize (IH ltac:(lia)).
  destruct (Py.split c (s +:+ t)), (Py.split c s); try done.
  cbn in *. by injection IH as ->.
Qed.

(** X28: a firmware that passes the pattern of the route has three
    separators, so that the decoding of its build code at the end of a
    lookup never reports an invalid format or a character it cannot
    place: it succeeds, or fails on an index because the first component
    is too short. *)
Theorem matched_firmware_decodes (firmware : string) :
  match_firmware firmware = true →
  Py.count "/" firmware = 3%nat
  ∧ (is_Ok (KiesUtils.read_firmware firmware) = true
     ∨ KiesUtils.read_firmware firmware = Raise IndexError).
Proof.
  unfold match_firmware.
  set (body := if Py.endswith newline firmware
               then String.substring 0 (String.length firmware - 1) firmware
               else firmware).
  intros Hm.
  assert (∃ tail, firmware = body +:+ tail ∧ Py.count "/" tail = 0%nat) as (tail & Hf & Ht).
  { subst body. destruct (Py.endswith newline firmware) eqn:He.
    - exists newline. split; [|done]. symmetry.
      pose proof (removesuffix_append newline firmware He) as Hr.
      unfold Py.removesuffix in Hr. rewrite He in Hr. exact Hr.
    - exists EmptyString. by rewrite append_nil_r. }
  pose proof (length_split "/" body) as Hlen.
  pose proof (split_no_sep "/" body) as Hsep.
  destruct (Py.split "/" body) as [|a [|b [|c [|d [|]]]]] eqn:Hs; try done.
  cbn in Hlen. injection Hlen as Hcount.
  cbn [forallb] in Hm. apply andb_true_iff in Hm as [Ha _].
  assert (Py.count "/" firmware = 3%nat) as Hc3.
  { rewrite Hf, count_append. lia. }
  split; [done|].
  unfold KiesUtils.read_firmware. rewrite bool_decide_true by done.
  assert (Py.split "/" firmware !! 0%nat = Some a) as Hhead.
  { rewrite Hf, split_head_append by lia. by rewrite Hs. }
  pose proof (split_not_nil "/" firmware).
  destruct (Py.split "/" firmware) as [|first l]; [done|]. injection Hhead as ->.
  cbn [KiesUtils.list_item lookup list_lookup or_raise mbind result_bind].
  destruct (KiesUtils.read_pda (Py.last_chars 6 a)) as [info|e] eqn:Hpda; [by left|].
  right. f_equal. eapply read_pda_capitals; [|exact Hpda].
  by apply all_chars_substring.
Qed.

Lemma matched_firmware_decodes_witness :
  Py.count "/" "XX/B/C/D" = 3%nat
  ∧ (is_Ok (KiesUtils.read_firmware "XX/B/C/D") = true
     ∨ KiesUtils.read_firmware "XX/B/C/D" = Raise IndexError).
Proof. exact (matched_firmware_decodes "XX/B/C/D" eq_refl). Defined.

(** ** What a list that is answered holds *)

Lemma firmware_entries_decoded (l : list (option string)) (i : nat)
    (ff : list Listing.t) :
  firmware_entries i l = Ok ff →
  Some <$> (Listing.firmware <$> ff) = l
  ∧ Forall (λ x, Py.count "/" (Listing.firmware x) = 3%nat
                 ∧ KiesUtils.read_firmware_dict (Listing.firmware x)
                   = Ok (Listing.pda x)) ff
  ∧ Listing.is_latest <$> ff
    = match ff with
      | [] => []
      | _ :: ff' => (if bool_decide (i = 0%nat) then Some true else None)
                    :: replicate (length ff') None
      end.
Proof.
  revert i ff. induction l as [|f l IH]; intros i ff; cbn [firmware_entries].
  - by intros [= <-].
  - destruct f as [f|]; cbn [or_raise mbind result_bind]; [|done].
    destruct (KiesUtils.read_firmware_dict f) as [info|] eqn:Hinfo;
      cbn [mbind result_bind]; [|done].
    destruct (firmware_entries (S i) l) as [ff'|] eqn:Hff; cbn [mbind result_bind]; [|done].
    intros [= <-]. destruct (IH _ _ Hff) as (Hl & Hall & Hlat).
    split; [by rewrite <- Hl|]. split.
    + constructor; [|done]. cbn. split; [|done].
      unfold KiesUtils.read_firmware_dict in Hinfo.
      destruct (KiesUtils.read_firmware f) as [bi|] eqn:Hr; [|done].
      by apply read_firmware_pda in Hr as (? & _ & ? & _).
    + cbn [fmap list_fmap Listing.is_latest]. f_equal.
      change (list_fmap _ _ Listing.is_latest ff') with (Listing.is_latest <$> ff').
      rewrite Hlat. by destruct ff'.
Qed.

Section ListAnswered.
Context {Session : Type} {ops : SessionOps Session} {builtins : Builtins}.
Implicit Types (w : World Session).

(** X29: whatever the manifest, a list that [get_firmware_list] answers is
    not empty, its first element alone is marked as latest, and every
    element is a firmware of exactly four components given with the
    decoding of its own build code. *)
Theorem get_firmware_list_answer w region model tr (ff : list Listing.t) :
  run w (get_firmware_list region model) [] = (tr, Ok (json_list ff)) →
  Listing.is_latest <$> ff = Some true :: replicate (pred (length ff)) None
  ∧ Forall (λ x, Py.count "/" (Listing.firmware x) = 3%nat
                 ∧ KiesUtils.read_firmware_dict (Listing.firmware x)
                   = Ok (Listing.pda x)) ff.
Proof.
  unfold get_firmware_list. rewrite run_bind, run_send.
  destruct (http w [] (list_firmware region model)) as [response|e]; cbn [fst snd]; [|done].
  rewrite run_bind. cbn [aclose run mret Prog_ret fst snd app].
  case_bool_decide; [done|].
  rewrite run_bind, run_lift. cbn [fst snd].
  destruct (Response.xml response) as [data|]; [|done].
  rewrite run_bind, run_lift. cbn [fst snd].
  destruct (KiesFirmwareList._versions data) as [versions|]; [|done].
  rewrite run_bind, run_lift. cbn [fst snd].
  destruct (KiesFirmwareList.exists_ versions) as [ex|]; [|done].
  destruct ex; [|by destruct (PyVal.is_none _)].
  rewrite run_bind, run_lift. cbn [fst snd].
  destruct (KiesFirmwareList.latest versions) as [latest|]; [|done].
  rewrite run_bind, run_lift. cbn [fst snd].
  destruct (KiesFirmwareList.alternate versions) as [alts|]; [|done].
  rewrite run_bind, run_lift. cbn [fst snd].
  destruct (firmware_entries 0 (latest :: (Some <$> alts))) as [ff'|] eqn:Hff; [|done].
  cbn [run mret Prog_ret]. intros [= _ <-].
  apply firmware_entries_decoded in Hff as (Hl & Hall & Hlat).
  split; [|done]. rewrite Hlat. destruct ff' as [|x ff']; [done|]. done.
Qed.

End ListAnswered.

Lemma get_firmware_list_answer_witness :
  ∃ ff, (run (Example.answering "200") (get_firmware_list "EUX" "SM-G960F") []).2
        = Ok (json_list ff)
        ∧ Listing.is_latest <$> ff = Some true :: replicate (pred (length ff)) None.
Proof.
  eexists. split; [reflexivity|].
  exact (proj1 (get_firmware_list_answer (Example.answering "200") "EUX" "SM-G960F"
                  _ _ eq_refl)).
Defined.

(** ** The paths of [download_binary] and the refusals of the list, run *)

Lemma download_binary_streamed_witness :
  ∃ tr,
    run (Example.answering "200")
      (download_binary (Example.request "bytes=0-") "EUX" "SM-G960F" "fw.zip.enc4") []
    = (tr, Raise (make_error KIES_SERVER_OUTER_ERROR 200))
    ∧ last tr = Some (DecryptorStarted (Some [0; 255])).
Proof.
  eexists. split.
  - refine (download_binary_streamed (Example.answering "200") (Example.request "bytes=0-")
              "EUX" "SM-G960F" "fw.zip.enc4"
              (Example.response 200 EmptyString (Raise ParseError)) ()
              (Example.response 200 "200" (Ok (Example.binary_document "200"))) ()
              (Example.response 206 EmptyString (Raise ParseError)) (Some [0; 255])
              _ _ eq_refl _ eq_refl eq_refl).
    + repeat (split; [reflexivity|]). reflexivity.
    + exists 0, 0. split; reflexivity.
    + apply elem_of_cons; right; apply elem_of_cons; by left.
  - reflexivity.
Defined.

Lemma download_binary_bad_key_witness :
  ∃ tr,
    run (Example.answering "200")
      (download_binary (Further.request {["decrypt" := "zz"]} ∅)
         "EUX" "SM-G960F" "fw.zip.enc4") []
    = (tr, Raise (ValueError "non-hexadecimal number found in fromhex()"))
    ∧ count_events is_closed tr = 0%nat.
Proof.
  eexists. split.
  - refine (download_binary_bad_key (Example.answering "200")
              (Further.request {["decrypt" := "zz"]} ∅)
              "EUX" "SM-G960F" "fw.zip.enc4"
              (Example.response 200 EmptyString (Raise ParseError)) ()
              (Example.response 200 "200" (Ok (Example.binary_document "200"))) ()
              (Example.response 206 EmptyString (Raise ParseError)) _
              _ _ eq_refl _ eq_refl).
    + repeat (split; [reflexivity|]). reflexivity.
    + exists 0, 0. split; reflexivity.
    + apply elem_of_cons; right; apply elem_of_cons; by left.
  - reflexivity.
Defined.

Lemma download_binary_upstream_rejected_witness :
  ∃ tr,
    run (Further.world 200 Example.manifest 200 403)
      (download_binary (Further.request ∅ ∅) "EUX" "SM-G960F" "fw.zip.enc4") []
    = (tr, Raise (make_error KIES_SERVER_ERROR 403))
    ∧ last tr = Some Closed.
Proof.
  eexists. split.
  - refine (download_binary_upstream_rejected (Further.world 200 Example.manifest 200 403)
              (Further.request ∅ ∅) "EUX" "SM-G960F" "fw.zip.enc4"
              (Example.response 200 EmptyString (Raise ParseError)) ()
              (Example.response 200 "200" (Ok (Example.binary_document "200"))) ()
              (Example.response 403 EmptyString (Raise ParseError))
              _ _ eq_refl _).
    + repeat (split; [reflexivity|]). reflexivity.
    + exists 0, 0. split; reflexivity.
    + intros H. apply elem_of_cons in H as [H|H]; [discriminate H|].
      apply elem_of_cons in H as [H|H]; [discriminate H|].
      by apply elem_of_nil in H.
  - reflexivity.
Defined.

Lemma download_binary_outer_error_witness :
  ∃ tr,
    run (Further.world 200 Example.manifest 503 206)
      (download_binary (Example.request "bytes=0-100") "EUX" "SM-G960F" "fw.zip.enc4") []
    = (tr, Raise (make_error KIES_SERVER_OUTER_ERROR 503))
    ∧ count_events is_closed tr = 0%nat.
Proof.
  eexists. split.
  - refine (download_binary_outer_error (Further.world 200 Example.manifest 503 206)
              (Example.request "bytes=0-100") "EUX" "SM-G960F" "fw.zip.enc4"
              (Example.response 200 EmptyString (Raise ParseError)) ()
              (Example.response 503 "200" (Ok (Example.binary_document "200"))) ()
              eq_refl eq_refl eq_refl eq_refl _).
    discriminate.
  - reflexivity.
Defined.

Lemma download_binary_protocol_error_witness :
  ∃ tr,
    run (Example.answering "408")
      (download_binary (Example.request "no range") "EUX" "SM-G960F" "fw.zip.enc4") []
    = (tr, Raise (make_error KIES_SERVER_ERROR 408))
    ∧ last tr = Some Closed.
Proof.
  eexists. split.
  - refine (download_binary_protocol_error (Example.answering "408")
              (Example.request "no range") "EUX" "SM-G960F" "fw.zip.enc4"
              (Example.response 200 EmptyString (Raise ParseError)) ()
              (Example.response 200 "408" (Ok (Example.binary_document "408"))) ()
              408 eq_refl eq_refl eq_refl eq_refl eq_refl eq_refl _).
    discriminate.
  - reflexivity.
Defined.

Lemma download_binary_plain_range_witness :
  start_download "/neofus/910/fw.zip.enc4" () (Some "bytes=100-50")
  ∈ requests
      (run (Example.answering "200")
         (download_binary (Further.request ∅ {["Range" := "bytes=100-50"]})
            "EUX" "SM-G960F" "fw.zip.enc4") []).1.
Proof.
  refine (download_binary_plain_range (Example.answering "200")
            (Further.request ∅ {["Range" := "bytes=100-50"]})
            "EUX" "SM-G960F" "fw.zip.enc4"
            (Example.response 200 EmptyString (Raise ParseError)) ()
            (Example.response 200 "200" (Ok (Example.binary_document "200"))) ()
            100 50 _ eq_refl eq_refl _ _).
  - repeat (split; [reflexivity|]). reflexivity.
  - discriminate.
  - discriminate.
Defined.

Lemma custom_filename_zip_witness :
  CUSTOM_FILENAME (Further.request {["filename" := "firmware"]} ∅) = Some "firmware.zip"
  ∧ CUSTOM_FILENAME (Further.request {["filename" := "fw.zip"]} ∅) = Some "fw.zip".
Proof.
  split.
  - destruct (custom_filename_zip (Further.request {["filename" := "firmware"]} ∅)
                "firmware") as (c & -> & _ & ->); [vm_compute|]; reflexivity.
  - destruct (custom_filename_zip (Further.request {["filename" := "fw.zip"]} ∅)
                "fw.zip") as (c & -> & _ & ->); [vm_compute|]; reflexivity.
Defined.

Lemma get_firmware_list_refusals_witness :
  (run (Further.world 403 Example.manifest 200 206)
     (get_firmware_list "EUX" "SM-G960F") []).2
  = Raise (make_error DEVICE_NOT_FOUND 403)
  ∧ (run (Further.world 200 Further.no_versions 200 206)
       (get_firmware_list "EUX" "SM-G960F") []).2
    = Raise (make_error FIRMWARE_LIST_EMPTY 404)
  ∧ (run (Further.world 200 Further.no_latest 200 206)
       (get_firmware_list "EUX" "SM-G960F") []).2
    = Raise (make_error FIRMWARE_CANT_PARSE 404).
Proof.
  split; [|split].
  - apply (proj1 (get_firmware_list_refusals (Further.world 403 Example.manifest 200 206)
                    "EUX" "SM-G960F" _ eq_refl)). discriminate.
  - exact (proj1 (proj2 (get_firmware_list_refusals
                           (Further.world 200 Further.no_versions 200 206)
                           "EUX" "SM-G960F" _ eq_refl)) _ eq_refl eq_refl eq_refl).
  - exact (proj2 (proj2 (get_firmware_list_refusals
                           (Further.world 200 Further.no_latest 200 206)
                           "EUX" "SM-G960F" _ eq_refl)) _ _ eq_refl eq_refl eq_refl eq_refl).
Defined.
